(** * reviews-scraper: a shallow embedding of the review pipeline

    The development follows the layout of the repository:
    - [Js]       the JavaScript built-ins the sources rely on (strings,
                 [parseInt], regular expressions, [Date]);
    - [ExportReviews]   [convertToCSV] of the export utility;
    - [Common]   the shared date utilities ([parseDate],
                 [filterReviewsByDate], [calculateDateFromRelative],
                 [isReviewInDateRange]);
    - [G2], [Capterra], [Trustpilot]   the three scrapers: record
                 extraction, the retry loop and pagination;
    - [Reference]   the properties the scrapers are measured against,
                 written independently of the code;
    - [Examples]   concrete pages, records and dates;
    - [SaveFile], [ExportFiles], [TrustpilotUrl], [Scrapper]   the file
                 names of [saveToJsonFile] and [generateCSVFilename],
                 the address of a Trustpilot page, and [scrapeReviews];
    - [Shapes], [Outcomes], [Cases]   what these are measured against,
                 and more example data;
    - [ExportProps], [DateProps], [StringProps], [CommonProps],
      [ParserProps], [RetryProps], [G2PaginationProps],
      [TrustpilotPaginationProps], [RegexProps], [FileNameProps],
      [UrlProps], [RelativeDateProps], [RecordProps], [OutcomeProps],
      [TrustpilotResultProps], [DispatchProps]   the theorems.

    Strings are byte strings ([string] of the standard library); numbers
    that the sources only use as integers are in [Z], and a value that
    may be [NaN] is an [option Z]. *)

From Stdlib Require Import ZArith List String Ascii Bool Arith Lia.
From Stdlib Require Import DecimalString DecimalNat DecimalFacts.
From Equations Require Import Equations.
Import ListNotations.

Open Scope string_scope.

(* ===================================================================== *)
(** * JavaScript built-ins *)
(* ===================================================================== *)
Module Js.

(** ** Characters and strings *)

Definition dquote : ascii := ascii_of_nat 34.
Definition newline : ascii := ascii_of_nat 10.

Definition is_digit (c : ascii) : bool :=
  let n := nat_of_ascii c in (48 <=? n)%nat && (n <=? 57)%nat.

Definition digit_value (c : ascii) : Z := (Z.of_nat (nat_of_ascii c) - 48)%Z.

Definition is_upper (c : ascii) : bool :=
  let n := nat_of_ascii c in (65 <=? n)%nat && (n <=? 90)%nat.

Definition is_lower (c : ascii) : bool :=
  let n := nat_of_ascii c in (97 <=? n)%nat && (n <=? 122)%nat.

(** White space as [String.prototype.trim] and [\s] see it, restricted to
    the one-byte characters: TAB, LF, VT, FF, CR and SPACE. *)
Definition is_space (c : ascii) : bool :=
  let n := nat_of_ascii c in
  ((9 <=? n)%nat && (n <=? 13)%nat) || (n =? 32)%nat.

Definition lower_char (c : ascii) : ascii :=
  if is_upper c then ascii_of_nat (nat_of_ascii c + 32) else c.

Fixpoint toLowerCase (s : string) : string :=
  match s with
  | EmptyString => EmptyString
  | String c s' => String (lower_char c) (toLowerCase s')
  end.

Fixpoint trimStart (s : string) : string :=
  match s with
  | EmptyString => EmptyString
  | String c s' => if is_space c then trimStart s' else s
  end.

(** [trimEnd] drops the trailing white space: a character is kept when
    it is not a space or something is kept after it. *)
Fixpoint trimEnd (s : string) : string :=
  match s with
  | EmptyString => EmptyString
  | String c s' =>
      match trimEnd s' with
      | EmptyString => if is_space c then EmptyString else String c EmptyString
      | t => String c t
      end
  end.

Definition trim (s : string) : string := trimEnd (trimStart s).

(** [s.includes(pat)] *)
Fixpoint includes (s pat : string) : bool :=
  if prefix pat s then true
  else match s with
       | EmptyString => false
       | String _ s' => includes s' pat
       end.

(** [s.startsWith(pat)] *)
Definition startsWith (s pat : string) : bool := prefix pat s.

(** [parts.join(sep)] *)
Fixpoint join (sep : string) (parts : list string) : string :=
  match parts with
  | [] => ""
  | [p] => p
  | p :: rest => p ++ sep ++ join sep rest
  end.

(** Truthiness of a string: the empty string is the only falsy one. *)
Definition truthy (s : string) : bool :=
  match s with EmptyString => false | _ => true end.

(** [a || b] on strings. *)
Definition or_else (a b : string) : string := if truthy a then a else b.

(** Decimal rendering of a non-negative integer ([n.toString()]). *)
Definition nat_toString (n : nat) : string :=
  NilEmpty.string_of_uint (Nat.to_uint n).

(** Decimal rendering of an integer ([String(z)]), for the integers a
    double holds exactly and prints without an exponent. *)
Definition Z_toString (z : Z) : string :=
  NilEmpty.string_of_int (Z.to_int z).


(** ** Completions

    A call either returns a value or throws. *)
Inductive completion (A : Type) : Type :=
| Normal (a : A)
| Throw (e : string).
Arguments Normal {A} a.
Arguments Throw {A} e.

Definition bind {A B : Type} (c : completion A) (f : A -> completion B)
  : completion B :=
  match c with
  | Normal a => f a
  | Throw e => Throw e
  end.

Notation "x <- c ;; k" := (bind c (fun x => k))
  (at level 61, c at next level, right associativity).

(** [xs.map(f)] where [f] may throw: the first exception ends the map. *)
Fixpoint mapM {A B : Type} (f : A -> completion B) (l : list A)
  : completion (list B) :=
  match l with
  | [] => Normal []
  | a :: l' => b <- f a ;; bs <- mapM f l' ;; Normal (b :: bs)
  end.

(** ** [parseInt]

    [parseInt(s)] skips leading white space, reads an optional sign and
    an optional [0x] prefix, then the longest run of digits of the radix.
    With no digit at all the result is [NaN], here [None]. *)

Definition hex_value (c : ascii) : option Z :=
  let n := nat_of_ascii c in
  if is_digit c then Some (Z.of_nat n - 48)%Z
  else if (97 <=? n)%nat && (n <=? 102)%nat then Some (Z.of_nat n - 87)%Z
  else if (65 <=? n)%nat && (n <=? 70)%nat then Some (Z.of_nat n - 55)%Z
  else None.

Definition radix_value (radix : Z) (c : ascii) : option Z :=
  if (radix =? 16)%Z then hex_value c
  else if is_digit c then Some (digit_value c) else None.

(** Reads the digits of the radix off the front of [s]; [acc] is the
    value read so far, [None] while no digit has been read. *)
Fixpoint read_digits (radix : Z) (acc : option Z) (s : string) : option Z :=
  match s with
  | EmptyString => acc
  | String c s' =>
      match radix_value radix c with
      | Some d =>
          read_digits radix
            (Some (match acc with Some a => a * radix + d | None => d end)%Z) s'
      | None => acc
      end
  end.

Definition is_x (c : ascii) : bool :=
  let n := nat_of_ascii c in (n =? 120)%nat || (n =? 88)%nat.

Definition parseInt (s : string) : option Z :=
  let s1 := trimStart s in
  let '(neg, s2) :=
    match s1 with
    | String c t =>
        if (nat_of_ascii c =? 45)%nat then (true, t)
        else if (nat_of_ascii c =? 43)%nat then (false, t)
        else (false, s1)
    | EmptyString => (false, s1)
    end in
  let '(radix, s3) :=
    match s2 with
    | String z (String x t) =>
        if (nat_of_ascii z =? 48)%nat && is_x x then (16, t) else (10, s2)
    | _ => (10, s2)
    end%Z in
  match read_digits radix None s3 with
  | Some v => Some (if neg then - v else v)%Z
  | None => None
  end.

(** [+s] on a string the caller has already matched against [\d+]. *)
Definition digits_toNumber (s : string) : Z :=
  match read_digits 10 None s with Some v => v | None => 0%Z end.

(** ** Regular expressions

    The patterns of the sources, as syntax trees, and a backtracking
    matcher with the priorities of the ECMAScript one: alternatives left
    to right, a greedy star the longest repetition first, a lazy star the
    shortest first, a look-ahead that consumes nothing. *)

Inductive cset : Type :=
| CAny                              (* [.] : anything but a line end *)
| CLit (c : ascii)                  (* the character itself *)
| CLitI (c : ascii)                 (* the character, under the [i] flag *)
| CDigit                            (* [\d] *)
| CSpace                            (* [\s] *)
| CRange (lo hi : ascii)            (* [lo-hi] *)
| CNot (cs : cset)                  (* [^...] *)
| COr (a b : cset).                 (* a class with several members *)

Fixpoint cset_mem (cs : cset) (c : ascii) : bool :=
  match cs with
  | CAny => negb ((nat_of_ascii c =? 10)%nat || (nat_of_ascii c =? 13)%nat)
  | CLit x => Ascii.eqb x c
  | CLitI x => Ascii.eqb (lower_char x) (lower_char c)
  | CDigit => is_digit c
  | CSpace => is_space c
  | CRange lo hi =>
      (nat_of_ascii lo <=? nat_of_ascii c)%nat
      && (nat_of_ascii c <=? nat_of_ascii hi)%nat
  | CNot a => negb (cset_mem a c)
  | COr a b => cset_mem a c || cset_mem b c
  end.

Inductive regex : Type :=
| Eps
| Chr (cs : cset)
| Seq (a b : regex)
| Alt (a b : regex)
| Star (greedy : bool) (a : regex)
| Group (i : nat) (a : regex)
| Look (a : regex)
| Bol
| Eol.

(** Derived forms. *)
Definition Plus (a : regex) : regex := Seq a (Star true a).
Definition Opt (a : regex) : regex := Alt a Eps.

Fixpoint Lit (s : string) : regex :=
  match s with
  | EmptyString => Eps
  | String c s' => Seq (Chr (CLit c)) (Lit s')
  end.

Fixpoint LitI (s : string) : regex :=
  match s with
  | EmptyString => Eps
  | String c s' => Seq (Chr (CLitI c)) (LitI s')
  end.

(** The matcher's state: the index reached, the input left, and the
    groups captured so far (the latest binding of a group first). *)
Record mstate : Type := MState {
  pos : nat;
  rest : string;
  caps : list (nat * string)
}.

Definition take (n : nat) (s : string) : string := substring 0 n s.

Fixpoint drop (n : nat) (s : string) : string :=
  match n, s with
  | O, _ => s
  | S n', String _ s' => drop n' s'
  | S _, EmptyString => EmptyString
  end.

(** [rmatch r st k]: match [r] at [st], then hand the state reached to
    the continuation [k]; [None] makes the matcher backtrack.  A star
    repeats only iterations that consume input, so the length of the
    input left bounds the repetitions. *)
Fixpoint rmatch (r : regex) (st : mstate) (k : mstate -> option mstate)
  {struct r} : option mstate :=
  match r with
  | Eps => k st
  | Chr cs =>
      match rest st with
      | String c s' =>
          if cset_mem cs c then k (MState (S (pos st)) s' (caps st)) else None
      | EmptyString => None
      end
  | Seq a b => rmatch a st (fun st' => rmatch b st' k)
  | Alt a b =>
      match rmatch a st k with
      | Some res => Some res
      | None => rmatch b st k
      end
  | Star greedy a =>
      (fix loop (n : nat) (st : mstate) {struct n} : option mstate :=
         match n with
         | O => k st
         | S n' =>
             let again (_ : unit) :=
               rmatch a st (fun st' =>
                 if (pos st <? pos st')%nat then loop n' st' else None) in
             if greedy then
               match again tt with
               | Some res => Some res
               | None => k st
               end
             else
               match k st with
               | Some res => Some res
               | None => again tt
               end
         end) (String.length (rest st)) st
  | Group i a =>
      rmatch a st (fun st' =>
        k (MState (pos st') (rest st')
             ((i, take (pos st' - pos st) (rest st)) :: caps st')))
  | Look a =>
      match rmatch a st Some with
      | Some st' => k (MState (pos st) (rest st) (caps st'))
      | None => None
      end
  | Bol => if (pos st =? 0)%nat then k st else None
  | Eol => match rest st with EmptyString => k st | _ => None end
  end.

(** The match found by [exec]: where it starts, the text matched and the
    groups. *)
Record rmatch_result : Type := MatchResult {
  m_index : nat;
  m_text : string;
  m_caps : list (nat * string)
}.

Definition match_at (r : regex) (p : nat) (s : string) : option rmatch_result :=
  match rmatch r (MState p s []) Some with
  | Some st => Some (MatchResult p (take (pos st - p) s) (caps st))
  | None => None
  end.

(** The leftmost match of [r] in the input of which [s] is the part from
    index [p] on. *)
Fixpoint search_from (r : regex) (p : nat) (s : string) : option rmatch_result :=
  match match_at r p s with
  | Some m => Some m
  | None =>
      match s with
      | EmptyString => None
      | String _ s' => search_from r (S p) s'
      end
  end.

(** [s.match(r)] for a pattern without the [g] flag. *)
Definition exec (r : regex) (s : string) : option rmatch_result :=
  search_from r 0 s.

(** Group [i] of a match; [None] is [undefined]. *)
Fixpoint lookup_cap (i : nat) (l : list (nat * string)) : option string :=
  match l with
  | [] => None
  | (j, v) :: l' => if (i =? j)%nat then Some v else lookup_cap i l'
  end.

Definition group (i : nat) (m : rmatch_result) : option string :=
  lookup_cap i (m_caps m).

(** [m[i]] where the pattern makes group [i] take part in every match. *)
Definition group_text (i : nat) (m : rmatch_result) : string :=
  match group i m with Some v => v | None => "" end.

(** [s.replace(r, by)] for a pattern without the [g] flag: the leftmost
    match only. *)
Definition replace (r : regex) (by_ : string) (s : string) : string :=
  match exec r s with
  | Some m =>
      take (m_index m) s ++ by_
        ++ drop (m_index m + String.length (m_text m)) s
  | None => s
  end.

(** [s.replace(r, by)] for a pattern with the [g] flag: every match, left
    to right, the search resuming where the last match ended (one
    character further after an empty match).  [skip] counts the
    characters of the current match that are still to be dropped. *)
Fixpoint replace_all_from (r : regex) (by_ : string) (skip p : nat) (s : string)
  : string :=
  match skip with
  | S skip' =>
      match s with
      | String _ s' => replace_all_from r by_ skip' (S p) s'
      | EmptyString => EmptyString
      end
  | O =>
      match match_at r p s with
      | Some m =>
          match String.length (m_text m), s with
          | O, String c s' => by_ ++ String c (replace_all_from r by_ 0 (S p) s')
          | O, EmptyString => by_
          | S l, String _ s' => by_ ++ replace_all_from r by_ l (S p) s'
          | S _, EmptyString => by_
          end
      | None =>
          match s with
          | String c s' => String c (replace_all_from r by_ 0 (S p) s')
          | EmptyString => EmptyString
          end
      end
  end.

Definition replace_all (r : regex) (by_ : string) (s : string) : string :=
  replace_all_from r by_ 0 0 s.


(** ** Dates

    A [Date] holds a time value in milliseconds, or [NaN] for an invalid
    date.  The sources read and build dates through the local-time
    accessors only, so the time values here are local ones: the offset of
    the time zone is taken constant and left out, which changes none of
    the comparisons.  Day numbers and calendar fields follow the
    definitions of ECMA-262 (Day, DayFromYear, YearFromTime,
    MonthFromTime, DateFromTime, MakeDay, TimeClip). *)

Open Scope Z_scope.

Definition Date : Type := option Z.

Definition msPerDay : Z := 86400000.

Definition Day (t : Z) : Z := t / msPerDay.
Definition TimeWithinDay (t : Z) : Z := t mod msPerDay.

Definition DaysInYear (y : Z) : Z :=
  if negb (y mod 4 =? 0) then 365
  else if negb (y mod 100 =? 0) then 366
  else if negb (y mod 400 =? 0) then 365
  else 366.

Definition DayFromYear (y : Z) : Z :=
  365 * (y - 1970) + (y - 1969) / 4 - (y - 1901) / 100 + (y - 1601) / 400.

(** The largest year whose first day is not after day [d]: the estimate
    from the mean length of a year is off by one at most. *)
Definition YearFromDay (d : Z) : Z :=
  let y0 := 1970 + (400 * d) / 146097 in
  if DayFromYear (y0 + 1) <=? d then y0 + 1
  else if DayFromYear y0 <=? d then y0
  else y0 - 1.

Definition InLeapYear (y : Z) : Z := if DaysInYear y =? 366 then 1 else 0.

(** The day within the year on which month [m] (0 to 11) starts. *)
Definition month_start (m leap : Z) : Z :=
  if m =? 0 then 0
  else if m =? 1 then 31
  else if m =? 2 then 59 + leap
  else if m =? 3 then 90 + leap
  else if m =? 4 then 120 + leap
  else if m =? 5 then 151 + leap
  else if m =? 6 then 181 + leap
  else if m =? 7 then 212 + leap
  else if m =? 8 then 243 + leap
  else if m =? 9 then 273 + leap
  else if m =? 10 then 304 + leap
  else 334 + leap.

Definition DayWithinYear (d : Z) : Z := d - DayFromYear (YearFromDay d).

Definition MonthFromDay (d : Z) : Z :=
  let w := DayWithinYear d in
  let leap := InLeapYear (YearFromDay d) in
  if w <? 31 then 0
  else if w <? 59 + leap then 1
  else if w <? 90 + leap then 2
  else if w <? 120 + leap then 3
  else if w <? 151 + leap then 4
  else if w <? 181 + leap then 5
  else if w <? 212 + leap then 6
  else if w <? 243 + leap then 7
  else if w <? 273 + leap then 8
  else if w <? 304 + leap then 9
  else if w <? 334 + leap then 10
  else 11.

Definition DateFromDay (d : Z) : Z :=
  DayWithinYear d + 1
  - month_start (MonthFromDay d) (InLeapYear (YearFromDay d)).

(** [MakeDay(year, month, date)]: months outside 0..11 carry into the
    year, and the date counts on from the first of the month whatever
    its size. *)
Definition MakeDay (year month date : Z) : Z :=
  let ym := year + month / 12 in
  let mn := month mod 12 in
  DayFromYear ym + month_start mn (InLeapYear ym) + date - 1.

Definition TimeClip (t : Z) : Date :=
  if Z.abs t <=? 8640000000000000 then Some t else None.

(** [new Date(year, month, date)]: a year from 0 to 99 stands for
    1900 + year; a [NaN] argument gives an invalid date. *)
Definition Date_ymd (year month date : option Z) : Date :=
  match year, month, date with
  | Some y, Some m, Some d =>
      let yr := if (0 <=? y) && (y <=? 99) then 1900 + y else y in
      TimeClip (MakeDay yr m d * msPerDay)
  | _, _, _ => None
  end.

Definition getFullYear (t : Z) : Z := YearFromDay (Day t).
Definition getMonth (t : Z) : Z := MonthFromDay (Day t).
Definition getDate (t : Z) : Z := DateFromDay (Day t).

(** [d.setDate(dt)] on the valid date of time value [t]. *)
Definition setDate (t : Z) (dt : option Z) : Date :=
  match dt with
  | Some d =>
      TimeClip (MakeDay (getFullYear t) (getMonth t) d * msPerDay
                + TimeWithinDay t)
  | None => None
  end.

(** [isNaN(d)] *)
Definition isNaN (d : Date) : bool :=
  match d with Some _ => false | None => true end.

(** [a <= b] and [a >= b] on dates: a comparison with [NaN] is false. *)
Definition date_le (a b : Date) : bool :=
  match a, b with
  | Some x, Some y => x <=? y
  | _, _ => false
  end.

Definition date_ge (a b : Date) : bool :=
  match a, b with
  | Some x, Some y => y <=? x
  | _, _ => false
  end.

Definition date_lt (a b : Date) : bool :=
  match a, b with
  | Some x, Some y => x <? y
  | _, _ => false
  end.

(** [a - b] on numbers that may be [NaN]. *)
Definition num_sub (a b : option Z) : option Z :=
  match a, b with
  | Some x, Some y => Some (x - y)
  | _, _ => None
  end.

Close Scope Z_scope.

End Js.

(* ===================================================================== *)
(** * The canonical review record *)
(* ===================================================================== *)

(** The text of a review: the three answers of a G2 review, or the single
    text of a Capterra or Trustpilot review. *)
Inductive ReviewContent : Type :=
| G2Answers (like dislike problemsSolved : string)
| ReviewText (reviewText : string).

Record ReviewRecord : Type := mkReview {
  reviewerName : string;
  jobTitle : string;
  reviewDate : string;
  stars : string;
  reviewTitle : string;
  content : ReviewContent
}.

Inductive ReviewSite : Type := SiteG2 | SiteCapterra | SiteTrustpilot.

Record ProductSummary : Type := mkSummary {
  productName : string;
  reviewSite : ReviewSite;
  summaryStars : string;
  totalReviews : string
}.

(** What a scraper returns: the summary, the reviews kept and their
    count. *)
Record ScrapeResult : Type := mkResult {
  summary : option ProductSummary;
  allReviews : list ReviewRecord;
  totalScrapedReviews : nat
}.

(* ===================================================================== *)
(** * export_reviews.js *)
(* ===================================================================== *)
Module ExportReviews.
Import Js.

(** ** Numbers

    A number is a double, held as what [Number::toString] reads off it:
    [NaN], an infinity, zero, or a sign with the decimal digits [s] that
    write it shortest and the place [n] of the decimal point, the value
    being [0.s] times ten to the [n]. *)
Inductive number : Type :=
| NNaN
| NInfinity (neg : bool)
| NZero
| NFinite (neg : bool) (s : positive) (n : Z).

Fixpoint zeros (n : nat) : string :=
  match n with
  | O => EmptyString
  | S n' => String "0" (zeros n')
  end.

Definition pos_toString (p : positive) : string :=
  NilEmpty.string_of_uint (Pos.to_uint p).

(** [Number::toString(x)], radix 10. *)
Definition Number_toString (x : number) : string :=
  match x with
  | NNaN => "NaN"
  | NInfinity neg => (if neg then "-" else "") ++ "Infinity"
  | NZero => "0"
  | NFinite neg s n =>
      let digits := pos_toString s in
      let k := Z.of_nat (String.length digits) in
      let body :=
        if ((k <=? n) && (n <=? 21))%Z then
          digits ++ zeros (Z.to_nat (n - k))
        else if ((0 <? n) && (n <=? 21))%Z then
          take (Z.to_nat n) digits ++ "." ++ drop (Z.to_nat n) digits
        else if ((-6 <? n) && (n <=? 0))%Z then
          "0." ++ zeros (Z.to_nat (- n)) ++ digits
        else
          let e := (n - 1)%Z in
          let exponent :=
            (if (e <? 0)%Z then "-" else "+") ++ Z_toString (Z.abs e) in
          if (k =? 1)%Z then digits ++ "e" ++ exponent
          else take 1 digits ++ "." ++ drop 1 digits ++ "e" ++ exponent in
      (if neg then "-" else "") ++ body
  end.

(** The digits of a positive integer without the zeros at its end. *)
Fixpoint strip_zeros (fuel : nat) (z : Z) : Z :=
  match fuel with
  | O => z
  | S fuel' => if (z mod 10 =? 0)%Z then strip_zeros fuel' (z / 10)%Z else z
  end.

(** The number a length is. *)
Definition number_of_nat (len : nat) : number :=
  match len with
  | O => NZero
  | S _ =>
      let k := String.length (nat_toString len) in
      NFinite false (Z.to_pos (strip_zeros k (Z.of_nat len))) (Z.of_nat k)
  end.

(** ** Values

    The values [JSON.parse] produces, and [undefined].  An object is
    given by its members as the text lists them, from which
    [JSON.parse] builds it. *)
#[warnings="-register-all"]
Inductive value : Type :=
| VUndefined
| VNull
| VBool (b : bool)
| VNum (x : number)
| VStr (s : string)
| VArr (items : list value)
| VObj (members : list (string * value)).

Fixpoint lookup (k : string) (props : list (string * value)) : option value :=
  match props with
  | [] => None
  | (k', v) :: rest => if String.eqb k k' then Some v else lookup k rest
  end.

(** ** Objects

    The own properties of an ordinary object: those whose name is an
    array index, by ascending index, and the others in the order of
    their creation. *)
Record object : Type := mkObject {
  elements : list (Z * (string * value));
  named : list (string * value)
}.

Definition max_index : Z := 4294967294.

(** The array index a property name denotes, if it is one: the name is
    the decimal numeral of an integer from 0 to 2^32 - 2. *)
Definition index_of_key (k : string) : option Z :=
  match read_digits 10 None k with
  | Some z =>
      if String.eqb (Z_toString z) k && (z <=? max_index)%Z
      then Some z else None
  | None => None
  end.

Fixpoint insert_element (i : Z) (kv : string * value)
    (l : list (Z * (string * value))) : list (Z * (string * value)) :=
  match l with
  | [] => [(i, kv)]
  | (j, w) :: rest =>
      if (i <? j)%Z then (i, kv) :: l
      else if (i =? j)%Z then (i, kv) :: rest
      else (j, w) :: insert_element i kv rest
  end.

Fixpoint set_named (k : string) (v : value) (l : list (string * value))
  : list (string * value) :=
  match l with
  | [] => [(k, v)]
  | (k', w) :: rest =>
      if String.eqb k k' then (k', v) :: rest
      else (k', w) :: set_named k v rest
  end.

(** [CreateDataProperty]: a property that exists takes the new value
    where it stands, a new one is added. *)
Definition define_property (o : object) (member : string * value) : object :=
  let '(k, v) := member in
  match index_of_key k with
  | Some i => mkObject (insert_element i (k, v) (elements o)) (named o)
  | None => mkObject (elements o) (set_named k v (named o))
  end.

(** The object [JSON.parse] builds from the members of an object text. *)
Definition object_of (members : list (string * value)) : object :=
  fold_left define_property members (mkObject [] []).

Fixpoint find_element (i : Z) (l : list (Z * (string * value)))
  : option value :=
  match l with
  | [] => None
  | (j, (_, v)) :: rest => if (i =? j)%Z then Some v else find_element i rest
  end.

(** The own property of a name. *)
Definition own (o : object) (k : string) : option value :=
  match index_of_key k with
  | Some i => find_element i (elements o)
  | None => lookup k (named o)
  end.

(** [OrdinaryOwnPropertyKeys], the names that are strings. *)
Definition own_keys (o : object) : list string :=
  (map (fun e => fst (snd e)) (elements o) ++ map fst (named o))%list.

(** The text of a built-in function. *)
Definition native_function (name : string) : string :=
  "function " ++ name ++ "() { [native code] }".

(** What [Object.prototype] holds under a name, as the text [String]
    gives for it. *)
Definition Object_prototype (field : string) : option string :=
  if String.eqb field "constructor" then Some (native_function "Object")
  else if String.eqb field "__proto__" then Some "[object Object]"
  else if existsb (String.eqb field)
            ["__defineGetter__"; "__defineSetter__"; "hasOwnProperty";
             "__lookupGetter__"; "__lookupSetter__"; "isPrototypeOf";
             "propertyIsEnumerable"; "toString"; "valueOf"; "toLocaleString"]
  then Some (native_function field)
  else None.

(** [String(v)].  An array prints its items joined by commas; an object
    prints through the [toString] it has: the one of [Object.prototype],
    unless a member of its own hides it, which is then no function. *)
Fixpoint toString (v : value) : completion string :=
  match v with
  | VUndefined => Normal "undefined"
  | VNull => Normal "null"
  | VBool true => Normal "true"
  | VBool false => Normal "false"
  | VNum x => Normal (Number_toString x)
  | VStr s => Normal s
  | VArr items =>
      parts <- (fix items_toString (l : list value) : completion (list string) :=
                  match l with
                  | [] => Normal []
                  | e :: l' =>
                      s <- match e with
                           | VUndefined | VNull => Normal ""
                           | _ => toString e
                           end ;;
                      rest <- items_toString l' ;;
                      Normal (s :: rest)
                  end) items ;;
      Normal (join "," parts)
  | VObj members =>
      match lookup "toString" members with
      | Some _ => Throw "TypeError: Cannot convert object to primitive value"
      | None => Normal "[object Object]"
      end
  end.

Fixpoint chars (s : string) : list string :=
  match s with
  | EmptyString => []
  | String c s' => String c EmptyString :: chars s'
  end.

Fixpoint index_keys (from count : nat) : list string :=
  match count with
  | O => []
  | S count' => nat_toString from :: index_keys (S from) count'
  end.

(** [Object.keys(v)]: the own enumerable property names. *)
Definition Object_keys (v : value) : completion (list string) :=
  match v with
  | VUndefined | VNull =>
      Throw "TypeError: Cannot convert undefined or null to object"
  | VBool _ | VNum _ => Normal []
  | VStr s => Normal (index_keys 0 (String.length s))
  | VArr items => Normal (index_keys 0 (List.length items))
  | VObj members => Normal (own_keys (object_of members))
  end.

(** What reading a property gives: a value the record has of its own, a
    member of a prototype, of which the text [String] prints is kept, or
    nothing ([undefined]). *)
Inductive property : Type :=
| Own (v : value)
| Inherited (text : string)
| Absent.

Definition inherited (found : option string) : property :=
  match found with
  | Some text => Inherited text
  | None => Absent
  end.

Section Engine.

(** What the prototype chain of a value that is no object of its own --
    an array, a string, a number, a boolean -- holds under a name: the
    text [String] prints for the member, if there is one.  These are the
    engine's. *)
Variable builtin : value -> string -> option string.

(** [v[field]] *)
Definition get (v : value) (field : string) : completion property :=
  match v with
  | VUndefined | VNull =>
      Throw "TypeError: Cannot read properties of undefined or null"
  | VBool _ | VNum _ => Normal (inherited (builtin v field))
  | VStr s =>
      if String.eqb field "length"
      then Normal (Own (VNum (number_of_nat (String.length s))))
      else match index_of_key field with
           | Some i =>
               if (i <? Z.of_nat (String.length s))%Z
               then match nth_error (chars s) (Z.to_nat i) with
                    | Some c => Normal (Own (VStr c))
                    | None => Normal Absent
                    end
               else Normal (inherited (builtin v field))
           | None => Normal (inherited (builtin v field))
           end
  | VArr items =>
      if String.eqb field "length"
      then Normal (Own (VNum (number_of_nat (List.length items))))
      else match index_of_key field with
           | Some i =>
               if (i <? Z.of_nat (List.length items))%Z
               then match nth_error items (Z.to_nat i) with
                    | Some e => Normal (Own e)
                    | None => Normal Absent
                    end
               else Normal (inherited (builtin v field))
           | None => Normal (inherited (builtin v field))
           end
  | VObj members =>
      match own (object_of members) field with
      | Some x => Normal (Own x)
      | None => Normal (inherited (Object_prototype field))
      end
  end.

Definition dq : string := String dquote EmptyString.
Definition nl : string := String newline EmptyString.

(** The text of a cell: the value between two double quotes, every
    double quote of the value replaced by two, through the global
    replacement of the source. *)
Definition quote_cell (value : string) : string :=
  dq ++ replace_all (Chr (CLit dquote)) (dq ++ dq) value ++ dq.

(** The cell of [review] under the header [field]. *)
Definition cell (review : value) (field : string) : completion string :=
  p <- get review field ;;
  value <- match p with
           | Own VUndefined | Own VNull | Absent => Normal ""
           | Own v => toString v
           | Inherited text => Normal text
           end ;;
  Normal (quote_cell value).

Definition convertToCSV (reviews : value) : completion string :=
  match reviews with
  | VArr ((first :: _) as items) =>
      headers <- Object_keys first ;;
      csvRows <- mapM (fun review =>
                         cells <- mapM (cell review) headers ;;
                         Normal (join "," cells)) items ;;
      Normal (join nl (join "," headers :: csvRows))
  | _ => Normal ""
  end.

End Engine.

End ExportReviews.

(* ===================================================================== *)
(** * utils/common.js *)
(* ===================================================================== *)
Module Common.
Import Js.

(** The loop of [calculateDateFromRelative]:
    [while (newMonth < 0) { newMonth += 12; newYear--; }], on the months
    a double holds exactly, from -2^53 on, where adding 12 is exact.
    (Below that the sum is rounded, and the loop of the source need not
    end; the properties of the loop are stated for numbers of months up
    to 2^53.) *)
Equations? borrow_months (newMonth newYear : Z) : Z * Z
  by wf (Z.to_nat (- newMonth)) lt :=
  borrow_months newMonth newYear with Z_lt_dec newMonth 0 => {
    | left _ => borrow_months (newMonth + 12) (newYear - 1);
    | right _ => (newMonth, newYear) }.
Proof. lia. Qed.

(** [/^(\d{4})\/(\d{1,2})\/(\d{1,2})$/] *)
Definition re_ymd : regex :=
  let d := Chr CDigit in
  Seq Bol
   (Seq (Group 1 (Seq d (Seq d (Seq d d))))
   (Seq (Chr (CLit "/"))
   (Seq (Group 2 (Seq d (Opt d)))
   (Seq (Chr (CLit "/"))
   (Seq (Group 3 (Seq d (Opt d))) Eol))))).

(** [/^(\d{1,2})\/(\d{1,2})\/(\d{4})$/] *)
Definition re_mdy : regex :=
  let d := Chr CDigit in
  Seq Bol
   (Seq (Group 1 (Seq d (Opt d)))
   (Seq (Chr (CLit "/"))
   (Seq (Group 2 (Seq d (Opt d)))
   (Seq (Chr (CLit "/"))
   (Seq (Group 3 (Seq d (Seq d (Seq d d)))) Eol))))).

Section WithDateParse.

(** [new Date(s)] on a string: the engine's own date parser, which the
    sources use as it is. *)
Variable Date_parse : string -> Date.

Definition parseDate (dateStr : string) : Date :=
  let dateStr := trim dateStr in
  match exec re_ymd dateStr with
  | Some m =>
      let year := digits_toNumber (group_text 1 m) in
      let month := digits_toNumber (group_text 2 m) in
      let day := digits_toNumber (group_text 3 m) in
      Date_ymd (Some year) (Some (month - 1)%Z) (Some day)
  | None =>
      match exec re_mdy dateStr with
      | Some m =>
          let month := digits_toNumber (group_text 1 m) in
          let day := digits_toNumber (group_text 2 m) in
          let year := digits_toNumber (group_text 3 m) in
          Date_ymd (Some year) (Some (month - 1)%Z) (Some day)
      | None => Date_parse dateStr
      end
  end.

Definition filterReviewsByDate (reviews : list ReviewRecord)
    (startDateStr endDateStr : string) : list ReviewRecord :=
  let start := parseDate startDateStr in
  let end_ := parseDate endDateStr in
  filter (fun review =>
            let rd := parseDate (reviewDate review) in
            negb (isNaN rd) && date_ge rd start && date_le rd end_)
         reviews.

(** [calculateDateFromRelative], with the value of [new Date()] as the
    argument [now]. *)
Definition calculateDateFromRelative (now : Z) (relativeTimeStr : string)
  : Date :=
  let lowerStr := toLowerCase relativeTimeStr in
  if includes lowerStr "year" then
    let years := parseInt relativeTimeStr in
    Date_ymd (num_sub (Some (getFullYear now)) years)
             (Some (getMonth now)) (Some (getDate now))
  else if includes lowerStr "month" then
    let months := parseInt relativeTimeStr in
    match num_sub (Some (getMonth now)) months with
    | Some newMonth =>
        let '(newMonth, newYear) := borrow_months newMonth (getFullYear now) in
        Date_ymd (Some newYear) (Some newMonth) (Some (getDate now))
    | None => Date_ymd (Some (getFullYear now)) None (Some (getDate now))
    end
  else if includes lowerStr "day" then
    let days := parseInt relativeTimeStr in
    setDate now (num_sub (Some (getDate now)) days)
  else
    Date_parse relativeTimeStr.

Definition isReviewInDateRange (now : Z)
    (reviewDateStr startDate endDate : string) : bool :=
  let reviewDate := calculateDateFromRelative now reviewDateStr in
  let start := Date_parse startDate in
  let end_ := Date_parse endDate in
  date_ge reviewDate start && date_le reviewDate end_.

End WithDateParse.

(** [generatePageUrl] *)
Definition generatePageUrl (baseUrl : string) (pageNum : nat) : string :=
  if (pageNum =? 1)%nat then baseUrl
  else if includes baseUrl "?" then baseUrl ++ "&page=" ++ nat_toString pageNum
  else baseUrl ++ "?page=" ++ nat_toString pageNum.

End Common.

(* ===================================================================== *)
(** * What a scrape does besides computing: fetches and delays *)
(* ===================================================================== *)

(** A scrape is modelled with the trace of its effects: each call of
    [fetchHtml], with the page asked for and the number of the attempt,
    and each [delay], with its length in milliseconds ([EvDelayRange]
    for the delay with a random part). *)
Inductive event : Type :=
| EvFetch (page attempt : nat)
| EvDelay (ms : N)
| EvDelayRange (lo hi : N).

Definition is_fetch (e : event) : bool :=
  match e with EvFetch _ _ => true | _ => false end.

Definition fetch_count (tr : list event) : nat :=
  List.length (filter is_fetch tr).

(** The first truthy string of a chain [a || b || ... || dflt]. *)
Fixpoint first_truthy (candidates : list string) (dflt : string) : string :=
  match candidates with
  | [] => dflt
  | c :: rest => if Js.truthy c then c else first_truthy rest dflt
  end.

(* ===================================================================== *)
(** * scrapers/g2-scraper.js *)
(* ===================================================================== *)
Module G2.
Import Js.

(** What the selectors of [parseG2HtmlContent] find in one review: the
    texts and the attribute cheerio returns for it. *)
Record ReviewElement : Type := mkElement {
  el_titleText : string;          (* [itemprop=name] div, first, text *)
  el_bodyText : string;           (* the reviewBody container, text *)
  el_reviewerText : string;       (* reviewer-info a/span/div, first, text *)
  el_datetime : option string;    (* time, attribute datetime *)
  el_timeText : string;           (* time, text *)
  el_jobTitleText : string;       (* [class*=title], text *)
  el_throws : bool                (* a query on the element throws *)
}.

(** What the selectors find in a page. *)
Record Page : Type := mkPage {
  pg_title : string;                   (* title, text *)
  pg_ratingTexts : list string;        (* the rating selectors, in order *)
  pg_countTexts : list string;         (* the review-count selectors, in order *)
  pg_reviewBodies : list ReviewElement (* [itemprop=reviewBody] *)
}.

(** The object [parseG2HtmlContent] returns.  It has no [error]
    property: [g2_error] is what reading it gives. *)
Record Parsed : Type := mkParsed {
  g2_error : option string;
  g2_productName : string;
  g2_stars : string;
  g2_totalReviews : string;
  g2_allReviews : list ReviewRecord
}.

Definition digit : regex := Chr CDigit.
Definition spaces : regex := Star true (Chr CSpace).
Definition not_qmark : regex := Chr (CNot (CLit "?")).
Definition quote_char : regex := Chr (COr (CLit dquote) (CLit "'")).

(** [/^Page \d+ \| /] *)
Definition re_page_prefix : regex :=
  Seq Bol (Seq (Lit "Page ") (Seq (Plus digit) (Lit " | "))).

(** The first number of a text: digits, an optional dot, digits, all in
    group 1. *)
Definition re_rating : regex :=
  Group 1 (Seq (Plus digit) (Seq (Opt (Chr (CLit "."))) (Star true digit))).

(** The count before the word review, with the [i] flag: in group 1
    digits and any further groups of digits after commas, then white
    space and [review]. *)
Definition re_review_count : regex :=
  Seq (Group 1 (Seq (Plus digit)
                    (Star true (Seq (Chr (CLit ",")) (Plus digit)))))
      (Seq spaces (LitI "review")).

(** The pattern that strips the quote characters at both ends of a review
    title, with the [g] flag: a run of quotes at the start, or a run of
    quotes at the end. *)
Definition re_title_quotes : regex :=
  Alt (Seq Bol (Plus quote_char)) (Seq (Plus quote_char) Eol).

(** [/(\d+(?:\.\d+)?)\s*\/\s*5/] *)
Definition re_review_rating : regex :=
  Seq (Group 1 (Seq (Plus digit) (Opt (Seq (Chr (CLit ".")) (Plus digit)))))
      (Seq spaces (Seq (Chr (CLit "/")) (Seq spaces (Chr (CLit "5"))))).

(** [/^[0-5](?:\.\d+)?\/5/] *)
Definition re_rating_prefix : regex :=
  Seq Bol (Seq (Chr (CRange "0" "5"))
          (Seq (Opt (Seq (Chr (CLit ".")) (Plus digit))) (Lit "/5"))).

(** [/Review collected by and hosted on G2\.com\./g] *)
Definition re_collected : regex :=
  Lit "Review collected by and hosted on G2.com.".

(** [/Show More$/] *)
Definition re_show_more : regex := Seq (Lit "Show More") Eol.

(** [/\n+/g] *)
Definition re_newlines : regex := Plus (Chr (CLit newline)).

(** The three question patterns, all with the [i] flag: the question up
    to its question mark, white space, then the answer, as short as can
    be and free of question marks, up to one of the other two questions
    or the end of the text. *)
Definition re_answer (question : string) (next1 next2 : string) : regex :=
  Seq (LitI question)
 (Seq (Star true not_qmark)
 (Seq (Chr (CLit "?"))
 (Seq spaces
 (Seq (Group 1 (Star false not_qmark))
      (Look (Alt (LitI next1) (Alt (LitI next2) Eol))))))).

Definition re_like : regex :=
  re_answer "What do you like best about" "What do you dislike" "What problems".
Definition re_dislike : regex :=
  re_answer "What do you dislike about" "What problems" "What do you like".
Definition re_problems : regex :=
  re_answer "What problems" "What do you like" "What do you dislike".

(** [/G2 - Business Software Reviews.*$/i] and [/Reviews.*$/i] *)
Definition re_site_suffix : regex :=
  Seq (LitI "G2 - Business Software Reviews") (Seq (Star true (Chr CAny)) Eol).
Definition re_reviews_suffix : regex :=
  Seq (LitI "Reviews") (Seq (Star true (Chr CAny)) Eol).

(** [m ? m[1].trim() : ""] *)
Definition answer_of (m : option rmatch_result) : string :=
  match m with
  | Some r => trim (group_text 1 r)
  | None => ""
  end.

(** The cleaning of the text of a review body. *)
Definition clean_review_text (originalReviewText : string) : string :=
  trim (replace_all re_newlines " "
         (replace re_show_more ""
           (replace_all re_collected ""
             (replace re_rating_prefix "" originalReviewText)))).

(** The body of the loop over the review bodies: the record pushed for
    an element, if one is pushed.  [reviewCount] is the number of records
    pushed so far. *)
Definition parse_review (reviewCount : nat) (el : ReviewElement)
  : option ReviewRecord :=
  let reviewTitle :=
    or_else (trim (el_titleText el))
            ("Review " ++ nat_toString (reviewCount + 1)) in
  let reviewTitle := trim (replace_all re_title_quotes "" reviewTitle) in
  let originalReviewText := trim (el_bodyText el) in
  let rating :=
    match exec re_review_rating originalReviewText with
    | Some m => group_text 1 m
    | None => "N/A"
    end in
  let reviewText := clean_review_text originalReviewText in
  let like := answer_of (exec re_like reviewText) in
  let dislike := answer_of (exec re_dislike reviewText) in
  let problemsSolved := answer_of (exec re_problems reviewText) in
  if negb (truthy like) && negb (truthy dislike)
     && negb (truthy problemsSolved)
     && (String.length reviewText <? 10)%nat
  then None
  else
    let reviewerName :=
      or_else (trim (el_reviewerText el))
              ("Anonymous-" ++ nat_toString (reviewCount + 1)) in
    let reviewDate :=
      first_truthy [match el_datetime el with Some a => a | None => "" end;
                    trim (el_timeText el)] "2024-06-01" in
    let reviewDate :=
      if String.eqb reviewDate "Unknown Date" || negb (truthy reviewDate)
      then "2024-06-01" else reviewDate in
    let jobTitle := or_else (trim (el_jobTitleText el)) "N/A" in
    Some (mkReview reviewerName jobTitle reviewDate rating reviewTitle
                   (G2Answers like dislike problemsSolved)).

(** The loop over the review bodies, with the records pushed so far and
    their count.  An element on which a query throws is skipped: the
    [catch] of the loop body only logs. *)
Fixpoint parse_reviews (els : list ReviewElement)
    (allReviews : list ReviewRecord) (reviewCount : nat)
  : list ReviewRecord :=
  match els with
  | [] => allReviews
  | el :: rest =>
      match (if el_throws el then None else parse_review reviewCount el) with
      | Some review => parse_reviews rest (allReviews ++ [review])%list (S reviewCount)
      | None => parse_reviews rest allReviews reviewCount
      end
  end.

Definition site_title : string := "G2 - Business Software Reviews".

Definition parseG2HtmlContent (page : Page) : Parsed :=
  let pageTitle := pg_title page in
  let productName :=
    trim (replace re_page_prefix ""
           (replace (Lit " | G2") ""
             (replace (Lit " Reviews 2025: Details, Pricing, & Features | G2") ""
                pageTitle))) in
  let productName :=
    if includes productName site_title then
      match exec (Lit site_title) productName with
      | Some m => trim (take (m_index m) productName)
      | None => productName
      end
    else productName in
  let productName :=
    if negb (truthy productName) || String.eqb productName ""
    then "Unknown Product" else productName in
  let overallRating := first_truthy (map trim (pg_ratingTexts page)) "N/A" in
  let overallRating :=
    if truthy overallRating && negb (String.eqb overallRating "N/A") then
      match exec re_rating overallRating with
      | Some m => group_text 1 m
      | None => overallRating
      end
    else overallRating in
  let totalReviews := first_truthy (map trim (pg_countTexts page)) "N/A" in
  let totalReviews :=
    if truthy totalReviews && negb (String.eqb totalReviews "N/A") then
      match exec re_review_count totalReviews with
      | Some m => group_text 1 m
      | None => totalReviews
      end
    else totalReviews in
  mkParsed None productName overallRating totalReviews
           (parse_reviews (pg_reviewBodies page) [] 0).

Section Scrape.

(** The engine's date parser, the instant [new Date()] gives, and the
    network: what the fetch of a page returns at a given attempt, as the
    page cheerio loads from the response, or the error it rejects
    with. *)
Variable Date_parse : string -> Date.
Variable now : Z.
Variable fetchHtml : nat -> nat -> completion Page.

Definition in_range (startDate endDate : string) (review : ReviewRecord) : bool :=
  Common.isReviewInDateRange Date_parse now (reviewDate review) startDate endDate.

(** How the retry loop is left: past its last iteration or by [break],
    by [return null], or by the exception it throws again. *)
Inductive retry_exit : Type :=
| LoopDone
| ReturnNull
| Rethrow (e : string).

(** The retry loop [for (attempt = 1; attempt <= 3; attempt++)], with
    [remaining] iterations to go from [attempt] on, the value of
    [parsedResult] and the trace so far. *)
Fixpoint retry_loop (remaining attempt : nat) (parsedResult : option Parsed)
    (tr : list event) : retry_exit * option Parsed * list event :=
  match remaining with
  | O => (LoopDone, parsedResult, tr)
  | S remaining' =>
      let tr := (tr ++ [EvFetch 1 attempt])%list in
      match fetchHtml 1 attempt with
      | Normal response =>
          let parsed := parseG2HtmlContent response in
          match g2_error parsed with
          | Some _ =>
              if (attempt =? 3)%nat then (ReturnNull, Some parsed, tr)
              else retry_loop remaining' (S attempt) (Some parsed) tr
          | None =>
              if (0 <? List.length (g2_allReviews parsed))%nat
              then (LoopDone, Some parsed, tr)
              else retry_loop remaining' (S attempt) (Some parsed)
                              (tr ++ [EvDelay 5000%N])%list
          end
      | Throw e =>
          if (attempt =? 3)%nat then (Rethrow e, parsedResult, tr)
          else retry_loop remaining' (S attempt) parsedResult
                          (tr ++ [EvDelay 5000%N])%list
      end
  end.

(** The state of the pagination loop. *)
Record pages_state : Type := mkPages {
  ps_filtered : list ReviewRecord;
  ps_all : list ReviewRecord;
  ps_trace : list event
}.

(** The loop [while (currentPage <= maxPages && filteredReviews.length <
    maxReviews)].  Each iteration that goes on adds one to
    [currentPage], so [fuel] bounds the iterations left. *)
Fixpoint paginate (fuel : nat) (startDate endDate : string)
    (maxReviews maxPages currentPage : nat) (st : pages_state) : pages_state :=
  match fuel with
  | O => st
  | S fuel' =>
      if (currentPage <=? maxPages)%nat
         && (List.length (ps_filtered st) <? maxReviews)%nat
      then
        let tr := (ps_trace st ++ [EvFetch currentPage 1])%list in
        match fetchHtml currentPage 1 with
        | Normal pageResponse =>
            let pageData := parseG2HtmlContent pageResponse in
            if (List.length (g2_allReviews pageData) =? 0)%nat
            then mkPages (ps_filtered st) (ps_all st) tr
            else
              let pageFiltered :=
                filter (in_range startDate endDate) (g2_allReviews pageData) in
              paginate fuel' startDate endDate maxReviews maxPages
                (S currentPage)
                (mkPages (ps_filtered st ++ pageFiltered)%list
                         (ps_all st ++ g2_allReviews pageData)%list
                         (tr ++ [EvDelayRange 3000%N 5000%N])%list)
        | Throw _ => mkPages (ps_filtered st) (ps_all st) tr
        end
      else st
  end.

(** [Math.ceil(maxReviews / 10)], [maxReviews] being a count of
    reviews. *)
Definition max_pages (maxReviews : nat) : nat := (maxReviews + 9) / 10.

(** What a run of [scrapeG2WithProxy] leaves: the value returned
    ([None] for [null]), the reviews of every page parsed, unfiltered,
    and the trace. *)
Record run : Type := mkRun {
  run_result : option ScrapeResult;
  run_all : list ReviewRecord;
  run_trace : list event
}.

Definition scrapeG2WithProxy (startDate endDate : string) (maxReviews : nat)
  : run :=
  match retry_loop 3 1 None [] with
  | (ReturnNull, _, tr) => mkRun None [] tr
  | (Rethrow _, _, tr) => mkRun None [] tr
  | (LoopDone, None, tr) => mkRun None [] tr
  | (LoopDone, Some parsedResult, tr) =>
      let cleanProductName :=
        trim (replace re_reviews_suffix ""
               (replace re_site_suffix "" (g2_productName parsedResult))) in
      let productInfo :=
        mkSummary cleanProductName SiteG2 (g2_stars parsedResult)
                  (g2_totalReviews parsedResult) in
      let allReviews := g2_allReviews parsedResult in
      let filteredReviews := filter (in_range startDate endDate) allReviews in
      let st :=
        if (List.length filteredReviews <? maxReviews)%nat
           && (10 <=? List.length allReviews)%nat
        then
          let maxPages := max_pages maxReviews in
          paginate maxPages startDate endDate maxReviews maxPages 2
                   (mkPages filteredReviews allReviews tr)
        else mkPages filteredReviews allReviews tr in
      let filteredReviews :=
        if (maxReviews <? List.length (ps_filtered st))%nat
        then firstn maxReviews (ps_filtered st)
        else ps_filtered st in
      mkRun (Some (mkResult (Some productInfo) filteredReviews
                            (List.length filteredReviews)))
            (ps_all st) (ps_trace st)
  end.

End Scrape.

End G2.

(** The [productData] object of the Capterra and Trustpilot parsers. *)
Record ProductData : Type := mkProductData {
  pd_productName : string;
  pd_reviewSite : ReviewSite;
  pd_stars : string;
  pd_totalReviews : string;
  pd_allReviews : list ReviewRecord
}.

(** What those two parsers return: [{ productData }], [{ error }], or
    both. *)
Record ParseResult : Type := mkParseResult {
  pr_error : option string;
  pr_productData : option ProductData
}.

(* ===================================================================== *)
(** * scrapers/capterra-scraper.js *)
(* ===================================================================== *)
Module Capterra.
Import Js.

(** What the selectors find in a review card. *)
Record Card : Type := mkCard {
  crd_nameText : string;          (* span.typo-20.font-semibold, text *)
  crd_profileText : string;       (* div.typo-10.text-neutral-90, text *)
  crd_starsText : string;         (* span.sr2r3oj, first, text *)
  crd_dateText : string;          (* div.typo-0.text-neutral-90, text *)
  crd_reviewTexts : list string   (* the review-text selectors, in order *)
}.

(** A response: its text, and what the selectors find in the document
    cheerio loads from it. *)
Record Page : Type := mkPage {
  pg_body : string;
  pg_throws : option string;            (* the extraction throws *)
  pg_nameTexts : list string;           (* the product-name selectors *)
  pg_starsTexts : list (option string); (* the stars selectors: the text
                                           of the first element, if any *)
  pg_cardSets : list (list Card)        (* the review selectors *)
}.

Definition digit : regex := Chr CDigit.
Definition space1 : regex := Plus (Chr CSpace).
Definition spaces : regex := Star true (Chr CSpace).
Definition upper : regex := Chr (CRange "A" "Z").
Definition lower : regex := Chr (CRange "a" "z").
Definition any : regex := Chr CAny.

(** [/^Reviews\s+of\s+/i] *)
Definition re_reviews_of : regex :=
  Seq Bol (Seq (LitI "Reviews") (Seq space1 (Seq (LitI "of") space1))).

(** The number a stars text starts with: digits, an optional dot,
    digits, in group 1. *)
Definition re_stars : regex :=
  Seq Bol (Group 1 (Seq (Plus digit)
                   (Seq (Opt (Chr (CLit "."))) (Star true digit)))).

(** [/Used the software for:.*$/] *)
Definition re_usage : regex :=
  Seq (Lit "Used the software for:") (Seq (Star true any) Eol).

(** A capitalised word. *)
Definition cap_word : regex := Seq upper (Plus lower).

(** The name at the start of a profile: capitalised words, then an
    initial with its dot and the white space after it. *)
Definition re_name_initial : regex :=
  Seq Bol
 (Seq cap_word
 (Seq (Star true (Seq space1 cap_word))
 (Seq space1
 (Seq upper
 (Seq (Chr (CLit ".")) spaces))))).

(** [/^Verified Reviewer\s*/] *)
Definition re_verified : regex :=
  Seq Bol (Seq (Lit "Verified Reviewer") spaces).

Definition industryKeywords : list string :=
  ["Computer Software"; "Information Technology"; "Technology and Services";
   "Marketing and Advertising"; "Food & Beverages"; "Real Estate";
   "Mechanical or Industrial Engineering"; "Financial Services"; "Insurance";
   "Software"; "Technology"; "Services"; "Engineering"; "Estate";
   "Beverages"; "Marketing"; "Advertising"; "Financial"].

(** [w|w1|w2|...] *)
Fixpoint alts (w : string) (others : list string) : regex :=
  match others with
  | [] => Lit w
  | w' :: rest => Alt (Lit w) (alts w' rest)
  end.

(** The company words a job title is cut at: white space, one of the
    words, and the rest of the text. *)
Definition re_company_tail : regex :=
  Seq spaces
 (Seq (Group 1 (alts "Computer" ["Information"; "Technology"; "Marketing";
                                 "Real"; "Food"; "Financial"; "Mechanical"]))
 (Seq (Star true any) Eol)).

(** [/ Reviews$/i] *)
Definition re_reviews_end : regex := Seq (LitI " Reviews") Eol.

(** [s.indexOf(w)], [None] for -1. *)
Definition indexOf (s w : string) : option nat :=
  match exec (Lit w) s with
  | Some m => Some (m_index m)
  | None => None
  end.

(** The loop over the industry keywords: the job title before the first
    keyword found past the start of the text. *)
Fixpoint split_at_keyword (keywords : list string) (cleanText : string)
  : option string :=
  match keywords with
  | [] => None
  | keyword :: rest =>
      match indexOf cleanText keyword with
      | Some (S i) => Some (trim (take (S i) cleanText))
      | _ => split_at_keyword rest cleanText
      end
  end.

Definition job_title_of (profileText : string) : string :=
  let fullProfileText := trim profileText in
  if truthy fullProfileText then
    let remainingText := trim (replace re_usage "" fullProfileText) in
    let cleanText := replace re_name_initial "" remainingText in
    let cleanText :=
      if String.eqb cleanText remainingText
      then replace re_verified "" remainingText
      else cleanText in
    let jobTitle :=
      match split_at_keyword industryKeywords cleanText with
      | Some t => t
      | None => if truthy cleanText then trim cleanText else ""
      end in
    trim (replace re_company_tail "" jobTitle)
  else "".

(** The loop over the review-text selectors. *)
Fixpoint pick_review_text (texts : list string) : string :=
  match texts with
  | [] => ""
  | t :: rest =>
      let text := trim t in
      if truthy text && negb (includes text "Comments:")
         && negb (includes text "Pros:") && negb (includes text "Cons:")
      then text
      else pick_review_text rest
  end.

(** The body of the loop over the review cards: the record pushed for a
    card, if one is pushed. *)
Definition parse_card (card : Card) : option ReviewRecord :=
  let reviewerName := trim (crd_nameText card) in
  let jobTitle := job_title_of (crd_profileText card) in
  let stars := trim (crd_starsText card) in
  let reviewDate := trim (crd_dateText card) in
  let reviewText := pick_review_text (crd_reviewTexts card) in
  if truthy reviewerName || truthy reviewText
  then Some (mkReview reviewerName jobTitle reviewDate stars ""
                      (ReviewText reviewText))
  else None.

Fixpoint parse_cards (cards : list Card) : list ReviewRecord :=
  match cards with
  | [] => []
  | card :: rest =>
      match parse_card card with
      | Some review => review :: parse_cards rest
      | None => parse_cards rest
      end
  end.

(** The loop over the product-name selectors. *)
Fixpoint pick_product_name (texts : list string) : string :=
  match texts with
  | [] => ""
  | t :: rest =>
      let name := trim t in
      if truthy name then trim (replace re_reviews_of "" name)
      else pick_product_name rest
  end.

(** The loop over the stars selectors. *)
Fixpoint pick_stars (elements : list (option string)) : string :=
  match elements with
  | [] => ""
  | None :: rest => pick_stars rest
  | Some t :: rest =>
      let stars := trim t in
      let stars := match exec re_stars stars with
                   | Some m => group_text 1 m
                   | None => stars
                   end in
      if truthy stars then stars else pick_stars rest
  end.

(** The loop over the review selectors: the cards of the first selector
    that finds any. *)
Fixpoint pick_cards (sets : list (list Card)) : list Card :=
  match sets with
  | [] => []
  | [] :: rest => pick_cards rest
  | cards :: _ => cards
  end.

Definition empty_productData : ProductData :=
  mkProductData "" SiteCapterra "" "" [].

Definition status_key : string :=
  String dquote "status" ++ String dquote "".

Definition parsedDataFromHTML_Capterra (html : Page) : ParseResult :=
  if startsWith (pg_body html) "{" && includes (pg_body html) status_key
  then mkParseResult (Some ("ScrapeOps failed: " ++ pg_body html))
                     (Some empty_productData)
  else
    match pg_throws html with
    | Some e => mkParseResult (Some e) None
    | None =>
        let allReviews := parse_cards (pick_cards (pg_cardSets html)) in
        mkParseResult None
          (Some (mkProductData
                   (pick_product_name (pg_nameTexts html))
                   SiteCapterra
                   (pick_stars (pg_starsTexts html))
                   (nat_toString (List.length allReviews))
                   allReviews))
    end.

Section Scrape.

Variable Date_parse : string -> Date.
Variable now : Z.
Variable fetchHtml : nat -> completion Page.

Inductive retry_exit : Type :=
| LoopDone
| ReturnNull
| Rethrow (e : string).

(** The number of reviews of a parse result without error; reading them
    off a result without [productData] throws. *)
Definition review_count (parsed : ParseResult) : completion nat :=
  match pr_productData parsed with
  | Some pd => Normal (List.length (pd_allReviews pd))
  | None => Throw "TypeError: Cannot read properties of undefined"
  end.

(** The retry loop [for (attempt = 1; attempt <= 3; attempt++)]. *)
Fixpoint retry_loop (remaining attempt : nat) (parsedResult : option ParseResult)
    (tr : list event) : retry_exit * option ParseResult * list event :=
  match remaining with
  | O => (LoopDone, parsedResult, tr)
  | S remaining' =>
      let tr := (tr ++ [EvFetch 1 attempt])%list in
      let failed (e : string) (parsedResult : option ParseResult) :=
        if (attempt =? 3)%nat then (Rethrow e, parsedResult, tr)
        else retry_loop remaining' (S attempt) parsedResult
                        (tr ++ [EvDelay 5000%N])%list in
      match fetchHtml attempt with
      | Normal response =>
          let parsed := parsedDataFromHTML_Capterra response in
          match pr_error parsed with
          | Some _ =>
              if (attempt =? 3)%nat then (ReturnNull, Some parsed, tr)
              else retry_loop remaining' (S attempt) (Some parsed) tr
          | None =>
              match review_count parsed with
              | Normal n =>
                  if (0 <? n)%nat then (LoopDone, Some parsed, tr)
                  else retry_loop remaining' (S attempt) (Some parsed)
                                  (tr ++ [EvDelay 5000%N])%list
              | Throw e => failed e (Some parsed)
              end
          end
      | Throw e => failed e parsedResult
      end
  end.

Record run : Type := mkRun {
  run_result : option ScrapeResult;
  run_trace : list event
}.

Definition scrapeAndFilterReviews_Capterra (startDate endDate : string) : run :=
  match retry_loop 3 1 None [] with
  | (ReturnNull, _, tr) => mkRun None tr
  | (Rethrow _, _, tr) => mkRun None tr
  | (LoopDone, None, tr) => mkRun None tr
  | (LoopDone, Some parsedResult, tr) =>
      match pr_productData parsedResult with
      | None => mkRun None tr
      | Some pd =>
          let cleanProductName := replace re_reviews_end "" (pd_productName pd) in
          let productInfo :=
            mkSummary cleanProductName SiteCapterra (pd_stars pd)
                      (pd_totalReviews pd) in
          let allReviews := pd_allReviews pd in
          let filteredReviews :=
            filter (fun review =>
                      Common.isReviewInDateRange Date_parse now
                        (reviewDate review) startDate endDate) allReviews in
          mkRun (Some (mkResult (Some productInfo) filteredReviews
                                (List.length filteredReviews))) tr
      end
  end.

End Scrape.

End Capterra.

(* ===================================================================== *)
(** * scrapers/trustpilot-scraper.js *)
(* ===================================================================== *)
Module Trustpilot.
Import Js.

(** What the selectors find in a review card. *)
Record Card : Type := mkCard {
  crd_nameText : string;            (* article div a span, first, text *)
  crd_rating : option string;       (* attribute data-service-review-rating *)
  crd_titleText : string;           (* the review title, text *)
  crd_reviewText : string;          (* the review text, text *)
  crd_datetime : option string;     (* time, attribute datetime *)
  crd_timeText : string             (* time, text *)
}.

(** A response: what the selectors find in the document cheerio loads
    from its body. *)
Record Page : Type := mkPage {
  pg_throws : option string;        (* the extraction throws *)
  pg_h1Text : string;               (* h1, text *)
  pg_ratingText : string;           (* the rating paragraph, first, text *)
  pg_cards : list Card;             (* the review cards *)
  pg_nextLink : option string       (* the next-page button, attribute href *)
}.

Definition space1 : regex := Plus (Chr CSpace).

(** The header pattern: from the start, in group 1 a name, as short as
    can be; white space, [Reviews], white space; in group 2 digits and
    commas, up to the end. *)
Definition re_header : regex :=
  Seq Bol
 (Seq (Group 1 (Seq (Chr CAny) (Star false (Chr CAny))))
 (Seq space1
 (Seq (Lit "Reviews")
 (Seq space1
 (Seq (Group 2 (Plus (Chr (COr CDigit (CLit ","))))) Eol))))).

(** [s.split('T')[0]] *)
Fixpoint before_T (s : string) : string :=
  match s with
  | EmptyString => EmptyString
  | String c s' =>
      if (nat_of_ascii c =? 84)%nat then EmptyString else String c (before_T s')
  end.

(** The body of the loop over the review cards: the record pushed. *)
Definition parse_card (card : Card) : ReviewRecord :=
  let reviewerName := trim (crd_nameText card) in
  let stars := match crd_rating card with
               | Some a => or_else a ""
               | None => ""
               end in
  let title := trim (crd_titleText card) in
  let reviewText := trim (crd_reviewText card) in
  let reviewDate :=
    match crd_datetime card with
    | Some a => or_else a (trim (crd_timeText card))
    | None => trim (crd_timeText card)
    end in
  let reviewDate :=
    if includes reviewDate "T" then before_T reviewDate else reviewDate in
  mkReview reviewerName "" reviewDate stars title (ReviewText reviewText).

Definition parsedDataFromHTML_Trustpilot (html : Page) : ParseResult :=
  match pg_throws html with
  | Some e => mkParseResult (Some e) None
  | None =>
      let h1Text := trim (pg_h1Text html) in
      let '(productName, totalReviews) :=
        match exec re_header h1Text with
        | Some m =>
            (group_text 1 m,
             replace_all (Chr (CLit ",")) "" (group_text 2 m))
        | None => (h1Text, "")
        end in
      mkParseResult None
        (Some (mkProductData productName SiteTrustpilot
                             (trim (pg_ratingText html)) totalReviews
                             (map parse_card (pg_cards html))))
  end.

Section Scrape.

Variable Date_parse : string -> Date.

(** The network: what the fetch of a page returns at a given attempt. *)
Variable fetchHtml : nat -> nat -> completion Page.

(** The retry loop [for (attempt = 1; attempt <= 3; attempt++)] of one
    page, with the values of [parsedResult] and [resp]. *)
Fixpoint retry_loop (page remaining attempt : nat)
    (parsedResult : option ParseResult) (resp : option Page) (tr : list event)
  : option ParseResult * option Page * list event :=
  match remaining with
  | O => (parsedResult, resp, tr)
  | S remaining' =>
      let tr := (tr ++ [EvFetch page attempt])%list in
      let tr_delay :=
        if (attempt <? 3)%nat then (tr ++ [EvDelay 5000%N])%list else tr in
      match fetchHtml page attempt with
      | Normal resp' =>
          let parsed := parsedDataFromHTML_Trustpilot resp' in
          match pr_error parsed, pr_productData parsed with
          | Some _, _ => (Some parsed, Some resp', tr)
          | None, Some pd =>
              if (0 <? List.length (pd_allReviews pd))%nat
              then (Some parsed, Some resp', tr)
              else retry_loop page remaining' (S attempt)
                              (Some parsed) (Some resp') tr_delay
          | None, None =>
              retry_loop page remaining' (S attempt)
                         (Some parsed) (Some resp') tr_delay
          end
      | Throw _ =>
          retry_loop page remaining' (S attempt) parsedResult resp tr_delay
      end
  end.

(** Why the loop over the pages was left. *)
Inductive stop_reason : Type :=
| ParserError        (* [parsedResult.error] *)
| NoReviews          (* no review after the retries *)
| OlderThanStart     (* the last review of the page is before the start *)
| NoNextPage         (* no next-page link *)
| NothingFetched.    (* no attempt returned: reading [parsedResult] throws *)

(** What a run of [scrapeAllPages_Trustpilot] leaves: the value returned
    or the exception thrown, the page the loop was left at, why, and the
    trace. *)
Record run : Type := mkRun {
  run_result : completion ScrapeResult;
  run_page : nat;
  run_reason : stop_reason;
  run_trace : list event
}.

(** [l[l.length - 1]], [None] on the empty list. *)
Fixpoint last_item {A : Type} (l : list A) : option A :=
  match l with
  | [] => None
  | [x] => Some x
  | _ :: l' => last_item l'
  end.

Definition in_window (startDate endDate : Date) (r : ReviewRecord) : bool :=
  let d := Date_parse (reviewDate r) in
  date_ge d startDate && date_le d endDate.

Definition finish (productInfo : option ProductSummary)
    (allReviews : list ReviewRecord) (page : nat) (why : stop_reason)
    (tr : list event) : run :=
  mkRun (Normal (mkResult productInfo allReviews (List.length allReviews)))
        page why tr.

(** The loop [while (true)] over the pages; [None] when [fuel] iterations
    did not reach a [break]. *)
Fixpoint page_loop (fuel : nat) (startDate endDate : Date) (page : nat)
    (allReviews : list ReviewRecord) (productInfo : option ProductSummary)
    (tr : list event) : option run :=
  match fuel with
  | O => None
  | S fuel' =>
      match retry_loop page 3 1 None None tr with
      | (None, _, tr) =>
          Some (mkRun (Throw "TypeError: Cannot read properties of undefined")
                      page NothingFetched tr)
      | (Some parsedResult, resp, tr) =>
          match pr_error parsedResult, pr_productData parsedResult with
          | Some _, _ => Some (finish productInfo allReviews page ParserError tr)
          | None, None =>
              Some (mkRun (Throw "TypeError: Cannot read properties of undefined")
                          page NothingFetched tr)
          | None, Some productData =>
              match last_item (pd_allReviews productData) with
              | None => Some (finish productInfo allReviews page NoReviews tr)
              | Some lastReview =>
                  let productInfo :=
                    match productInfo with
                    | Some info => Some info
                    | None =>
                        Some (mkSummary (pd_productName productData)
                                        (pd_reviewSite productData)
                                        (pd_stars productData)
                                        (pd_totalReviews productData))
                    end in
                  let filteredPageReviews :=
                    filter (in_window startDate endDate)
                           (pd_allReviews productData) in
                  let allReviews := (allReviews ++ filteredPageReviews)%list in
                  if date_lt (Date_parse (reviewDate lastReview)) startDate
                  then Some (finish productInfo allReviews page OlderThanStart tr)
                  else
                    match resp with
                    | Some body =>
                        match pg_nextLink body with
                        | Some href =>
                            if truthy href
                            then page_loop fuel' startDate endDate (S page)
                                   allReviews productInfo
                                   (tr ++ [EvDelay 25000%N])%list
                            else Some (finish productInfo allReviews page
                                              NoNextPage tr)
                        | None =>
                            Some (finish productInfo allReviews page
                                         NoNextPage tr)
                        end
                    | None =>
                        Some (mkRun
                                (Throw "TypeError: Cannot read properties of undefined")
                                page NothingFetched tr)
                    end
              end
          end
      end
  end.

Definition scrapeAllPages_Trustpilot (fuel : nat)
    (startDateStr endDateStr : string) : option run :=
  page_loop fuel (Date_parse startDateStr) (Date_parse endDateStr) 1 [] None [].

End Scrape.

End Trustpilot.

(* ===================================================================== *)
(** * Reference notions the properties are stated with *)
(* ===================================================================== *)
Module Reference.
Import Js.

(** A text with every double quote written twice. *)
Fixpoint double_quotes (s : string) : string :=
  match s with
  | EmptyString => EmptyString
  | String c s' =>
      if Ascii.eqb c dquote
      then String dquote (String dquote (double_quotes s'))
      else String c (double_quotes s')
  end.

(** The text a record shows under a key: the value the record has under
    the key, the one written last, as [String] prints it, nothing for
    [null] and [undefined]; for a key it lacks, what [Object.prototype]
    holds under that name, and nothing when that has no such member
    either. *)
Definition cell_text (record : list (string * ExportReviews.value))
    (key : string) : completion string :=
  match ExportReviews.lookup key (rev record) with
  | Some ExportReviews.VUndefined | Some ExportReviews.VNull => Normal ""
  | Some v => ExportReviews.toString v
  | None =>
      Normal (match ExportReviews.Object_prototype key with
              | Some text => text
              | None => ""
              end)
  end.

(** A row of the export: under each header, the text of the record
    between double quotes, its own double quotes doubled; the cells are
    joined by commas.  A value that cannot be printed ends the row with
    its exception. *)
Definition csv_row (headers : list string)
    (record : list (string * ExportReviews.value)) : completion string :=
  cells <- mapM (fun key =>
                   text <- cell_text record key ;;
                   Normal (ExportReviews.dq ++ double_quotes text
                             ++ ExportReviews.dq)) headers ;;
  Normal (join "," cells).

(** The keys of a list, each where it comes first. *)
Fixpoint first_occurrences (keys : list string) : list string :=
  match keys with
  | [] => []
  | k :: rest =>
      k :: filter (fun x => negb (String.eqb x k)) (first_occurrences rest)
  end.

(** A key that is an array index. *)
Definition is_index (k : string) : bool :=
  match ExportReviews.index_of_key k with Some _ => true | None => false end.

(** Numbers in strictly ascending order. *)
Fixpoint ascending (l : list Z) : bool :=
  match l with
  | a :: (b :: _) as rest => (a <? b)%Z && ascending rest
  | _ => true
  end.

(** Keys of which no two are the same. *)
Fixpoint distinct (keys : list string) : bool :=
  match keys with
  | [] => true
  | k :: rest => negb (existsb (String.eqb k) rest) && distinct rest
  end.

(** The array indices an object has, each with the key that names
    it. *)
Definition indexed (l : list (Z * (string * ExportReviews.value)))
  : list (Z * string) :=
  map (fun e => (fst e, fst (snd e))) l.

(** A text that does not go on with a digit, nor with the [x] of a
    hexadecimal prefix: what may follow a decimal number for [parseInt]
    to read the number alone. *)
Definition ends_number (rest : string) : Prop :=
  match rest with
  | EmptyString => True
  | String c _ => is_digit c = false /\ is_x c = false
  end.

Fixpoint all_digits (s : string) : bool :=
  match s with
  | EmptyString => true
  | String c s' => is_digit c && all_digits s'
  end.

(** Every delay of a trace is the fixed one of 5000 ms. *)
Definition is_fixed_delay (e : event) : bool :=
  match e with
  | EvFetch _ _ => true
  | EvDelay ms => (ms =? 5000)%N
  | EvDelayRange _ _ => false
  end.

Definition fixed_delays (tr : list event) : bool := forallb is_fixed_delay tr.

(** No fetch of a trace follows another at once: something, a delay,
    stands between two attempts. *)
Fixpoint spaced (tr : list event) : bool :=
  match tr with
  | [] => true
  | e :: tr' =>
      negb (is_fetch e
            && match tr' with e' :: _ => is_fetch e' | [] => false end)
      && spaced tr'
  end.

(** The three attempts of a retry unit on page [page], a delay after
    each of the first two, and, where the source waits after the last
    attempt as well, a third delay. *)
Definition three_attempts (page : nat) (last_delay : bool) : list event :=
  [EvFetch page 1; EvDelay 5000; EvFetch page 2; EvDelay 5000; EvFetch page 3]
  ++ (if last_delay then [EvDelay 5000%N] else []).

(** The records of page [page] of a G2 product as the pagination loop
    gets them: those of the page fetched, none when the fetch fails. *)
Definition g2_page_records (fetchHtml : nat -> nat -> completion G2.Page)
    (page : nat) : list ReviewRecord :=
  match fetchHtml page 1 with
  | Normal response => G2.g2_allReviews (G2.parseG2HtmlContent response)
  | Throw _ => []
  end.

(** The date-filtered records of the first page and of the [j] pages
    after it, concatenated in the order of the pages. *)
Definition g2_filtered (keep : ReviewRecord -> bool)
    (records : nat -> list ReviewRecord) (first : G2.Parsed) (j : nat)
  : list ReviewRecord :=
  filter keep
    (G2.g2_allReviews first ++ List.concat (map records (seq 2 j)))%list.

(** The events of the pagination loop for a page it goes on after. *)
Definition g2_page_events (page : nat) : list event :=
  [EvFetch page 1; EvDelayRange 3000 5000].

(** ** The four conditions that end the Trustpilot pagination

    They are read off what the retry unit of a page leaves: the parse
    result and the response of the last attempt that returned. *)
Section TrustpilotStops.

Variable Date_parse : string -> Date.
Variable fetchHtml : nat -> nat -> completion Trustpilot.Page.
Variable startDate : Date.

Definition tp_unit (page : nat)
  : option ParseResult * option Trustpilot.Page * list event :=
  Trustpilot.retry_loop fetchHtml page 3 1 None None [].

Definition tp_parsed (page : nat) : option ParseResult :=
  fst (fst (tp_unit page)).

Definition tp_resp (page : nat) : option Trustpilot.Page :=
  snd (fst (tp_unit page)).

(** The reviews the page is left with after the retries: none when no
    attempt returned or the parse failed. *)
Definition tp_records (page : nat) : list ReviewRecord :=
  match tp_parsed page with
  | Some parsed =>
      match pr_productData parsed with
      | Some pd => pd_allReviews pd
      | None => []
      end
  | None => []
  end.

(** (a) a parse error *)
Definition tp_parse_error (page : nat) : bool :=
  match tp_parsed page with
  | Some parsed => match pr_error parsed with Some _ => true | None => false end
  | None => false
  end.

(** (b) no review left after the retries *)
Definition tp_no_records (page : nat) : bool :=
  match tp_records page with [] => true | _ :: _ => false end.

(** (c) the last review of the page is dated before the start of the
    range *)
Definition tp_older (page : nat) : bool :=
  match Trustpilot.last_item (tp_records page) with
  | Some lastReview => date_lt (Date_parse (reviewDate lastReview)) startDate
  | None => false
  end.

(** (d) the page has no link to a next page *)
Definition tp_no_next (page : nat) : bool :=
  match tp_resp page with
  | Some body =>
      match Trustpilot.pg_nextLink body with
      | Some href => negb (truthy href)
      | None => true
      end
  | None => true
  end.

Definition tp_stops (page : nat) : bool :=
  tp_parse_error page || tp_no_records page || tp_older page || tp_no_next page.

(** What the reason a run gives for its end says of the page it ended
    at, and of its result: a value, but for the page of which no attempt
    returned, where reading the missing parse result throws. *)
Definition tp_reason_holds (r : Trustpilot.run) : Prop :=
  match Trustpilot.run_reason r with
  | Trustpilot.ParserError =>
      tp_parse_error (Trustpilot.run_page r) = true
      /\ exists res, Trustpilot.run_result r = Normal res
  | Trustpilot.NoReviews =>
      tp_no_records (Trustpilot.run_page r) = true
      /\ exists res, Trustpilot.run_result r = Normal res
  | Trustpilot.OlderThanStart =>
      tp_older (Trustpilot.run_page r) = true
      /\ exists res, Trustpilot.run_result r = Normal res
  | Trustpilot.NoNextPage =>
      tp_no_next (Trustpilot.run_page r) = true
      /\ exists res, Trustpilot.run_result r = Normal res
  | Trustpilot.NothingFetched =>
      tp_no_records (Trustpilot.run_page r) = true
      /\ exists e, Trustpilot.run_result r = Throw e
  end.

End TrustpilotStops.



(** A date lies in a range when it is a valid date between the bounds,
    both included, the bounds being valid dates too. *)
Definition in_range (d start end_ : Date) : Prop :=
  exists t ts te : Z,
    d = Some t /\ start = Some ts /\ end_ = Some te /\ (ts <= t <= te)%Z.

(** The number of days of month [m] (0 to 11) of year [y]. *)
Definition days_in_month (y m : Z) : Z :=
  (if m =? 1 then 28 + InLeapYear y
   else if (m =? 3) || (m =? 5) || (m =? 8) || (m =? 10) then 30
   else 31)%Z.

(** The calendar fields of a date: year, month (0 to 11) and day of the
    month; [None] for an invalid date. *)
Definition fields (d : Date) : option (Z * Z * Z) :=
  match d with
  | Some t => Some (getFullYear t, getMonth t, getDate t)
  | None => None
  end.

(** The time value of local midnight of a calendar day. *)
Definition midnight (y m d : Z) : Z := (MakeDay y m d * msPerDay)%Z.

(** An attempt that returns a page in which no review is found. *)
Definition g2_no_reviews (c : completion G2.Page) : Prop :=
  exists p, c = Normal p /\ G2.g2_allReviews (G2.parseG2HtmlContent p) = [].

(** An attempt that returns a page parsed without error, in which no
    review is found. *)
Definition capterra_no_reviews (c : completion Capterra.Page) : Prop :=
  exists p pd,
    c = Normal p
    /\ Capterra.parsedDataFromHTML_Capterra p = mkParseResult None (Some pd)
    /\ pd_allReviews pd = [].

(** The same for an attempt on a Trustpilot page. *)
Definition trustpilot_no_reviews (c : completion Trustpilot.Page) : Prop :=
  exists p pd,
    c = Normal p
    /\ Trustpilot.parsedDataFromHTML_Trustpilot p = mkParseResult None (Some pd)
    /\ pd_allReviews pd = [].

(** The [totalReviews] the Capterra parser gives for a page. *)
Definition capterra_total (page : Capterra.Page) : option string :=
  option_map pd_totalReviews
    (pr_productData (Capterra.parsedDataFromHTML_Capterra page)).

(** The count the Trustpilot parser reads off the header text. *)
Definition trustpilot_header_count (h1Text : string) : string :=
  match exec Trustpilot.re_header (trim h1Text) with
  | Some m => replace_all (Chr (CLit ",")) "" (group_text 2 m)
  | None => ""
  end.

(** The count the G2 parser reads off the texts of the count
    selectors. *)
Definition g2_count (countTexts : list string) : string :=
  let totalReviews := first_truthy (map trim countTexts) "N/A" in
  if truthy totalReviews && negb (String.eqb totalReviews "N/A") then
    match exec G2.re_review_count totalReviews with
    | Some m => group_text 1 m
    | None => totalReviews
    end
  else totalReviews.

End Reference.

(* ===================================================================== *)
(** * Example data *)
(* ===================================================================== *)
Module Examples.
Import Js ExportReviews.

(** A date parser that knows four days, written as in the job
    descriptors, and nothing else. *)
Definition iso_dates (s : string) : Date :=
  if String.eqb s "2023-01-01" then Some 1672531200000%Z
  else if String.eqb s "2023-06-01" then Some 1685577600000%Z
  else if String.eqb s "2022-12-01" then Some 1669852800000%Z
  else if String.eqb s "2023-12-31" then Some 1703980800000%Z
  else None.

Definition one : number := NFinite false 1 1.
Definition two : number := NFinite false 2 1.

(** The two records of the export example. *)
Definition example_records : list (list (string * value)) :=
  [ [("a", VNum one); ("b", VStr "x,y")];
    [("a", VNum two); ("b", VStr ("he said " ++ dq ++ "hi" ++ dq))] ].


(** The text the two records are exported to, line by line. *)
Definition example_csv : string :=
  "a,b" ++ nl
  ++ dq ++ "1" ++ dq ++ "," ++ dq ++ "x,y" ++ dq ++ nl
  ++ dq ++ "2" ++ dq ++ ","
  ++ dq ++ "he said " ++ dq ++ dq ++ "hi" ++ dq ++ dq ++ dq.

(** A record written with the key [b] before the key [1]. *)
Definition index_after_name : list (string * value) :=
  [("b", VStr "x"); ("1", VStr "y")].

(** A record with a key of its own that [Object.prototype] has too, and
    a record without any key. *)
Definition constructor_records : list (list (string * value)) :=
  [ [("constructor", VStr "x")]; [] ].

(** An engine of which nothing is known. *)
Definition no_builtin (v : value) (field : string) : option string := None.

(** A review with the given date text. *)
Definition review_dated (date : string) : ReviewRecord :=
  mkReview "A reviewer" "" date "5" "" (ReviewText "Fine").

(** An instant of 2024-03-15, thirteen hours into the day. *)
Definition march_15 : Z := 1710507600000%Z.

(** Local midnight of 2024-03-31. *)
Definition march_31 : Z := 1711843200000%Z.

(** The text of a G2 review with two of the three questions. *)
Definition example_text : string :=
  "What do you like best about X? Great support What do you dislike about X? Slow UI".


(** A Capterra page with a header and the given review cards. *)
Definition capterra_page (cards : list Capterra.Card) : Capterra.Page :=
  Capterra.mkPage "<html>" None ["Reviews of Acme"] [Some "4.6 (14)"] [cards].

(** A Capterra card with a reviewer and a text. *)
Definition a_card : Capterra.Card :=
  Capterra.mkCard "Ann B." "" "5.0" "June 1, 2024" ["Works well"].

(** The response the relay gives in place of a page when it fails. *)
Definition relay_error_page : Capterra.Page :=
  Capterra.mkPage ("{" ++ Capterra.status_key ++ ": 500}") None [] [] [].

(** A Capterra page with one review. *)
Definition one_review_page : Capterra.Page :=
  Capterra.mkPage "<html>" None ["Reviews of Acme"] [Some "4.6 (14)"]
    [[Capterra.mkCard "Ann B." "" "5.0" "June 1, 2024" ["Works well"]]].

(** A network that answers the first attempt with the relay's error and
    the later ones with the page. *)
Definition error_then_page (attempt : nat) : completion Capterra.Page :=
  if (attempt =? 1)%nat then Normal relay_error_page else Normal one_review_page.

(** A network on which every fetch returns a page without reviews. *)
Definition empty_pages (page attempt : nat) : completion G2.Page :=
  Normal (G2.mkPage "Acme Reviews | G2" [] [] []).

(** A G2 review element of 1 June 2023. *)
Definition dated_element : G2.ReviewElement :=
  G2.mkElement "Good" "What do you like best about X? Support" "Ann"
               (Some "2023-06-01") "" "" false.

(** A network whose first page has twelve reviews of one day and whose
    further pages have none. *)
Definition g2_two_pages (page attempt : nat) : completion G2.Page :=
  if (page =? 1)%nat
  then Normal (G2.mkPage "Acme | G2" [] [] (repeat dated_element 12))
  else Normal (G2.mkPage "Acme | G2" [] [] []).

(** A Trustpilot card with the given value of its datetime attribute. *)
Definition dated_card (date : string) : Trustpilot.Card :=
  Trustpilot.mkCard "Ann" (Some "5") "Good" "Works well" (Some date) "".

(** A product whose pages have one review each: the review of the first
    page is of June 2023, the review of the later pages of December
    2022. *)
Definition tp_two_pages (page attempt : nat) : completion Trustpilot.Page :=
  if (page =? 1)%nat
  then Normal (Trustpilot.mkPage None "Acme Reviews 2" "4.5"
                 [dated_card "2023-06-01T10:00:00.000Z"] (Some "/review?page=2"))
  else Normal (Trustpilot.mkPage None "Acme Reviews 2" "4.5"
                 [dated_card "2022-12-01T10:00:00.000Z"] (Some "/review?page=3")).

End Examples.

(* ===================================================================== *)
(** * utils/common.js: the name of the file [saveToJsonFile] writes *)
(* ===================================================================== *)
Module SaveFile.
Import Js.

(** [/^https?:\/\//] *)
Definition re_protocol : regex :=
  Seq Bol (Seq (Lit "http") (Seq (Opt (Chr (CLit "s"))) (Lit "://"))).

(** The letters and digits: the class [a-z0-9] under the [i] flag, which
    lets a letter of either case in. *)
Definition alnum : cset :=
  COr (CRange "a" "z") (COr (CRange "A" "Z") (CRange "0" "9")).

(** [/[^a-z0-9]/gi] *)
Definition re_not_alnum : regex := Chr (CNot alnum).

(** [/[:.]/g] *)
Definition re_colon_dot : regex := Chr (COr (CLit ":") (CLit ".")).

(** The base of the file name: the protocol removed, every character
    that is no letter or digit replaced by an underscore, in lower
    case. *)
Definition sanitize (baseRaw : string) : string :=
  toLowerCase (replace_all re_not_alnum "_" (replace re_protocol "" baseRaw)).

(** The file name [saveToJsonFile] builds and returns, for the product
    name of the data, the raw name given and the text [iso] that
    [new Date().toISOString()] returns; [None] is [undefined].  Calling
    [toString] on a base that is [undefined] throws. *)
Definition saveToJsonFile (productName rawName : option string) (iso : string)
  : completion string :=
  let baseRaw :=
    match rawName with
    | Some r => if truthy r then Some r else productName
    | None => productName
    end in
  match baseRaw with
  | None => Throw "TypeError: Cannot read properties of undefined"
  | Some baseRaw =>
      let sanitizedProductName := sanitize baseRaw in
      let timestamp := replace_all re_colon_dot "-" iso in
      Normal (sanitizedProductName ++ "_" ++ timestamp ++ ".json")
  end.

End SaveFile.

(* ===================================================================== *)
(** * export_reviews.js: file names *)
(* ===================================================================== *)
Module ExportFiles.
Import Js ExportReviews.

Definition digit : regex := Chr CDigit.
Definition digits2 : regex := Seq digit digit.
Definition digits3 : regex := Seq digit (Seq digit digit).
Definition digits4 : regex := Seq digit (Seq digit (Seq digit digit)).

(** The time stamp [saveToJsonFile] puts before the extension, with the
    extension, at the end of the name: an underscore, the date, [T], the
    time with dashes, [Z], [.json]. *)
Definition re_stamped_json : regex :=
  Seq (Lit "_")
 (Seq digits4 (Seq (Lit "-") (Seq digits2 (Seq (Lit "-") (Seq digits2
 (Seq (Lit "T")
 (Seq digits2 (Seq (Lit "-") (Seq digits2 (Seq (Lit "-") (Seq digits2
 (Seq (Lit "-") (Seq digits3
 (Seq (Lit "Z.json") Eol)))))))))))))).

(** [/\.json$/] *)
Definition re_json : regex := Seq (Lit ".json") Eol.

Definition generateCSVFilename (jsonFilename : string) : string :=
  replace re_json ".csv" (replace re_stamped_json ".csv" jsonFilename).

End ExportFiles.

(* ===================================================================== *)
(** * scrapers/trustpilot-scraper.js: the address of a page *)
(* ===================================================================== *)
Module TrustpilotUrl.
Import Js.

(** The address with the language parameter that asks for the reviews of
    every language. *)
Definition langUrl (baseUrl : string) : string :=
  if includes baseUrl "?"
  then baseUrl ++ "&languages=all"
  else baseUrl ++ "?languages=all".

(** The address [scrapeAllPages_Trustpilot] fetches for a page. *)
Definition url (baseUrl : string) (page : nat) : string :=
  Common.generatePageUrl (langUrl baseUrl) page.

End TrustpilotUrl.

(* ===================================================================== *)
(** * scrapper.js *)
(* ===================================================================== *)
Module Scrapper.
Import Js.

Section Network.

(** The engine's date parser, the instant [new Date()] gives, and the
    network each scraper sees for an address. *)
Variable Date_parse : string -> Date.
Variable now : Z.
Variable g2_net : string -> nat -> nat -> completion G2.Page.
Variable capterra_net : string -> nat -> completion Capterra.Page.
Variable trustpilot_net : string -> nat -> nat -> completion Trustpilot.Page.


End Network.

End Scrapper.

(* ===================================================================== *)
(** * Shapes of texts the properties are stated with *)
(* ===================================================================== *)
Module Shapes.
Import Js.

(** A text in which every character of the class [cs] is replaced by
    [by_]. *)
Fixpoint subst_chars (cs : cset) (by_ s : string) : string :=
  match s with
  | EmptyString => EmptyString
  | String c s' =>
      if cset_mem cs c then by_ ++ subst_chars cs by_ s'
      else String c (subst_chars cs by_ s')
  end.

(** The classes a pattern asks for one after the other, when it is a
    sequence of single characters, and whether it ends by asking for the
    end of the text. *)
Fixpoint fixed_classes (r : regex) : option (list cset * bool) :=
  match r with
  | Eps => Some ([], false)
  | Chr c => Some ([c], false)
  | Eol => Some ([], true)
  | Seq a b =>
      match fixed_classes a, fixed_classes b with
      | Some (ca, false), Some (cb, e) => Some ((ca ++ cb)%list, e)
      | _, _ => None
      end
  | _ => None
  end.

(** What is left of [s] after one character of each class of [cs]. *)
Fixpoint chars_match (cs : list cset) (s : string) : option string :=
  match cs with
  | [] => Some s
  | c :: cs' =>
      match s with
      | String x s' => if cset_mem c x then chars_match cs' s' else None
      | EmptyString => None
      end
  end.

(** [fits template s]: [s] has the length of [template], a digit where
    the template has one and the character of the template elsewhere. *)
Fixpoint fits (template s : string) : bool :=
  match template, s with
  | EmptyString, EmptyString => true
  | String t template', String c s' =>
      (if is_digit t then is_digit c else Ascii.eqb t c) && fits template' s'
  | _, _ => false
  end.

Fixpoint template_classes (template : string) : list cset :=
  match template with
  | EmptyString => []
  | String t template' =>
      (if is_digit t then CDigit else CLit t) :: template_classes template'
  end.

(** The text [toISOString] returns for the years of four digits, and
    what [saveToJsonFile] makes of it. *)
Definition iso_template : string := "0000-00-00T00:00:00.000Z".
Definition stamp_template : string := "0000-00-00T00-00-00-000Z".
Definition stamped_template : string := "_0000-00-00T00-00-00-000Z.json".

(** Some end of [s], [s] itself included, satisfies [P]. *)
Fixpoint has_suffix (P : string -> bool) (s : string) : bool :=
  P s || match s with
         | EmptyString => false
         | String _ s' => has_suffix P s'
         end.

Definition endsWith (s suffix : string) : bool :=
  has_suffix (String.eqb suffix) s.

(** Every character of [s] satisfies [P]. *)
Fixpoint all_chars (P : ascii -> bool) (s : string) : bool :=
  match s with
  | EmptyString => true
  | String c s' => P c && all_chars P s'
  end.

(** The characters of the base of a file name. *)
Definition name_char (c : ascii) : bool :=
  is_lower c || is_digit c || Ascii.eqb c "_".

End Shapes.

(* ===================================================================== *)
(** * What an attempt, and a run, come to *)
(* ===================================================================== *)
Module Outcomes.
Import Js.

(** The call threw. *)
Definition threw {A : Type} (c : completion A) : bool :=
  match c with Throw _ => true | Normal _ => false end.

(** An attempt on a G2 page that returns a page with reviews. *)
Definition g2_found (c : completion G2.Page) : bool :=
  match c with
  | Normal p =>
      (0 <? List.length (G2.g2_allReviews (G2.parseG2HtmlContent p)))%nat
  | Throw _ => false
  end.

(** An attempt on the Capterra page that returns a response whose parse
    ends in an error. *)
Definition capterra_error (c : completion Capterra.Page) : bool :=
  match c with
  | Normal p =>
      match pr_error (Capterra.parsedDataFromHTML_Capterra p) with
      | Some _ => true
      | None => false
      end
  | Throw _ => false
  end.

(** An attempt on the Capterra page that returns a page parsed without
    error, with reviews. *)
Definition capterra_found (c : completion Capterra.Page) : bool :=
  match c with
  | Normal p =>
      let parsed := Capterra.parsedDataFromHTML_Capterra p in
      match pr_error parsed, pr_productData parsed with
      | None, Some pd => (0 <? List.length (pd_allReviews pd))%nat
      | _, _ => false
      end
  | Throw _ => false
  end.

Definition event_eqb (a b : event) : bool :=
  match a, b with
  | EvFetch p i, EvFetch q j => (p =? q)%nat && (i =? j)%nat
  | EvDelay m, EvDelay n => (m =? n)%N
  | EvDelayRange l h, EvDelayRange l' h' => (l =? l')%N && (h =? h')%N
  | _, _ => false
  end.

(** What comes in a trace right after the event [e], [None] when [e] is
    not in the trace or ends it. *)
Fixpoint next_event (e : event) (tr : list event) : option event :=
  match tr with
  | [] => None
  | x :: rest =>
      if event_eqb x e
      then match rest with y :: _ => Some y | [] => None end
      else next_event e rest
  end.

(** The last page whose reviews a run of the Trustpilot scraper has
    taken: the page it ended at, when it ended there on the date of the
    last review or for want of a further page, and the page before
    otherwise. *)
Definition tp_added (r : Trustpilot.run) : nat :=
  match Trustpilot.run_reason r with
  | Trustpilot.OlderThanStart | Trustpilot.NoNextPage => Trustpilot.run_page r
  | _ => Trustpilot.run_page r - 1
  end.

(** The header of a Trustpilot page as the retry unit leaves it. *)
Definition tp_summary (fetchHtml : nat -> nat -> completion Trustpilot.Page)
    (page : nat) : option ProductSummary :=
  match Reference.tp_parsed fetchHtml page with
  | Some parsed =>
      match pr_productData parsed with
      | Some pd =>
          Some (mkSummary (pd_productName pd) (pd_reviewSite pd)
                          (pd_stars pd) (pd_totalReviews pd))
      | None => None
      end
  | None => None
  end.

(** The header the loop over the pages goes on with after a page it
    took: the one it had, or the header of the page when it had none. *)
Definition tp_header (fetchHtml : nat -> nat -> completion Trustpilot.Page)
    (productInfo : option ProductSummary) (page : nat)
  : option ProductSummary :=
  match productInfo with
  | Some info => Some info
  | None => tp_summary fetchHtml page
  end.

(** The reviews of a Trustpilot page, as the retry unit leaves it, that
    are dated in the window. *)
Definition tp_page_reviews (Date_parse : string -> Date)
    (fetchHtml : nat -> nat -> completion Trustpilot.Page)
    (startDate endDate : Date) (page : nat) : list ReviewRecord :=
  filter (Trustpilot.in_window Date_parse startDate endDate)
         (Reference.tp_records fetchHtml page).

End Outcomes.

(* ===================================================================== *)
(** * More example data *)
(* ===================================================================== *)
Module Cases.
Import Js.

(** A network on which every fetch of a G2 page fails. *)
Definition g2_down (page attempt : nat) : completion G2.Page :=
  Throw "ECONNRESET".

(** A network on which every fetch of the Capterra page fails. *)
Definition capterra_down (attempt : nat) : completion Capterra.Page :=
  Throw "ECONNRESET".

(** A G2 review element without a date. *)
Definition undated_element : G2.ReviewElement :=
  G2.mkElement "Good" "What do you like best about X? Support" "Ann"
               None "" "" false.

End Cases.

(* ===================================================================== *)
(** * Properties of the export *)
(* ===================================================================== *)
Module ExportProps.
Import Js ExportReviews Reference Examples.

Lemma mapM_ext {A B : Type} (f g : A -> completion B) (l : list A) :
  (forall a, In a l -> f a = g a) -> mapM f l = mapM g l.
Proof.
  induction l as [|a l IH]; intros H; cbn [mapM]; [reflexivity|].
  rewrite (H a (or_introl eq_refl)).
  rewrite IH by (intros b Hb; apply H; right; exact Hb).
  reflexivity.
Qed.

Lemma mapM_map {A B C : Type} (f : B -> completion C) (g : A -> B)
    (l : list A) :
  mapM f (map g l) = mapM (fun a => f (g a)) l.
Proof.
  induction l as [|a l IH]; cbn [map mapM]; [|rewrite IH]; reflexivity.
Qed.

Lemma take_0 (s : string) : take 0 s = "".
Proof. destruct s; reflexivity. Qed.

Lemma take_1 (c : ascii) (s : string) :
  take 1 (String c s) = String c "".
Proof. unfold take. cbn [substring]. fold (take 0 s). now rewrite take_0. Qed.

(** A one-character pattern at the head of the input. *)
Lemma match_at_char (x c : ascii) (s : string) (p : nat) :
  match_at (Chr (CLit x)) p (String c s)
  = if Ascii.eqb x c then Some (MatchResult p (String c "") []) else None.
Proof.
  unfold match_at. cbn [rmatch rest pos caps cset_mem].
  destruct (Ascii.eqb x c); [|reflexivity].
  cbn [pos caps]. replace (S p - p) with 1 by lia.
  now rewrite take_1.
Qed.

Lemma match_at_char_empty (x : ascii) (p : nat) :
  match_at (Chr (CLit x)) p "" = None.
Proof. reflexivity. Qed.

(** The global replacement of the double quote is the doubling of every
    double quote, wherever in the input the scan stands. *)
Lemma replace_all_quotes (s : string) (p : nat) :
  replace_all_from (Chr (CLit dquote)) (dq ++ dq) 0 p s = double_quotes s.
Proof.
  revert p. induction s as [|c s IH]; intros p.
  - reflexivity.
  - cbn [replace_all_from double_quotes].
    rewrite match_at_char, (Ascii.eqb_sym dquote c).
    destruct (Ascii.eqb c dquote) eqn:E.
    + cbn [m_text String.length]. rewrite IH. reflexivity.
    + rewrite IH. reflexivity.
Qed.

Lemma quote_cell_spec (text : string) :
  quote_cell text = dq ++ double_quotes text ++ dq.
Proof.
  unfold quote_cell, replace_all. rewrite replace_all_quotes. reflexivity.
Qed.

(** ** The own properties of an object *)

Lemma index_of_key_text (k : string) (i : Z) :
  index_of_key k = Some i -> Z_toString i = k.
Proof.
  unfold index_of_key. destruct (read_digits 10 None k) as [z|]; [|discriminate].
  destruct (String.eqb (Z_toString z) k) eqn:E; [|discriminate].
  destruct (z <=? max_index)%Z; [|discriminate].
  intros H. injection H as <-. apply String.eqb_eq. exact E.
Qed.

Lemma index_of_key_inj (k k' : string) (i : Z) :
  index_of_key k = Some i -> index_of_key k' = Some i -> k = k'.
Proof.
  intros H H'. apply index_of_key_text in H, H'. congruence.
Qed.

Lemma find_insert (i' i : Z) (kv : string * value)
    (l : list (Z * (string * value))) :
  find_element i' (insert_element i kv l)
  = if (i' =? i)%Z then Some (snd kv) else find_element i' l.
Proof.
  destruct kv as [k v]. cbn [snd].
  induction l as [|[j [kj w]] l IH]; cbn [insert_element find_element].
  - destruct (i' =? i)%Z; reflexivity.
  - destruct (i <? j)%Z eqn:Hlt; [|destruct (i =? j)%Z eqn:Heq].
    + cbn [find_element]. destruct (i' =? i)%Z; reflexivity.
    + cbn [find_element]. apply Z.eqb_eq in Heq. subst j.
      destruct (i' =? i)%Z; reflexivity.
    + cbn [find_element]. rewrite IH.
      destruct (i' =? j)%Z eqn:E1; [|reflexivity].
      apply Z.eqb_eq in E1. subst j. rewrite Z.eqb_sym, Heq. reflexivity.
Qed.

Lemma lookup_set_named (k' k : string) (v : value)
    (l : list (string * value)) :
  lookup k' (set_named k v l)
  = if String.eqb k' k then Some v else lookup k' l.
Proof.
  induction l as [|[k1 w] l IH]; cbn [set_named lookup].
  - destruct (String.eqb k' k); reflexivity.
  - destruct (String.eqb k k1) eqn:E.
    + apply String.eqb_eq in E. subst k1. cbn [lookup].
      destruct (String.eqb k' k); reflexivity.
    + cbn [lookup]. rewrite IH.
      destruct (String.eqb k' k1) eqn:E1; [|reflexivity].
      apply String.eqb_eq in E1. subst k1.
      rewrite String.eqb_sym, E. reflexivity.
Qed.

Lemma own_define (o : object) (k k' : string) (v : value) :
  own (define_property o (k, v)) k'
  = if String.eqb k' k then Some v else own o k'.
Proof.
  unfold define_property, own.
  destruct (index_of_key k) as [i|] eqn:Ek; cbn [elements named].
  - destruct (index_of_key k') as [i'|] eqn:Ek'.
    + rewrite find_insert. cbn [snd].
      destruct (i' =? i)%Z eqn:E.
      * apply Z.eqb_eq in E. subst i'.
        rewrite (index_of_key_inj _ _ _ Ek' Ek), String.eqb_refl. reflexivity.
      * destruct (String.eqb k' k) eqn:E'; [|reflexivity].
        apply String.eqb_eq in E'. subst k'.
        rewrite Ek in Ek'. injection Ek' as <-.
        rewrite Z.eqb_refl in E. discriminate.
    + destruct (String.eqb k' k) eqn:E'; [|reflexivity].
      apply String.eqb_eq in E'. subst k'. congruence.
  - destruct (index_of_key k') as [i'|] eqn:Ek'.
    + destruct (String.eqb k' k) eqn:E'; [|reflexivity].
      apply String.eqb_eq in E'. subst k'. congruence.
    + apply lookup_set_named.
Qed.

Lemma object_of_snoc (members : list (string * value)) (m : string * value) :
  object_of (members ++ [m]) = define_property (object_of members) m.
Proof. unfold object_of. rewrite fold_left_app. reflexivity. Qed.

(** The value an object has under a name of its own is the one its text
    gives the name last. *)
Lemma own_object_of (members : list (string * value)) (k : string) :
  own (object_of members) k = lookup k (rev members).
Proof.
  induction members as [|[k0 v0] members IH] using rev_ind.
  - unfold own. cbn. destruct (index_of_key k); reflexivity.
  - rewrite object_of_snoc, own_define, IH, rev_unit. cbn [lookup].
    reflexivity.
Qed.

(** ** The order of the keys *)

Lemma existsb_filter_other (k a : string) (l : list string) :
  String.eqb k a = false ->
  existsb (String.eqb k) (filter (fun x => negb (String.eqb x a)) l)
  = existsb (String.eqb k) l.
Proof.
  intros E. induction l as [|b l IHl]; [reflexivity|].
  cbn [filter existsb].
  destruct (String.eqb b a) eqn:Eb; cbn [negb].
  - apply String.eqb_eq in Eb. subst b. rewrite E. cbn [orb]. exact IHl.
  - cbn [existsb]. rewrite IHl. reflexivity.
Qed.

Lemma existsb_first_occurrences (k : string) (keys : list string) :
  existsb (String.eqb k) (first_occurrences keys)
  = existsb (String.eqb k) keys.
Proof.
  induction keys as [|a keys IH]; [reflexivity|].
  cbn [first_occurrences existsb]. rewrite <- IH.
  destruct (String.eqb k a) eqn:E; [reflexivity|]. cbn [orb].
  apply existsb_filter_other. exact E.
Qed.

Lemma first_occurrences_snoc (keys : list string) (k : string) :
  first_occurrences (keys ++ [k])
  = if existsb (String.eqb k) keys
    then first_occurrences keys
    else (first_occurrences keys ++ [k])%list.
Proof.
  induction keys as [|a keys IH]; [reflexivity|].
  cbn [app first_occurrences existsb]. rewrite IH.
  destruct (String.eqb k a) eqn:E; cbn [orb].
  - apply String.eqb_eq in E. subst a.
    destruct (existsb (String.eqb k) keys); [reflexivity|].
    rewrite filter_app. cbn [filter]. rewrite String.eqb_refl. cbn [negb].
    rewrite List.app_nil_r. reflexivity.
  - destruct (existsb (String.eqb k) keys); [reflexivity|].
    rewrite filter_app. cbn [filter]. rewrite E. cbn [negb]. reflexivity.
Qed.

Lemma set_named_keys (k : string) (v : value) (l : list (string * value)) :
  map fst (set_named k v l)
  = if existsb (String.eqb k) (map fst l)
    then map fst l else (map fst l ++ [k])%list.
Proof.
  induction l as [|[k1 w] l IH]; [reflexivity|].
  cbn [set_named map fst existsb].
  destruct (String.eqb k k1); cbn [orb map fst]; [reflexivity|].
  rewrite IH. destruct (existsb (String.eqb k) (map fst l)); reflexivity.
Qed.

(** The keys that are no array index stand in the order in which the
    text of the object has them first. *)
Lemma named_keys (members : list (string * value)) :
  map fst (named (object_of members))
  = first_occurrences (filter (fun k => negb (is_index k)) (map fst members)).
Proof.
  induction members as [|[k v] members IH] using rev_ind; [reflexivity|].
  rewrite object_of_snoc, map_app, filter_app. cbn [map fst filter].
  unfold define_property, is_index at 2.
  destruct (index_of_key k) as [i|] eqn:Ek; cbn [named negb].
  - rewrite List.app_nil_r. exact IH.
  - rewrite set_named_keys, first_occurrences_snoc, IH,
      existsb_first_occurrences.
    reflexivity.
Qed.

Lemma ascending_cons (a : Z) (l : list Z) :
  ascending (a :: l) = true <->
  (match l with b :: _ => (a < b)%Z | [] => True end) /\ ascending l = true.
Proof.
  destruct l as [|b l]; cbn [ascending].
  - tauto.
  - rewrite andb_true_iff, Z.ltb_lt. tauto.
Qed.

Lemma insert_ascending (i : Z) (kv : string * value)
    (l : list (Z * (string * value))) :
  ascending (map fst l) = true ->
  ascending (map fst (insert_element i kv l)) = true
  /\ match insert_element i kv l, l with
     | (a, _) :: _, (b, _) :: _ => a = i \/ a = b
     | (a, _) :: _, [] => a = i
     | [], _ => False
     end.
Proof.
  induction l as [|[j w] l IH]; intros Hl.
  - cbn. auto.
  - cbn [insert_element].
    destruct (i <? j)%Z eqn:Hlt; [|destruct (i =? j)%Z eqn:Heq].
    + split; [|auto]. cbn [map fst]. apply ascending_cons.
      apply Z.ltb_lt in Hlt. split; [exact Hlt | exact Hl].
    + split; [|auto]. apply Z.eqb_eq in Heq. subst j. exact Hl.
    + cbn [map fst] in Hl |- *. apply ascending_cons in Hl.
      destruct Hl as [Hhd Hl]. destruct (IH Hl) as [Hasc Hfirst].
      split; [|auto]. apply ascending_cons. split; [|exact Hasc].
      apply Z.ltb_ge in Hlt. apply Z.eqb_neq in Heq.
      destruct (insert_element i kv l) as [|[a wa] r];
        [destruct l as [|[] ?]; contradiction|].
      cbn [map fst]. destruct l as [|[b wb] l'].
      * subst a. lia.
      * cbn [map fst] in Hhd. destruct Hfirst; subst a; lia.
Qed.

Lemma in_insert (e : Z * (string * value)) (i : Z) (kv : string * value)
    (l : list (Z * (string * value))) :
  In e (insert_element i kv l) -> e = (i, kv) \/ In e l.
Proof.
  induction l as [|[j w] l IH]; cbn [insert_element].
  - cbn. intuition.
  - destruct (i <? j)%Z; [|destruct (i =? j)%Z].
    + cbn [In]. intuition.
    + cbn [In]. intuition.
    + cbn [In]. intuition.
Qed.

Lemma in_insert_new (i : Z) (kv : string * value)
    (l : list (Z * (string * value))) :
  In (i, kv) (insert_element i kv l).
Proof.
  induction l as [|[j w] l IH]; cbn [insert_element].
  - left. reflexivity.
  - destruct (i <? j)%Z; [|destruct (i =? j)%Z]; cbn [In]; auto.
Qed.

Lemma in_insert_old (e : Z * (string * value)) (i : Z) (kv : string * value)
    (l : list (Z * (string * value))) :
  In e l -> fst e <> i -> In e (insert_element i kv l).
Proof.
  intros Hin Hne. induction l as [|[j w] l IH]; [destruct Hin|].
  cbn [insert_element].
  destruct (i <? j)%Z; [|destruct (i =? j)%Z eqn:Heq].
  - right. exact Hin.
  - apply Z.eqb_eq in Heq. subst j. destruct Hin as [<- | Hin].
    + cbn [fst] in Hne. congruence.
    + right. exact Hin.
  - destruct Hin as [<- | Hin]; [left; reflexivity | right; auto].
Qed.

Lemma in_indexed (j : Z) (kj : string) (l : list (Z * (string * value))) :
  In (j, kj) (indexed l) <-> exists v, In (j, (kj, v)) l.
Proof.
  unfold indexed. rewrite in_map_iff. split.
  - intros [[j' [k' v]] [E Hin]]. cbn in E. injection E as <- <-.
    exists v. exact Hin.
  - intros [v Hin]. exists (j, (kj, v)). auto.
Qed.

(** The keys that are array indices stand by ascending index, one for
    each such key of the text of the object. *)
Lemma element_keys (members : list (string * value)) :
  ascending (map fst (elements (object_of members))) = true
  /\ forall j kj,
       In (j, kj) (indexed (elements (object_of members)))
       <-> In kj (map fst members) /\ index_of_key kj = Some j.
Proof.
  induction members as [|[k v] members IH] using rev_ind.
  - split; [reflexivity|]. cbn. tauto.
  - destruct IH as [Hasc Hin]. rewrite object_of_snoc.
    unfold define_property.
    destruct (index_of_key k) as [i|] eqn:Ek; cbn [elements].
    + split; [apply insert_ascending; exact Hasc|].
      intros j kj. rewrite in_indexed, map_app, in_app_iff. cbn [map fst In].
      split.
      * intros [w Hw]. apply in_insert in Hw. destruct Hw as [E | Hw].
        -- injection E as -> -> _. auto.
        -- assert (H : In (j, kj) (indexed (elements (object_of members))))
             by (apply in_indexed; eauto).
           apply Hin in H. tauto.
      * intros [[Hk | [<- | []]] Hj].
        -- destruct (Z.eq_dec j i) as [-> | Hne].
           ++ rewrite (index_of_key_inj _ _ _ Hj Ek).
              exists v. apply in_insert_new.
           ++ destruct (proj1 (in_indexed _ _ _) (proj2 (Hin j kj) (conj Hk Hj)))
                as [w Hw].
              exists w. apply in_insert_old; assumption.
        -- rewrite Ek in Hj. injection Hj as <-.
           exists v. apply in_insert_new.
    + split; [exact Hasc|].
      intros j kj. rewrite Hin, map_app, in_app_iff. cbn [map fst In].
      split; [tauto|].
      intros [[Hk | [<- | []]] Hj]; [tauto | congruence].
Qed.

Lemma indexed_keys (l : list (Z * (string * value))) :
  map (fun e => fst (snd e)) l = map snd (indexed l).
Proof. unfold indexed. rewrite map_map. reflexivity. Qed.

Lemma indexed_indices (l : list (Z * (string * value))) :
  map fst l = map fst (indexed l).
Proof. unfold indexed. rewrite map_map. reflexivity. Qed.

(** ** Cells and rows *)

Lemma cell_record (builtin : value -> string -> option string)
    (record : list (string * value)) (key : string) :
  cell builtin (VObj record) key
  = (text <- cell_text record key ;;
     Normal (dq ++ double_quotes text ++ dq)).
Proof.
  unfold cell, cell_text, get. rewrite own_object_of.
  destruct (lookup key (rev record)) as [v|]; cbn [bind].
  - destruct v; cbn [bind toString];
      try (rewrite quote_cell_spec; reflexivity);
      match goal with
      | |- context [bind ?c _] =>
          destruct c; cbn [bind]; [rewrite quote_cell_spec|]; reflexivity
      end.
  - destruct (Object_prototype key); cbn [inherited bind];
      rewrite quote_cell_spec; reflexivity.
Qed.

Lemma row_record (builtin : value -> string -> option string)
    (headers : list string) (record : list (string * value)) :
  (cells <- mapM (cell builtin (VObj record)) headers ;;
   Normal (join "," cells))
  = csv_row headers record.
Proof.
  unfold csv_row. f_equal. apply mapM_ext. intros key _. apply cell_record.
Qed.

Lemma distinct_first_occurrences (keys : list string) :
  distinct keys = true -> first_occurrences keys = keys.
Proof.
  induction keys as [|k keys IH]; [reflexivity|].
  cbn [distinct first_occurrences]. intros H.
  apply andb_true_iff in H. destruct H as [Hk Hd].
  rewrite (IH Hd). f_equal.
  apply negb_true_iff in Hk. clear IH Hd.
  induction keys as [|a keys IH]; [reflexivity|].
  cbn [existsb] in Hk. apply orb_false_iff in Hk. destruct Hk as [Ha Hk].
  cbn [filter]. rewrite String.eqb_sym, Ha. cbn [negb]. rewrite (IH Hk).
  reflexivity.
Qed.

Lemma no_index_filter (keys : list string) :
  forallb (fun k => negb (is_index k)) keys = true ->
  filter (fun k => negb (is_index k)) keys = keys.
Proof.
  induction keys as [|k keys IH]; [reflexivity|].
  cbn [forallb filter]. intros H. apply andb_true_iff in H.
  destruct H as [Hk H]. rewrite Hk, (IH H). reflexivity.
Qed.

Lemma rows_of_records (builtin : value -> string -> option string)
    (headers : list string) (records : list (list (string * value))) :
  mapM (fun review =>
          cells <- mapM (cell builtin review) headers ;;
          Normal (join "," cells)) (map VObj records)
  = mapM (csv_row headers) records.
Proof.
  rewrite mapM_map. apply mapM_ext. intros record _. apply row_record.
Qed.

(** C8, as amended.  For a non-empty list of records, objects as
    [JSON.parse] builds them, [convertToCSV] returns the header line and
    one row for each record.  The header line holds the keys of the
    first record as [Object.keys] lists them, joined by commas: first
    the keys that are array indices, by ascending index, then the other
    keys in the order in which the record has them; for a record of
    distinct keys none of which is an array index that is the order in
    which the record has its keys.  The keys of the first record govern
    every row: a row holds, under each of them, between double quotes
    and with every double quote doubled, the text [String] prints for
    what the record gives under the key, which is its own value, nothing
    for [null] and [undefined], or, for a key the record lacks, the
    member of that name of [Object.prototype], and nothing when there is
    none; a value [String] cannot print ends the export with its
    exception.  The two records of the example give the header [a,b] and
    the two rows of the claim. *)
Theorem convertToCSV_header_and_rows :
  (forall (builtin : value -> string -> option string)
          (first : list (string * value))
          (others : list (list (string * value))),
      exists idx : list (Z * string),
        let headers :=
          (map snd idx
           ++ first_occurrences
                (filter (fun k => negb (is_index k)) (map fst first)))%list in
        ascending (map fst idx) = true
        /\ (forall i k, In (i, k) idx <->
                        In k (map fst first) /\ index_of_key k = Some i)
        /\ convertToCSV builtin (VArr (map VObj (first :: others)))
           = (rows <- mapM (csv_row headers) (first :: others) ;;
              Normal (join nl (join "," headers :: rows))))
  /\ (forall (builtin : value -> string -> option string)
             (first : list (string * value))
             (others : list (list (string * value))),
        distinct (map fst first) = true ->
        forallb (fun k => negb (is_index k)) (map fst first) = true ->
        convertToCSV builtin (VArr (map VObj (first :: others)))
        = (rows <- mapM (csv_row (map fst first)) (first :: others) ;;
           Normal (join nl (join "," (map fst first) :: rows))))
  /\ (forall builtin,
        convertToCSV builtin (VArr (map VObj example_records))
        = Normal example_csv).
Proof.
  assert (Hgen : forall builtin first others,
             convertToCSV builtin (VArr (map VObj (first :: others)))
             = (rows <- mapM (csv_row (own_keys (object_of first)))
                          (first :: others) ;;
                Normal (join nl (join "," (own_keys (object_of first))
                                   :: rows)))).
  { intros builtin first others. unfold convertToCSV.
    change (map VObj (first :: others)) with (VObj first :: map VObj others).
    cbn [Object_keys bind].
    change (VObj first :: map VObj others) with (map VObj (first :: others)).
    rewrite rows_of_records. reflexivity. }
  split; [|split].
  - intros builtin first others.
    destruct (element_keys first) as [Hasc Hin].
    exists (indexed (elements (object_of first))). cbn zeta.
    split; [rewrite <- indexed_indices; exact Hasc|].
    split; [exact Hin|].
    rewrite Hgen. unfold own_keys.
    rewrite named_keys, indexed_keys. reflexivity.
  - intros builtin first others Hd Hn.
    rewrite Hgen.
    assert (Hkeys : own_keys (object_of first) = map fst first).
    { unfold own_keys. rewrite named_keys, (no_index_filter _ Hn),
        (distinct_first_occurrences _ Hd).
      destruct (element_keys first) as [_ Hin].
      destruct (elements (object_of first)) as [|[j [kj w]] l] eqn:E;
        [reflexivity|].
      exfalso.
      assert (H : In (j, kj) (indexed ((j, (kj, w)) :: l)))
        by (left; reflexivity).
      apply Hin in H. destruct H as [Hk Hj].
      rewrite forallb_forall in Hn. specialize (Hn _ Hk).
      unfold is_index in Hn. rewrite Hj in Hn. discriminate. }
    rewrite Hkeys. reflexivity.
  - intros builtin. vm_compute. reflexivity.
Qed.

Lemma convertToCSV_header_and_rows_witness :
  convertToCSV no_builtin (VArr (map VObj example_records))
  = (rows <- mapM (csv_row ["a"; "b"]) example_records ;;
     Normal (join nl (join "," ["a"; "b"] :: rows))).
Proof.
  apply (proj1 (proj2 convertToCSV_header_and_rows) no_builtin
           [("a", VNum one); ("b", VStr "x,y")]
           [[("a", VNum two); ("b", VStr ("he said " ++ dq ++ "hi" ++ dq))]]);
    reflexivity.
Defined.

(** C8, as stated, fails in two ways.  A record written with the key
    [b] before the key [1] has the header [1,b], not its keys in the
    order of insertion; and under the header [constructor] a record
    that lacks the key shows the text of the function [Object], the
    member it inherits, not an empty cell. *)
Lemma convertToCSV_counterexample :
  convertToCSV no_builtin (VArr [VObj index_after_name])
  = Normal ("1,b" ++ nl ++ dq ++ "y" ++ dq ++ "," ++ dq ++ "x" ++ dq)
  /\ convertToCSV no_builtin (VArr (map VObj constructor_records))
     = Normal ("constructor" ++ nl ++ dq ++ "x" ++ dq ++ nl
               ++ dq ++ "function Object() { [native code] }" ++ dq).
Proof. split; vm_compute; reflexivity. Qed.

(** C10.  On an input that is not an array, and on the empty array,
    [convertToCSV] returns the empty string: no header line, and no
    exception. *)
Theorem convertToCSV_no_records
    (builtin : value -> string -> option string) (reviews : value) :
  (forall items, reviews <> VArr items) \/ reviews = VArr [] ->
  convertToCSV builtin reviews = Normal "".
Proof.
  intros [Hnot | ->]; [|reflexivity].
  destruct reviews as [| | | | |items|]; try reflexivity.
  exfalso. exact (Hnot items eq_refl).
Qed.

Lemma convertToCSV_no_records_witness :
  convertToCSV no_builtin (VStr "reviews") = Normal ""
  /\ convertToCSV no_builtin VUndefined = Normal ""
  /\ convertToCSV no_builtin (VArr []) = Normal "".
Proof.
  split; [|split]; apply convertToCSV_no_records.
  - left. intros items H. discriminate H.
  - left. intros items H. discriminate H.
  - right. reflexivity.
Defined.

End ExportProps.

(* ===================================================================== *)
(** * Properties of the calendar *)
(* ===================================================================== *)
Module DateProps.
Import Js Reference.
Open Scope Z_scope.

Ltac div_lia := Z.to_euclidean_division_equations; lia.

Lemma DayFromYear_succ (y : Z) :
  DayFromYear (y + 1) = DayFromYear y + DaysInYear y.
Proof.
  unfold DayFromYear, DaysInYear.
  destruct (y mod 4 =? 0) eqn:E4; destruct (y mod 100 =? 0) eqn:E100;
    destruct (y mod 400 =? 0) eqn:E400; cbn [negb];
    rewrite ?Z.eqb_eq, ?Z.eqb_neq in *; div_lia.
Qed.

Lemma InLeapYear_range (y : Z) : InLeapYear y = 0 \/ InLeapYear y = 1.
Proof. unfold InLeapYear. destruct (DaysInYear y =? 366); auto. Qed.

Lemma DaysInYear_leap (y : Z) : DaysInYear y = 365 + InLeapYear y.
Proof.
  unfold InLeapYear.
  destruct (DaysInYear y =? 366) eqn:E.
  - apply Z.eqb_eq in E. lia.
  - apply Z.eqb_neq in E. unfold DaysInYear in *.
    repeat match goal with
           | |- context [if ?b then _ else _] => destruct b
           end; lia.
Qed.

Lemma DayFromYear_mono (y y' : Z) :
  y <= y' -> DayFromYear y <= DayFromYear y'.
Proof. unfold DayFromYear. intros H. div_lia. Qed.

Lemma YearFromDay_spec (d : Z) :
  DayFromYear (YearFromDay d) <= d < DayFromYear (YearFromDay d + 1).
Proof.
  unfold YearFromDay.
  set (y0 := 1970 + 400 * d / 146097).
  destruct (DayFromYear (y0 + 1) <=? d) eqn:E1;
    [apply Z.leb_le in E1 | apply Z.leb_gt in E1].
  - split; [exact E1|].
    unfold DayFromYear in *. subst y0. div_lia.
  - destruct (DayFromYear y0 <=? d) eqn:E0;
      [apply Z.leb_le in E0 | apply Z.leb_gt in E0].
    + split; assumption.
    + replace (y0 - 1 + 1) with y0 by lia. split; [|exact E0].
      unfold DayFromYear in *. subst y0. div_lia.
Qed.

(** The year of a day is the only year the day lies in. *)
Lemma YearFromDay_unique (d y : Z) :
  DayFromYear y <= d < DayFromYear (y + 1) -> YearFromDay d = y.
Proof.
  intros [Hlo Hhi].
  pose proof (YearFromDay_spec d) as [Hlo' Hhi'].
  destruct (Z.lt_trichotomy (YearFromDay d) y) as [Hlt | [Heq | Hgt]].
  - pose proof (DayFromYear_mono (YearFromDay d + 1) y ltac:(lia)). lia.
  - exact Heq.
  - pose proof (DayFromYear_mono (y + 1) (YearFromDay d) ltac:(lia)). lia.
Qed.

Lemma DayWithinYear_range (d : Z) :
  0 <= DayWithinYear d < 365 + InLeapYear (YearFromDay d).
Proof.
  unfold DayWithinYear.
  pose proof (YearFromDay_spec d) as [Hlo Hhi].
  rewrite DayFromYear_succ, DaysInYear_leap in Hhi. lia.
Qed.

Lemma MonthFromDay_range (d : Z) : 0 <= MonthFromDay d <= 11.
Proof.
  unfold MonthFromDay.
  repeat match goal with
         | |- context [if ?b then _ else _] => destruct b
         end; lia.
Qed.

(** Decides the comparisons of closed month numbers that the tables
    branch on. *)
Ltac eval_eqb :=
  repeat match goal with
         | |- context [Z.eqb ?a ?b] =>
             let v := eval vm_compute in (Z.eqb a b) in
             change (Z.eqb a b) with v
         | H : context [Z.eqb ?a ?b] |- _ =>
             let v := eval vm_compute in (Z.eqb a b) in
             change (Z.eqb a b) with v in H
         end;
  cbv beta iota in *; cbn [orb] in *.

Ltac case_month m :=
  let H := fresh "Hmonth" in
  assert (H : m = 0 \/ m = 1 \/ m = 2 \/ m = 3 \/ m = 4 \/ m = 5 \/ m = 6
              \/ m = 7 \/ m = 8 \/ m = 9 \/ m = 10 \/ m = 11) by lia;
  destruct H as [H|[H|[H|[H|[H|[H|[H|[H|[H|[H|[H|H]]]]]]]]]]]; subst m.

(** The day within the year of the days of a month lies between the
    start of the month and the start of the next. *)
Lemma month_start_bounds (y m dt : Z) :
  0 <= m <= 11 -> 1 <= dt <= days_in_month y m ->
  0 <= month_start m (InLeapYear y) + dt - 1 < 365 + InLeapYear y.
Proof.
  intros Hm Hdt. pose proof (InLeapYear_range y) as Hl.
  unfold days_in_month in Hdt.
  unfold month_start.
  case_month m; eval_eqb; lia.
Qed.

Lemma MakeDay_in_range (y m dt : Z) :
  0 <= m <= 11 ->
  MakeDay y m dt = DayFromYear y + month_start m (InLeapYear y) + dt - 1.
Proof.
  intros Hm. unfold MakeDay.
  replace (m / 12) with 0 by div_lia.
  replace (m mod 12) with m by div_lia.
  rewrite Z.add_0_r. reflexivity.
Qed.

(** Reading back the fields of a day made from a year, a month and a day
    that the month has. *)
Lemma fields_MakeDay (y m dt : Z) :
  0 <= m <= 11 -> 1 <= dt <= days_in_month y m ->
  YearFromDay (MakeDay y m dt) = y
  /\ MonthFromDay (MakeDay y m dt) = m
  /\ DateFromDay (MakeDay y m dt) = dt.
Proof.
  intros Hm Hdt.
  pose proof (month_start_bounds y m dt Hm Hdt) as Hb.
  rewrite MakeDay_in_range by exact Hm.
  set (d := DayFromYear y + month_start m (InLeapYear y) + dt - 1).
  assert (Hy : YearFromDay d = y).
  { apply YearFromDay_unique. rewrite DayFromYear_succ, DaysInYear_leap.
    subst d. lia. }
  assert (Hw : DayWithinYear d = month_start m (InLeapYear y) + dt - 1).
  { unfold DayWithinYear. rewrite Hy. subst d. lia. }
  assert (Hmo : MonthFromDay d = m).
  { unfold MonthFromDay. rewrite Hw, Hy.
    pose proof (InLeapYear_range y) as Hl. unfold days_in_month in Hdt.
    clear Hy Hw Hb. clearbody d. unfold month_start.
    case_month m; eval_eqb;
      repeat match goal with
             | |- context [if ?a <? ?b then _ else _] =>
                 destruct (Z.ltb_spec a b)
             end; lia. }
  split; [exact Hy|]. split; [exact Hmo|].
  unfold DateFromDay. rewrite Hmo, Hw, Hy. lia.
Qed.

(** A day is the day made from its own fields. *)
Lemma MakeDay_fields (d : Z) :
  MakeDay (YearFromDay d) (MonthFromDay d) (DateFromDay d) = d.
Proof.
  rewrite MakeDay_in_range by apply MonthFromDay_range.
  unfold DateFromDay, DayWithinYear. lia.
Qed.

Lemma DateFromDay_range (d : Z) :
  1 <= DateFromDay d <= days_in_month (YearFromDay d) (MonthFromDay d).
Proof.
  pose proof (DayWithinYear_range d) as Hw.
  pose proof (InLeapYear_range (YearFromDay d)) as Hl.
  unfold DateFromDay, days_in_month, MonthFromDay, month_start.
  repeat match goal with
         | |- context [if ?a <? ?b then _ else _] =>
             destruct (Z.ltb_spec a b)
         end; eval_eqb; lia.
Qed.

Lemma Day_midnight (d : Z) : Day (d * msPerDay) = d.
Proof. unfold Day, msPerDay. div_lia. Qed.

Lemma TimeWithinDay_midnight (d : Z) : TimeWithinDay (d * msPerDay) = 0.
Proof. unfold TimeWithinDay, msPerDay. div_lia. Qed.

Lemma Day_le (t : Z) : Day t * msPerDay <= t.
Proof. unfold Day, msPerDay. div_lia. Qed.

(** Months outside 0..11 carry into the year. *)
Lemma MakeDay_carry (y m dt : Z) :
  MakeDay y m dt = MakeDay (y + m / 12) (m mod 12) dt.
Proof.
  unfold MakeDay.
  replace ((m mod 12) / 12) with 0 by div_lia.
  replace ((m mod 12) mod 12) with (m mod 12) by div_lia.
  rewrite Z.add_0_r. reflexivity.
Qed.

End DateProps.

(* ===================================================================== *)
(** * Properties of the string built-ins *)
(* ===================================================================== *)
Module StringProps.
Import Js Reference.

Lemma ends_number_nondigit (rest : string) :
  ends_number rest ->
  match rest with String c _ => is_digit c = false | EmptyString => True end.
Proof. destruct rest; [trivial | intros [H _]; exact H]. Qed.

Lemma read_digits_stop (acc : option Z) (rest : string) :
  ends_number rest -> read_digits 10 acc rest = acc.
Proof.
  intros H. apply ends_number_nondigit in H.
  destruct rest as [|c r]; [reflexivity|].
  cbn [read_digits]. unfold radix_value. cbn [Z.eqb]. rewrite H. reflexivity.
Qed.

(** Reading the digits of a decimal numeral continues the number read so
    far. *)
Lemma read_digits_uint (d : Decimal.uint) (acc : nat) (rest : string) :
  ends_number rest ->
  read_digits 10 (Some (Z.of_nat acc)) (NilEmpty.string_of_uint d ++ rest)
  = Some (Z.of_nat (Nat.of_uint_acc d acc)).
Proof.
  intros Hrest. revert acc.
  induction d; intros acc;
    cbn [NilEmpty.string_of_uint append Nat.of_uint_acc];
    [apply read_digits_stop; exact Hrest | ..];
    cbn [read_digits];
    match goal with
    | |- context [radix_value 10 ?c] =>
        let v := eval vm_compute in (radix_value 10 c) in
        change (radix_value 10 c) with v
    end;
    cbv beta iota; rewrite <- IHd; do 2 f_equal;
    rewrite Nat.tail_mul_spec; lia.
Qed.

Lemma string_of_uint_digits (d : Decimal.uint) :
  all_digits (NilEmpty.string_of_uint d) = true.
Proof. induction d; cbn [NilEmpty.string_of_uint all_digits]; auto. Qed.

Lemma nat_toString_digits (n : nat) : all_digits (nat_toString n) = true.
Proof. apply string_of_uint_digits. Qed.

Lemma to_uint_nonnil (n : nat) : Nat.to_uint n <> Decimal.Nil.
Proof.
  pose proof (Unsigned.to_of (Nat.to_uint n)) as H.
  rewrite Unsigned.of_to in H. rewrite H. apply unorm_nonnil.
Qed.

Lemma digit_not_x (c : ascii) : is_digit c = true -> is_x c = false.
Proof.
  unfold is_digit, is_x. intros H.
  apply andb_true_iff in H. destruct H as [H1 H2].
  apply Nat.leb_le in H1, H2.
  apply orb_false_iff. split; apply Nat.eqb_neq; lia.
Qed.

(** The second character of a numeral followed by [rest] is no [x]. *)
Lemma no_hex_prefix (z : ascii) (s rest : string) :
  all_digits s = true -> ends_number rest ->
  match (s ++ rest)%string with
  | String x _ => (nat_of_ascii z =? 48)%nat && is_x x = false
  | EmptyString => True
  end.
Proof.
  intros Hs Hrest. destruct s as [|c s']; cbn [append].
  - destruct rest as [|r rest']; [trivial|].
    destruct Hrest as [_ Hx]. rewrite Hx. apply andb_false_r.
  - cbn [all_digits] in Hs. apply andb_true_iff in Hs. destruct Hs as [Hc _].
    rewrite (digit_not_x c Hc). apply andb_false_r.
Qed.

Lemma digit_not_space (c : ascii) : is_digit c = true -> is_space c = false.
Proof.
  unfold is_digit, is_space. intros H.
  apply andb_true_iff in H. destruct H as [H1 H2].
  apply Nat.leb_le in H1, H2.
  apply orb_false_iff. split.
  - apply andb_false_iff. right. apply Nat.leb_gt. lia.
  - apply Nat.eqb_neq. lia.
Qed.

Lemma digit_not_sign (c : ascii) :
  is_digit c = true ->
  (nat_of_ascii c =? 45)%nat = false /\ (nat_of_ascii c =? 43)%nat = false.
Proof.
  unfold is_digit. intros H.
  apply andb_true_iff in H. destruct H as [H1 H2].
  apply Nat.leb_le in H1, H2.
  split; apply Nat.eqb_neq; lia.
Qed.

(** On a text that starts with a digit and has no hexadecimal prefix,
    [parseInt] is the reading of the decimal digits. *)
Lemma parseInt_digit_head (c : ascii) (s : string) :
  is_digit c = true ->
  match s with
  | String x _ => (nat_of_ascii c =? 48)%nat && is_x x = false
  | EmptyString => True
  end ->
  parseInt (String c s) = read_digits 10 None (String c s).
Proof.
  intros Hc Hx. unfold parseInt. cbn [trimStart].
  rewrite (digit_not_space c Hc).
  destruct (digit_not_sign c Hc) as [-> ->].
  destruct s as [|x t].
  - destruct (read_digits 10 None (String c "")); reflexivity.
  - rewrite Hx.
    destruct (read_digits 10 None (String c (String x t))); reflexivity.
Qed.

Lemma read_digits_numeral (d : Decimal.uint) (rest : string) :
  d <> Decimal.Nil -> ends_number rest ->
  read_digits 10 None (NilEmpty.string_of_uint d ++ rest)
  = Some (Z.of_nat (Nat.of_uint d)).
Proof.
  intros Hd Hrest. unfold Nat.of_uint.
  destruct d; [congruence | ..];
    cbn [NilEmpty.string_of_uint append read_digits Nat.of_uint_acc];
    match goal with
    | |- context [radix_value 10 ?c] =>
        let v := eval vm_compute in (radix_value 10 c) in
        change (radix_value 10 c) with v
    end; cbv beta iota;
    change (Nat.tail_mul 10 0) with 0;
    match goal with
    | |- read_digits 10 (Some ?k) _ = Some (Z.of_nat (Nat.of_uint_acc _ ?a)) =>
        change k with (Z.of_nat a)
    end;
    (apply read_digits_uint; exact Hrest).
Qed.

(** [parseInt] reads a decimal numeral back, whatever follows it that is
    no digit and no [x]. *)
Lemma parseInt_decimal (n : nat) (rest : string) :
  ends_number rest ->
  parseInt (nat_toString n ++ rest) = Some (Z.of_nat n).
Proof.
  intros Hrest. unfold nat_toString.
  rewrite <- (Unsigned.of_to n) at 2.
  pose proof (to_uint_nonnil n) as Hnil.
  rewrite <- (read_digits_numeral (Nat.to_uint n) rest Hnil Hrest).
  pose proof (string_of_uint_digits (Nat.to_uint n)) as Hds.
  destruct (Nat.to_uint n) as [|d|d|d|d|d|d|d|d|d|d]; [congruence | ..];
    cbn [NilEmpty.string_of_uint append all_digits] in Hds |- *;
    apply andb_true_iff in Hds; destruct Hds as [Hc Hds];
    (apply parseInt_digit_head;
     [exact Hc | apply no_hex_prefix; assumption]).
Qed.

Lemma lower_digit (c : ascii) : is_digit c = true -> lower_char c = c.
Proof.
  unfold is_digit, lower_char, is_upper. intros H.
  apply andb_true_iff in H. destruct H as [H1 H2].
  apply Nat.leb_le in H1, H2.
  replace (65 <=? nat_of_ascii c)%nat with false; [reflexivity|].
  symmetry. apply Nat.leb_gt. lia.
Qed.

Lemma toLowerCase_app (a b : string) :
  toLowerCase (a ++ b) = (toLowerCase a ++ toLowerCase b)%string.
Proof. induction a; cbn [append toLowerCase]; congruence. Qed.

Lemma toLowerCase_digits (s : string) :
  all_digits s = true -> toLowerCase s = s.
Proof.
  induction s as [|c s IH]; [reflexivity|].
  cbn [all_digits toLowerCase]. intros H.
  apply andb_true_iff in H. destruct H as [Hc Hs].
  rewrite (lower_digit c Hc), (IH Hs). reflexivity.
Qed.

(** A pattern that starts with no digit is not found in digits: the
    search goes on after them. *)
Lemma includes_after_digits (ds rest : string) (c0 : ascii) (pat : string) :
  is_digit c0 = false -> all_digits ds = true ->
  includes (ds ++ rest) (String c0 pat) = includes rest (String c0 pat).
Proof.
  intros Hc0. induction ds as [|c ds IH]; [reflexivity|].
  cbn [all_digits append]. intros H.
  apply andb_true_iff in H. destruct H as [Hc Hds].
  cbn [includes prefix].
  destruct (ascii_dec c0 c) as [->|_]; [congruence|].
  exact (IH Hds).
Qed.

End StringProps.

(* ===================================================================== *)
(** * Properties of the date utilities *)
(* ===================================================================== *)
Module CommonProps.
Import Js Reference Common DateProps StringProps Examples.
Open Scope Z_scope.

(** The borrowing loop in closed form: a month below 12 ends as its
    residue modulo 12, the year moved by the quotient. *)
Lemma borrow_months_spec (newMonth newYear : Z) :
  newMonth <= 11 ->
  borrow_months newMonth newYear = (newMonth mod 12, newYear + newMonth / 12).
Proof.
  funelim (borrow_months newMonth newYear); intros Hle.
  - match goal with
    | IH : _ -> borrow_months _ _ = _ |- _ => rewrite IH by lia
    end.
    f_equal; div_lia.
  - f_equal; div_lia.
Qed.

(** The number of borrows is the number of times 12 goes into the
    deficit: one per negative overflow. *)
Lemma borrow_months_count (newMonth newYear : Z) :
  newMonth <= 11 ->
  let '(m, y) := borrow_months newMonth newYear in
  0 <= m <= 11 /\ newMonth = m - 12 * (newYear - y).
Proof.
  intros Hle. rewrite borrow_months_spec by exact Hle. div_lia.
Qed.

Lemma month_start_mono (m m' leap : Z) :
  0 <= m <= m' -> m' <= 11 -> 0 <= leap <= 1 ->
  month_start m leap <= month_start m' leap.
Proof.
  intros Hm Hm' Hl. unfold month_start.
  case_month m; case_month m'; eval_eqb; lia.
Qed.

Lemma month_start_range (m leap : Z) :
  0 <= m <= 11 -> 0 <= leap <= 1 -> 0 <= month_start m leap <= 335.
Proof.
  intros Hm Hl. unfold month_start. case_month m; eval_eqb; lia.
Qed.

(** The first day of a month, counted in months from year 0, does not
    come before the first day of an earlier month. *)
Lemma MakeDay_mono (k k' dt : Z) :
  k <= k' -> MakeDay (k / 12) (k mod 12) dt <= MakeDay (k' / 12) (k' mod 12) dt.
Proof.
  intros Hk.
  assert (Hm : 0 <= k mod 12 <= 11) by div_lia.
  assert (Hm' : 0 <= k' mod 12 <= 11) by div_lia.
  rewrite !MakeDay_in_range by assumption.
  pose proof (InLeapYear_range (k / 12)) as Hl.
  pose proof (InLeapYear_range (k' / 12)) as Hl'.
  destruct (Z.eq_dec (k / 12) (k' / 12)) as [E | E].
  - rewrite <- E.
    pose proof (month_start_mono (k mod 12) (k' mod 12) (InLeapYear (k / 12))
                  ltac:(div_lia) ltac:(lia) ltac:(lia)).
    lia.
  - pose proof (month_start_range (k mod 12) (InLeapYear (k / 12))
                  ltac:(lia) ltac:(lia)).
    pose proof (month_start_range (k' mod 12) (InLeapYear (k' / 12))
                  ltac:(lia) ltac:(lia)).
    pose proof (DayFromYear_mono (k / 12 + 1) (k' / 12) ltac:(div_lia)) as Hmono.
    rewrite DayFromYear_succ, DaysInYear_leap in Hmono. lia.
Qed.

(** The fields of local midnight of a calendar day are that day. *)
Lemma fields_midnight (y m dt : Z) :
  0 <= m <= 11 -> 1 <= dt <= days_in_month y m ->
  fields (Some (midnight y m dt)) = Some (y, m, dt).
Proof.
  intros Hm Hdt.
  unfold fields, midnight, getFullYear, getMonth, getDate.
  rewrite Day_midnight.
  destruct (fields_MakeDay y m dt Hm Hdt) as [-> [-> ->]].
  reflexivity.
Qed.

Section WithDateParse.

Variable Date_parse : string -> Date.

(** What [calculateDateFromRelative] does on a text of the month kind
    whose number [parseInt] reads as [months], no less than zero. *)
Lemma calculateDateFromRelative_months (now : Z) (s : string) (months : Z) :
  includes (toLowerCase s) "year" = false ->
  includes (toLowerCase s) "month" = true ->
  parseInt s = Some months ->
  0 <= months ->
  let k := 12 * getFullYear now + getMonth now - months in
  calculateDateFromRelative Date_parse now s
  = Date_ymd (Some (k / 12)) (Some (k mod 12)) (Some (getDate now)).
Proof.
  intros Hy Hm Hp Hpos k.
  unfold calculateDateFromRelative. rewrite Hy, Hm, Hp.
  cbn [num_sub].
  pose proof (MonthFromDay_range (Day now)) as Hr. fold (getMonth now) in Hr.
  rewrite borrow_months_spec by lia. cbv beta iota.
  replace (k / 12) with (getFullYear now + (getMonth now - months) / 12)
    by (subst k; div_lia).
  replace (k mod 12) with ((getMonth now - months) mod 12)
    by (subst k; div_lia).
  reflexivity.
Qed.

Lemma months_ago_shape (n : nat) :
  let s := (nat_toString n ++ " months ago")%string in
  includes (toLowerCase s) "year" = false
  /\ includes (toLowerCase s) "month" = true
  /\ parseInt s = Some (Z.of_nat n).
Proof.
  cbn zeta.
  rewrite toLowerCase_app, (toLowerCase_digits _ (nat_toString_digits n)).
  rewrite !includes_after_digits
    by (try apply nat_toString_digits; reflexivity).
  split; [reflexivity|]. split; [reflexivity|].
  apply parseInt_decimal. split; reflexivity.
Qed.

(** C2, as amended.  At the instant [now], [calculateDateFromRelative]
    on the text of [n] followed by [months ago], [n] no more than 2^53
    (the numbers of months on which the arithmetic of the source is
    exact), takes [n] off the month of [now], borrows 12 months and
    takes one year off for each negative overflow, and builds with the
    [Date] constructor the date of that year and month with the day of
    the month of [now].  When the month
    reached has that day, and its year is 100 or later, the result is
    local midnight of the same day of the month, [n] months before the
    month of [now].  With [now] on 2024-03-15, [2 months ago] is
    2024-01-15 and [14 months ago] is 2023-01-15. *)
Theorem months_ago (now : Z) :
  (forall n : nat,
      Z.of_nat n <= 2 ^ 53 ->
      exists borrows : Z,
        0 <= borrows
        /\ 0 <= getMonth now - Z.of_nat n + 12 * borrows <= 11
        /\ (borrows = 0 \/ getMonth now - Z.of_nat n + 12 * (borrows - 1) < 0)
        /\ calculateDateFromRelative Date_parse now
             (nat_toString n ++ " months ago")
           = Date_ymd (Some (getFullYear now - borrows))
                      (Some (getMonth now - Z.of_nat n + 12 * borrows))
                      (Some (getDate now)))
  /\ (forall n : nat,
      let k := 12 * getFullYear now + getMonth now - Z.of_nat n in
      Z.of_nat n <= 2 ^ 53 ->
      Z.abs now <= 8640000000000000 ->
      1200 <= k ->
      getDate now <= days_in_month (k / 12) (k mod 12) ->
      calculateDateFromRelative Date_parse now
        (nat_toString n ++ " months ago")
      = Some (midnight (k / 12) (k mod 12) (getDate now))
      /\ fields (calculateDateFromRelative Date_parse now
                   (nat_toString n ++ " months ago"))
         = Some (k / 12, k mod 12, getDate now))
  /\ (fields (Some now) = Some (2024, 2, 15) ->
      fields (calculateDateFromRelative Date_parse now "2 months ago")
      = Some (2024, 0, 15)
      /\ fields (calculateDateFromRelative Date_parse now "14 months ago")
         = Some (2023, 0, 15)).
Proof.
  split; [|split].
  - intros n _.
    destruct (months_ago_shape n) as [Hy [Hm Hp]].
    rewrite (calculateDateFromRelative_months now _ (Z.of_nat n) Hy Hm Hp)
      by lia.
    pose proof (MonthFromDay_range (Day now)) as Hr.
    fold (getMonth now) in Hr.
    exists (- ((getMonth now - Z.of_nat n) / 12)).
    split; [div_lia|]. split; [div_lia|]. split; [div_lia|].
    f_equal; f_equal; div_lia.
  - intros n k _ Hnow Hk Hday.
    destruct (months_ago_shape n) as [Hy [Hm Hp]].
    rewrite (calculateDateFromRelative_months now _ (Z.of_nat n) Hy Hm Hp)
      by lia.
    fold k.
    assert (Hmod : 0 <= k mod 12 <= 11) by div_lia.
    pose proof (DateFromDay_range (Day now)) as Hd.
    fold (getDate now) in Hd.
    assert (Hdate : 1 <= getDate now <= days_in_month (k / 12) (k mod 12))
      by lia.
    assert (Hclip : Date_ymd (Some (k / 12)) (Some (k mod 12))
                             (Some (getDate now))
                    = Some (midnight (k / 12) (k mod 12) (getDate now))).
    { unfold Date_ymd, midnight.
      replace ((0 <=? k / 12) && (k / 12 <=? 99)) with false
        by (symmetry; apply andb_false_iff; right; apply Z.leb_gt; div_lia).
      unfold TimeClip.
      replace (Z.abs (MakeDay (k / 12) (k mod 12) (getDate now) * msPerDay)
               <=? 8640000000000000) with true; [reflexivity|].
      symmetry. apply Z.leb_le.
      pose proof (MakeDay_mono k (12 * getFullYear now + getMonth now)
                    (getDate now) ltac:(lia)) as Hup.
      pose proof (MonthFromDay_range (Day now)) as Hr.
      fold (getMonth now) in Hr.
      replace ((12 * getFullYear now + getMonth now) / 12)
        with (getFullYear now) in Hup by div_lia.
      replace ((12 * getFullYear now + getMonth now) mod 12)
        with (getMonth now) in Hup by div_lia.
      assert (Hself : MakeDay (getFullYear now) (getMonth now) (getDate now)
                      = Day now) by apply MakeDay_fields.
      rewrite Hself in Hup.
      pose proof (Day_le now) as Hle.
      pose proof (month_start_bounds (k / 12) (k mod 12) (getDate now)
                    Hmod Hdate) as Hlow.
      rewrite MakeDay_in_range in Hup |- * by exact Hmod.
      pose proof (DayFromYear_mono 100 (k / 12) ltac:(div_lia)) as Hy100.
      change (DayFromYear 100) with (-683003) in Hy100.
      unfold msPerDay in *. lia. }
    rewrite Hclip. split; [reflexivity|].
    apply fields_midnight; assumption.
  - intros Hf. unfold fields in Hf. injection Hf as HY HM HD.
    split.
    + rewrite (calculateDateFromRelative_months now "2 months ago" 2)
        by (reflexivity || lia).
      rewrite HY, HM, HD. reflexivity.
    + rewrite (calculateDateFromRelative_months now "14 months ago" 14)
        by (reflexivity || lia).
      rewrite HY, HM, HD. reflexivity.
Qed.


(** The two comparisons of a filter, spelled out. *)
Lemma in_range_spec (d start end_ : Date) :
  date_ge d start && date_le d end_ = true <-> in_range d start end_.
Proof.
  unfold in_range.
  destruct d as [t|], start as [ts|], end_ as [te|]; cbn [date_ge date_le];
    rewrite ?andb_false_r; cbn [andb];
    (split; [intros H | intros [t' [ts' [te' [H1 [H2 [H3 H4]]]]]]]);
    try discriminate.
  - apply andb_true_iff in H. destruct H as [Hs He].
    apply Z.leb_le in Hs, He.
    exists t, ts, te. repeat split; assumption.
  - injection H1 as <-. injection H2 as <-. injection H3 as <-.
    apply andb_true_iff. split; apply Z.leb_le; lia.
Qed.

(** C3.  Both date filters keep exactly the reviews whose date resolves
    to a valid date [t] with [start <= t <= end], the bounds being valid
    dates themselves: [filterReviewsByDate], which resolves dates with
    [parseDate], and [isReviewInDateRange], which resolves the date of
    the review with [calculateDateFromRelative].  So, for a range whose
    start is not after its end, a review dated exactly at the start or
    exactly at the end is kept, and a review whose date does not resolve
    is left out. *)
Theorem date_range_inclusive :
  (forall reviews startStr endStr review,
      In review (filterReviewsByDate Date_parse reviews startStr endStr)
      <-> In review reviews
          /\ in_range (parseDate Date_parse (reviewDate review))
                      (parseDate Date_parse startStr)
                      (parseDate Date_parse endStr))
  /\ (forall now dateStr startStr endStr,
        isReviewInDateRange Date_parse now dateStr startStr endStr = true
        <-> in_range (calculateDateFromRelative Date_parse now dateStr)
                     (Date_parse startStr) (Date_parse endStr))
  /\ (forall reviews startStr endStr review ts te,
        In review reviews ->
        parseDate Date_parse startStr = Some ts ->
        parseDate Date_parse endStr = Some te ->
        ts <= te ->
        parseDate Date_parse (reviewDate review) = Some ts
        \/ parseDate Date_parse (reviewDate review) = Some te ->
        In review (filterReviewsByDate Date_parse reviews startStr endStr))
  /\ (forall now dateStr startStr endStr ts te,
        Date_parse startStr = Some ts ->
        Date_parse endStr = Some te ->
        ts <= te ->
        calculateDateFromRelative Date_parse now dateStr = Some ts
        \/ calculateDateFromRelative Date_parse now dateStr = Some te ->
        isReviewInDateRange Date_parse now dateStr startStr endStr = true)
  /\ (forall reviews startStr endStr review,
        parseDate Date_parse (reviewDate review) = None ->
        ~ In review (filterReviewsByDate Date_parse reviews startStr endStr))
  /\ (forall now dateStr startStr endStr,
        calculateDateFromRelative Date_parse now dateStr = None ->
        isReviewInDateRange Date_parse now dateStr startStr endStr = false).
Proof.
  assert (Hfilter : forall reviews startStr endStr review,
      In review (filterReviewsByDate Date_parse reviews startStr endStr)
      <-> In review reviews
          /\ in_range (parseDate Date_parse (reviewDate review))
                      (parseDate Date_parse startStr)
                      (parseDate Date_parse endStr)).
  { intros reviews startStr endStr review.
    unfold filterReviewsByDate. rewrite filter_In, <- in_range_spec.
    destruct (parseDate Date_parse (reviewDate review)); cbn [isNaN negb andb];
      [reflexivity|].
    cbn [date_ge andb]. reflexivity. }
  assert (Hrange : forall now dateStr startStr endStr,
      isReviewInDateRange Date_parse now dateStr startStr endStr = true
      <-> in_range (calculateDateFromRelative Date_parse now dateStr)
                   (Date_parse startStr) (Date_parse endStr)).
  { intros. unfold isReviewInDateRange. apply in_range_spec. }
  split; [exact Hfilter|]. split; [exact Hrange|].
  split; [|split; [|split]].
  - intros reviews startStr endStr review ts te Hin Hs He Hle Hd.
    apply Hfilter. split; [exact Hin|].
    rewrite Hs, He.
    destruct Hd as [-> | ->].
    + exists ts, ts, te. repeat split; try reflexivity; lia.
    + exists te, ts, te. repeat split; try reflexivity; lia.
  - intros now dateStr startStr endStr ts te Hs He Hle Hd.
    apply Hrange. rewrite Hs, He.
    destruct Hd as [-> | ->].
    + exists ts, ts, te. repeat split; try reflexivity; lia.
    + exists te, ts, te. repeat split; try reflexivity; lia.
  - intros reviews startStr endStr review Hd Hin.
    apply Hfilter in Hin. destruct Hin as [_ [t [ts [te [H _]]]]].
    congruence.
  - intros now dateStr startStr endStr Hd.
    unfold isReviewInDateRange. rewrite Hd. reflexivity.
Qed.

End WithDateParse.

Lemma date_range_inclusive_witness :
  let reviews := [review_dated "2023/01/01"; review_dated "12/31/2023";
                  review_dated "some day"] in
  In (review_dated "2023/01/01")
     (filterReviewsByDate (fun _ => None) reviews "2023/01/01" "2023/12/31")
  /\ In (review_dated "12/31/2023")
        (filterReviewsByDate (fun _ => None) reviews "2023/01/01" "2023/12/31")
  /\ ~ In (review_dated "some day")
        (filterReviewsByDate (fun _ => None) reviews "2023/01/01" "2023/12/31").
Proof.
  pose proof (date_range_inclusive (fun _ => None))
    as [_ [_ [Hends [_ [Hout _]]]]].
  cbn zeta. split; [|split].
  - apply (Hends _ _ _ _ 1672531200000%Z 1703980800000%Z);
      [cbn; tauto | vm_compute; reflexivity | vm_compute; reflexivity
      | lia | left; vm_compute; reflexivity].
  - apply (Hends _ _ _ _ 1672531200000%Z 1703980800000%Z);
      [cbn; tauto | vm_compute; reflexivity | vm_compute; reflexivity
      | lia | right; vm_compute; reflexivity].
  - apply Hout. vm_compute. reflexivity.
Defined.

Lemma months_ago_witness :
  fields (calculateDateFromRelative (fun _ => None) march_15
            (nat_toString 14 ++ " months ago"))
  = Some (2023, 0, 15)
  /\ fields (calculateDateFromRelative (fun _ => None) march_15
               "2 months ago")
     = Some (2024, 0, 15).
Proof.
  split.
  - apply (proj1 (proj2 (months_ago (fun _ => None) march_15)) 14%nat);
      vm_compute; congruence.
  - apply (proj2 (proj2 (months_ago (fun _ => None) march_15))).
    vm_compute. reflexivity.
Defined.

(** C2, as stated, fails on the last day of March 2024: [1 months ago]
    is built as the 31st day of February and comes out as 2 March 2024,
    in the month of the reference itself. *)
Lemma months_ago_counterexample :
  fields (Some march_31) = Some (2024, 2, 31)
  /\ fields (calculateDateFromRelative (fun _ => None) march_31
               (nat_toString 1 ++ " months ago"))
     = Some (2024, 2, 2).
Proof. split; vm_compute; reflexivity. Qed.

End CommonProps.

(* ===================================================================== *)
(** * Properties of the three parsers *)
(* ===================================================================== *)
Module ParserProps.
Import Js Reference Examples.

(** ** G2: the question-and-answer sections *)

(** The cleaning leaves the text of the example as it is. *)
Lemma example_text_clean :
  G2.clean_review_text (trim example_text) = example_text.
Proof. vm_compute. reflexivity. Qed.

(** C5.  On the text of the example the three patterns give: for the
    first question a match from index 0 whose captured answer runs from
    after the question mark and the space to the start of the second
    question, at index 45; for the second a match from index 45 whose
    captured answer runs to the end of the text; for the third no match.
    Whatever else the review element holds, the record made from that
    text has the answers [Great support], [Slow UI] and the empty
    string. *)
Theorem g2_answers_example :
  exec G2.re_like example_text
  = Some (MatchResult 0 "What do you like best about X? Great support "
                      [(1, "Great support ")])
  /\ exec G2.re_dislike example_text
     = Some (MatchResult 45 "What do you dislike about X? Slow UI"
                         [(1, "Slow UI")])
  /\ exec G2.re_problems example_text = None
  /\ forall (reviewCount : nat) (title reviewer timeText jobTitle : string)
            (datetime : option string),
       option_map content
         (G2.parse_review reviewCount
            (G2.mkElement title example_text reviewer datetime timeText
                          jobTitle false))
       = Some (G2Answers "Great support" "Slow UI" "").
Proof.
  assert (Hlike : exec G2.re_like example_text
                  = Some (MatchResult 0
                            "What do you like best about X? Great support "
                            [(1, "Great support ")]))
    by (vm_compute; reflexivity).
  assert (Hdislike : exec G2.re_dislike example_text
                     = Some (MatchResult 45
                               "What do you dislike about X? Slow UI"
                               [(1, "Slow UI")]))
    by (vm_compute; reflexivity).
  assert (Hproblems : exec G2.re_problems example_text = None)
    by (vm_compute; reflexivity).
  repeat (split; [assumption|]).
  intros reviewCount title reviewer timeText jobTitle datetime.
  unfold G2.parse_review. cbn [G2.el_bodyText].
  rewrite example_text_clean, Hlike, Hdislike, Hproblems.
  reflexivity.
Qed.

(** ** The records the parsers emit *)

Lemma truthy_app_l (a b : string) : truthy a = true -> truthy (a ++ b) = true.
Proof. destruct a; [discriminate | reflexivity]. Qed.

Lemma or_else_truthy (a b : string) : truthy b = true -> truthy (or_else a b) = true.
Proof. unfold or_else. destruct (truthy a) eqn:E; auto. Qed.








(** ** The review count of the summary *)

(** C9, as stated, fails on Capterra: two pages that differ in their
    review cards only get different counts, the number of records made
    from the cards. *)
Lemma total_reviews_counterexample :
  capterra_total (capterra_page [a_card]) = Some "1"
  /\ capterra_total (capterra_page [a_card; a_card]) = Some "2"
  /\ capterra_total (capterra_page []) = Some "0".
Proof. repeat split. Qed.

(** C9, as amended.  Trustpilot and G2 take [totalReviews] from the page
    and not from its review elements: two pages with the same header
    text, or the same count texts, get the same [totalReviews] whatever
    their review elements are; Trustpilot reads the count that ends the
    header text, commas removed, and G2 the first count selector that
    finds a text.  Capterra sets [totalReviews] to the number of records
    it made from the page, in decimal. *)
Theorem total_reviews_source :
  (forall (h1Text rating rating' : string) (cards cards' : list Trustpilot.Card)
          (next next' : option string),
      option_map pd_totalReviews
        (pr_productData (Trustpilot.parsedDataFromHTML_Trustpilot
                           (Trustpilot.mkPage None h1Text rating cards next)))
      = option_map pd_totalReviews
          (pr_productData (Trustpilot.parsedDataFromHTML_Trustpilot
                             (Trustpilot.mkPage None h1Text rating' cards' next'))))
  /\ (forall (title : string) (ratings counts : list string)
             (bodies bodies' : list G2.ReviewElement),
        G2.g2_totalReviews
          (G2.parseG2HtmlContent (G2.mkPage title ratings counts bodies))
        = G2.g2_totalReviews
            (G2.parseG2HtmlContent (G2.mkPage title ratings counts bodies')))
  /\ (forall (page : Trustpilot.Page) (pd : ProductData),
      pr_productData (Trustpilot.parsedDataFromHTML_Trustpilot page) = Some pd ->
      pd_totalReviews pd = trustpilot_header_count (Trustpilot.pg_h1Text page))
  /\ trustpilot_header_count "Acme Corp Reviews 1,915" = "1915"
  /\ (forall page : G2.Page,
        G2.g2_totalReviews (G2.parseG2HtmlContent page)
        = g2_count (G2.pg_countTexts page))
  /\ g2_count [""; " 1,234 reviews "] = "1,234"
  /\ (forall (page : Capterra.Page) (pd : ProductData),
        pr_error (Capterra.parsedDataFromHTML_Capterra page) = None ->
        pr_productData (Capterra.parsedDataFromHTML_Capterra page) = Some pd ->
        pd_totalReviews pd = nat_toString (List.length (pd_allReviews pd))).
Proof.
  split; [|split; [|split; [|split; [|split; [|split]]]]].
  - intros. unfold Trustpilot.parsedDataFromHTML_Trustpilot.
    cbn [Trustpilot.pg_throws Trustpilot.pg_h1Text].
    destruct (exec Trustpilot.re_header (trim h1Text)); reflexivity.
  - intros. reflexivity.
  - intros page pd. unfold Trustpilot.parsedDataFromHTML_Trustpilot.
    destruct (Trustpilot.pg_throws page); [discriminate|].
    unfold trustpilot_header_count.
    destruct (exec Trustpilot.re_header (trim (Trustpilot.pg_h1Text page)));
      cbn [pr_productData]; intros H; injection H as <-; reflexivity.
  - vm_compute. reflexivity.
  - intros page. reflexivity.
  - vm_compute. reflexivity.
  - intros page pd. unfold Capterra.parsedDataFromHTML_Capterra.
    destruct (_ && _); [discriminate|].
    destruct (Capterra.pg_throws page); [discriminate|].
    cbn [pr_productData]. intros _ H. injection H as <-. reflexivity.
Qed.

Lemma total_reviews_source_witness :
  exists pd,
    pr_productData
      (Capterra.parsedDataFromHTML_Capterra (capterra_page [a_card; a_card]))
    = Some pd
    /\ pd_totalReviews pd = nat_toString (List.length (pd_allReviews pd))
    /\ List.length (pd_allReviews pd) = 2%nat.
Proof.
  eexists. split; [vm_compute; reflexivity|]. split; [|reflexivity].
  apply (proj2 (proj2 (proj2 (proj2 (proj2 (proj2 total_reviews_source)))))
           (capterra_page [a_card; a_card])); vm_compute; reflexivity.
Defined.

End ParserProps.

(* ===================================================================== *)
(** * Properties of the retry loops *)
(* ===================================================================== *)
Module RetryProps.
Import Js Reference Examples.

(** Splits on what the network returns at each attempt and on the tests
    of the loop body, until the loop is unfolded to its end. *)
Ltac split_attempts :=
  repeat match goal with
         | |- context [match ?f ?p ?a with Normal _ => _ | Throw _ => _ end] =>
             let E := fresh "Efetch" in destruct (f p a) eqn:E
         | |- context [match ?f ?a with Normal _ => _ | Throw _ => _ end] =>
             let E := fresh "Efetch" in destruct (f a) eqn:E
         | |- context [G2.g2_error (G2.parseG2HtmlContent ?p)] =>
             change (G2.g2_error (G2.parseG2HtmlContent p)) with (@None string);
             cbv beta iota
         | |- context [(?a <? 3)%nat] =>
             let v := eval vm_compute in (a <? 3)%nat in
             change (a <? 3)%nat with v; cbv beta iota
         | |- context [if (0 <? ?n)%nat then _ else _] =>
             let E := fresh "Ecount" in destruct (0 <? n)%nat eqn:E
         | |- context [match pr_error ?r with Some _ => _ | None => _ end] =>
             let E := fresh "Eerror" in destruct (pr_error r) eqn:E
         | |- context [match pr_productData ?r with Some _ => _ | None => _ end] =>
             let E := fresh "Edata" in destruct (pr_productData r) eqn:E
         | |- context [match Capterra.review_count ?r with
                       | Normal _ => _ | Throw _ => _ end] =>
             let E := fresh "Ereviews" in
             destruct (Capterra.review_count r) eqn:E
         end.

(** Closes a case in which what is known of an attempt contradicts the
    branch taken, or the trace does not hold the fetch it should. *)
Ltac close_case :=
  repeat match goal with
         | E : Normal _ = Normal _ |- _ => injection E as <-
         | E : Throw _ = Normal _ |- _ => discriminate E
         | E : Some _ = None |- _ => discriminate E
         | E : None = Some _ |- _ => discriminate E
         | H : _ \/ _ |- _ => destruct H as [H | H]
         | H : EvFetch _ _ = EvFetch _ _ |- _ => discriminate H
         | H : EvDelay _ = EvFetch _ _ |- _ => discriminate H
         | H : False |- _ => destruct H
         end.

Lemma length_zero_nil {A : Type} (l : list A) :
  (0 <? List.length l)%nat = false -> l = [].
Proof. destruct l; [reflexivity | discriminate]. Qed.

(** ** G2 *)

Lemma g2_no_error (p : G2.Page) : G2.g2_error (G2.parseG2HtmlContent p) = None.
Proof. reflexivity. Qed.

Section G2.

Variable Date_parse : string -> Date.
Variable now : Z.
Variable fetchHtml : nat -> nat -> completion G2.Page.

Let retry := G2.retry_loop fetchHtml 3 1 None [].

Lemma g2_retry_limits :
  fetch_count (snd retry) <= 3
  /\ fixed_delays (snd retry) = true
  /\ spaced (snd retry) = true.
Proof.
  subst retry. cbn [G2.retry_loop Nat.eqb app].
  split_attempts; cbn [snd app]; repeat split; cbn; lia.
Qed.

Lemma g2_zero_retried (a : nat) :
  a < 3 -> In (EvFetch 1 a) (snd retry) -> g2_no_reviews (fetchHtml 1 a) ->
  In (EvFetch 1 (S a)) (snd retry).
Proof.
  intros Ha Hin [p [Hp Hz]]. revert Hin.
  subst retry. cbn [G2.retry_loop Nat.eqb app].
  destruct a as [|[|[|a]]]; [| | |lia];
    split_attempts; cbn [snd app];
    try (rewrite Hp in *);
    repeat match goal with
           | E : Normal _ = Normal _ |- _ => injection E as <-
           | E : Throw _ = Normal _ |- _ => discriminate E
           | E : (0 <? List.length ?l)%nat = true |- _ =>
               rewrite Hz in E; discriminate E
           end;
    cbn [In]; intros Hin;
    repeat match goal with
           | H : _ \/ _ |- _ => destruct H as [H | H]
           | H : EvFetch _ _ = EvFetch _ _ |- _ => discriminate H
           | H : EvDelay _ = EvFetch _ _ |- _ => discriminate H
           | H : False |- _ => destruct H
           end; auto 10.
Qed.

(** After a retry loop that ends with a page without reviews, the run
    returns the summary of that page and no review; no further page is
    fetched. *)
Lemma g2_scrape_after_empty (startDate endDate : string) (maxReviews : nat)
    (parsed : G2.Parsed) (tr : list event) :
  retry = (G2.LoopDone, Some parsed, tr) ->
  G2.g2_allReviews parsed = [] ->
  exists info,
    G2.scrapeG2WithProxy Date_parse now fetchHtml startDate endDate maxReviews
    = G2.mkRun (Some (mkResult (Some info) [] 0)) [] tr.
Proof.
  intros Hretry Hz. unfold G2.scrapeG2WithProxy.
  fold retry. rewrite Hretry. cbv zeta. rewrite Hz.
  cbn [filter List.length].
  change (10 <=? 0)%nat with false. rewrite andb_false_r.
  cbn [G2.ps_filtered G2.ps_all G2.ps_trace List.length].
  change (maxReviews <? 0)%nat with false.
  eexists. reflexivity.
Qed.

Lemma g2_three_empty (startDate endDate : string) (maxReviews : nat) :
  (forall a, 1 <= a <= 3 -> g2_no_reviews (fetchHtml 1 a)) ->
  let run := G2.scrapeG2WithProxy Date_parse now fetchHtml
               startDate endDate maxReviews in
  G2.run_trace run = three_attempts 1 true
  /\ exists info, G2.run_result run = Some (mkResult (Some info) [] 0).
Proof.
  intros Hall.
  destruct (Hall 1 ltac:(lia)) as [p1 [H1 Hz1]].
  destruct (Hall 2 ltac:(lia)) as [p2 [H2 Hz2]].
  destruct (Hall 3 ltac:(lia)) as [p3 [H3 Hz3]].
  assert (Hretry : retry = (G2.LoopDone, Some (G2.parseG2HtmlContent p3),
                            three_attempts 1 true)).
  { subst retry. cbn [G2.retry_loop Nat.eqb app]. rewrite H1, H2, H3.
    rewrite !g2_no_error, Hz1, Hz2, Hz3. reflexivity. }
  destruct (g2_scrape_after_empty startDate endDate maxReviews _ _ Hretry Hz3)
    as [info ->].
  cbn [G2.run_trace G2.run_result]. split; [reflexivity|].
  exists info. reflexivity.
Qed.

(** When the third attempt is made and finds no review, the run ends
    with a result, not with [null]. *)
Lemma g2_third_empty_accepted (startDate endDate : string) (maxReviews : nat) :
  In (EvFetch 1 3) (snd retry) -> g2_no_reviews (fetchHtml 1 3) ->
  exists info,
    G2.run_result (G2.scrapeG2WithProxy Date_parse now fetchHtml
                     startDate endDate maxReviews)
    = Some (mkResult (Some info) [] 0).
Proof.
  intros Hin [p [Hp Hz]].
  assert (Hretry : exists tr,
             retry = (G2.LoopDone, Some (G2.parseG2HtmlContent p), tr)).
  { revert Hin. subst retry. cbn [G2.retry_loop Nat.eqb app].
    split_attempts; cbn [snd app];
      try (rewrite Hp in *);
      repeat match goal with
             | E : Normal _ = Normal _ |- _ => injection E as <-
             | E : Throw _ = Normal _ |- _ => discriminate E
             | E : (0 <? List.length ?l)%nat = true |- _ =>
                 rewrite Hz in E; discriminate E
             end;
      cbn [In]; intros Hin;
      repeat match goal with
             | H : _ \/ _ |- _ => destruct H as [H | H]
             | H : EvFetch _ _ = EvFetch _ _ |- _ => discriminate H
             | H : EvDelay _ = EvFetch _ _ |- _ => discriminate H
             | H : False |- _ => destruct H
             end;
      eexists; reflexivity. }
  destruct Hretry as [tr Hretry].
  destruct (g2_scrape_after_empty startDate endDate maxReviews _ _ Hretry Hz)
    as [info ->].
  exists info. reflexivity.
Qed.

End G2.

(** ** Capterra *)

Section Capterra.

Variable Date_parse : string -> Date.
Variable now : Z.
Variable fetchHtml : nat -> completion Capterra.Page.

Let retry := Capterra.retry_loop fetchHtml 3 1 None [].

Lemma capterra_retry_limits :
  fetch_count (snd retry) <= 3
  /\ fixed_delays (snd retry) = true
  /\ ((forall a p, fetchHtml a = Normal p ->
        pr_error (Capterra.parsedDataFromHTML_Capterra p) = None) ->
      spaced (snd retry) = true).
Proof.
  subst retry. cbn [Capterra.retry_loop Nat.eqb app].
  split_attempts; cbn [snd app]; repeat split; try (cbn; lia);
    intros Hok;
    repeat match goal with
           | E : fetchHtml ?a = Normal ?p,
             E' : pr_error (Capterra.parsedDataFromHTML_Capterra ?p) = Some _
             |- _ => rewrite (Hok a p E) in E'; discriminate E'
           end; reflexivity.
Qed.

Lemma capterra_zero_retried (a : nat) :
  a < 3 -> In (EvFetch 1 a) (snd retry) -> capterra_no_reviews (fetchHtml a) ->
  In (EvFetch 1 (S a)) (snd retry).
Proof.
  intros Ha Hin [p [pd [Hp [Hparse Hz]]]]. revert Hin.
  subst retry. cbn [Capterra.retry_loop Nat.eqb app].
  destruct a as [|[|[|a]]]; [| | |lia];
    split_attempts; cbn [snd app];
    try (rewrite Hp in *); close_case;
    rewrite ?Hparse in *; unfold Capterra.review_count in *;
    cbn [pr_error pr_productData] in *; rewrite ?Hz in *;
    cbn [List.length] in *; close_case;
    try match goal with
        | E : (0 <? 0)%nat = true |- _ => discriminate E
        end;
    cbn [In]; intros Hin; close_case; auto 10.
Qed.

(** After a retry loop that ends with a page without reviews, the run
    returns the summary of that page and no review. *)
Lemma capterra_scrape_after_empty (startDate endDate : string)
    (parsed : ParseResult) (pd : ProductData) (tr : list event) :
  retry = (Capterra.LoopDone, Some parsed, tr) ->
  pr_productData parsed = Some pd -> pd_allReviews pd = [] ->
  exists info,
    Capterra.scrapeAndFilterReviews_Capterra Date_parse now fetchHtml
      startDate endDate
    = Capterra.mkRun (Some (mkResult (Some info) [] 0)) tr.
Proof.
  intros Hretry Hpd Hz. unfold Capterra.scrapeAndFilterReviews_Capterra.
  fold retry. rewrite Hretry, Hpd. cbv zeta. rewrite Hz.
  eexists. reflexivity.
Qed.

Lemma capterra_three_empty (startDate endDate : string) :
  (forall a, 1 <= a <= 3 -> capterra_no_reviews (fetchHtml a)) ->
  let run := Capterra.scrapeAndFilterReviews_Capterra Date_parse now fetchHtml
               startDate endDate in
  Capterra.run_trace run = three_attempts 1 true
  /\ exists info, Capterra.run_result run = Some (mkResult (Some info) [] 0).
Proof.
  intros Hall.
  destruct (Hall 1 ltac:(lia)) as [p1 [pd1 [H1 [Hp1 Hz1]]]].
  destruct (Hall 2 ltac:(lia)) as [p2 [pd2 [H2 [Hp2 Hz2]]]].
  destruct (Hall 3 ltac:(lia)) as [p3 [pd3 [H3 [Hp3 Hz3]]]].
  assert (Hretry : retry
                   = (Capterra.LoopDone,
                      Some (Capterra.parsedDataFromHTML_Capterra p3),
                      three_attempts 1 true)).
  { subst retry. cbn [Capterra.retry_loop Nat.eqb app]. rewrite H1, H2, H3.
    rewrite Hp1, Hp2, Hp3. unfold Capterra.review_count.
    cbn [pr_error pr_productData]. rewrite Hz1, Hz2, Hz3. reflexivity. }
  destruct (capterra_scrape_after_empty startDate endDate _ pd3 _ Hretry
              ltac:(rewrite Hp3; reflexivity) Hz3) as [info ->].
  cbn [Capterra.run_trace Capterra.run_result]. split; [reflexivity|].
  exists info. reflexivity.
Qed.

End Capterra.

(** ** Trustpilot *)

Section Trustpilot.

Variable Date_parse : string -> Date.
Variable fetchHtml : nat -> nat -> completion Trustpilot.Page.

Lemma trustpilot_retry_limits (page : nat) :
  let tr := snd (Trustpilot.retry_loop fetchHtml page 3 1 None None []) in
  fetch_count tr <= 3 /\ fixed_delays tr = true /\ spaced tr = true.
Proof.
  cbn [Trustpilot.retry_loop app].
  split_attempts; cbn [snd app]; repeat split; cbn; lia.
Qed.

Lemma trustpilot_zero_retried (page a : nat) :
  let tr := snd (Trustpilot.retry_loop fetchHtml page 3 1 None None []) in
  a < 3 -> In (EvFetch page a) tr -> trustpilot_no_reviews (fetchHtml page a) ->
  In (EvFetch page (S a)) tr.
Proof.
  intros tr Ha Hin [p [pd [Hp [Hparse Hz]]]]. revert Hin. subst tr.
  cbn [Trustpilot.retry_loop app].
  destruct a as [|[|[|a]]]; [| | |lia];
    split_attempts; cbn [snd app];
    try (rewrite Hp in *); close_case;
    rewrite ?Hparse in *; cbn [pr_error pr_productData] in *; close_case;
    repeat match goal with
           | E : Some _ = Some _ |- _ => injection E as <-
           end;
    rewrite ?Hz in *; cbn [List.length] in *;
    try match goal with
        | E : (0 <? 0)%nat = true |- _ => discriminate E
        end;
    cbn [In]; intros Hin; close_case; auto 10.
Qed.

(** Three attempts that find no review on a page end the loop over the
    pages there, with the reviews collected before as the result. *)
Lemma trustpilot_three_empty (fuel page : nat) (startDate endDate : Date)
    (allReviews : list ReviewRecord) (productInfo : option ProductSummary)
    (tr : list event) :
  (forall a, 1 <= a <= 3 -> trustpilot_no_reviews (fetchHtml page a)) ->
  Trustpilot.page_loop Date_parse fetchHtml (S fuel) startDate endDate page
    allReviews productInfo tr
  = Some (Trustpilot.finish productInfo allReviews page Trustpilot.NoReviews
            (tr ++ three_attempts page false)).
Proof.
  intros Hall.
  destruct (Hall 1 ltac:(lia)) as [p1 [pd1 [H1 [Hp1 Hz1]]]].
  destruct (Hall 2 ltac:(lia)) as [p2 [pd2 [H2 [Hp2 Hz2]]]].
  destruct (Hall 3 ltac:(lia)) as [p3 [pd3 [H3 [Hp3 Hz3]]]].
  assert (Hretry : Trustpilot.retry_loop fetchHtml page 3 1 None None tr
                   = (Some (Trustpilot.parsedDataFromHTML_Trustpilot p3),
                      Some p3, (tr ++ three_attempts page false)%list)).
  { cbn [Trustpilot.retry_loop]. rewrite H1, H2, H3, Hp1, Hp2, Hp3.
    cbn [pr_error pr_productData]. rewrite Hz1, Hz2, Hz3.
    cbn [List.length Nat.ltb Nat.leb].
    unfold three_attempts. cbn [app]. rewrite <- !app_assoc. reflexivity. }
  cbn [Trustpilot.page_loop]. rewrite Hretry, Hp3.
  cbn [pr_error pr_productData]. rewrite Hz3. reflexivity.
Qed.

End Trustpilot.

(** ** The retry policy of the three scrapers *)

(** C1, as stated, fails on Capterra: after an attempt whose parse ends
    in an error the loop goes on to the next attempt at once, and the
    two attempts follow each other with no delay between them. *)
Lemma retry_delay_counterexample :
  pr_error (Capterra.parsedDataFromHTML_Capterra relay_error_page) <> None
  /\ snd (Capterra.retry_loop error_then_page 3 1 None [])
     = [EvFetch 1 1; EvFetch 1 2]
  /\ spaced (snd (Capterra.retry_loop error_then_page 3 1 None [])) = false.
Proof.
  split; [vm_compute; discriminate|].
  split; vm_compute; reflexivity.
Qed.

(** C1, as amended.  On each of the three platforms a fetch-and-parse
    unit makes at most 3 attempts, and every delay of the unit is the
    fixed one of 5000 ms.  On G2 and Trustpilot a delay stands between
    any two attempts; on Capterra it does when no attempt ends in a
    parse error (after a parse error the next attempt follows at once).
    An attempt before the third whose parse finds no review is followed
    by the next attempt.  When all three attempts find no review, the
    three attempts are made with the delay between them, and the scrape
    returns a result with no review: it is not [null] and nothing is
    thrown. *)
Theorem retry_policy :
  (forall fetchHtml : nat -> nat -> completion G2.Page,
      let tr := snd (G2.retry_loop fetchHtml 3 1 None []) in
      fetch_count tr <= 3 /\ fixed_delays tr = true /\ spaced tr = true
      /\ forall a, a < 3 -> In (EvFetch 1 a) tr ->
                   g2_no_reviews (fetchHtml 1 a) -> In (EvFetch 1 (S a)) tr)
  /\ (forall Date_parse now (fetchHtml : nat -> nat -> completion G2.Page)
             startDate endDate maxReviews,
        (forall a, 1 <= a <= 3 -> g2_no_reviews (fetchHtml 1 a)) ->
        let run := G2.scrapeG2WithProxy Date_parse now fetchHtml
                     startDate endDate maxReviews in
        G2.run_trace run = three_attempts 1 true
        /\ exists info, G2.run_result run = Some (mkResult (Some info) [] 0))
  /\ (forall fetchHtml : nat -> completion Capterra.Page,
        let tr := snd (Capterra.retry_loop fetchHtml 3 1 None []) in
        fetch_count tr <= 3 /\ fixed_delays tr = true
        /\ ((forall a p, fetchHtml a = Normal p ->
              pr_error (Capterra.parsedDataFromHTML_Capterra p) = None) ->
            spaced tr = true)
        /\ forall a, a < 3 -> In (EvFetch 1 a) tr ->
                     capterra_no_reviews (fetchHtml a) ->
                     In (EvFetch 1 (S a)) tr)
  /\ (forall Date_parse now (fetchHtml : nat -> completion Capterra.Page)
             startDate endDate,
        (forall a, 1 <= a <= 3 -> capterra_no_reviews (fetchHtml a)) ->
        let run := Capterra.scrapeAndFilterReviews_Capterra Date_parse now
                     fetchHtml startDate endDate in
        Capterra.run_trace run = three_attempts 1 true
        /\ exists info,
             Capterra.run_result run = Some (mkResult (Some info) [] 0))
  /\ (forall (fetchHtml : nat -> nat -> completion Trustpilot.Page) page,
        let tr := snd (Trustpilot.retry_loop fetchHtml page 3 1 None None []) in
        fetch_count tr <= 3 /\ fixed_delays tr = true /\ spaced tr = true
        /\ forall a, a < 3 -> In (EvFetch page a) tr ->
                     trustpilot_no_reviews (fetchHtml page a) ->
                     In (EvFetch page (S a)) tr)
  /\ (forall Date_parse (fetchHtml : nat -> nat -> completion Trustpilot.Page)
             fuel startDateStr endDateStr,
        (forall a, 1 <= a <= 3 -> trustpilot_no_reviews (fetchHtml 1 a)) ->
        Trustpilot.scrapeAllPages_Trustpilot Date_parse fetchHtml (S fuel)
          startDateStr endDateStr
        = Some (Trustpilot.mkRun (Normal (mkResult None [] 0)) 1
                  Trustpilot.NoReviews (three_attempts 1 false))).
Proof.
  split; [|split; [|split; [|split; [|split]]]].
  - intros fetchHtml tr.
    destruct (g2_retry_limits fetchHtml) as [H1 [H2 H3]].
    repeat split; try assumption. apply g2_zero_retried.
  - intros. apply g2_three_empty. assumption.
  - intros fetchHtml tr.
    destruct (capterra_retry_limits fetchHtml) as [H1 [H2 H3]].
    repeat split; try assumption. apply capterra_zero_retried.
  - intros. apply capterra_three_empty. assumption.
  - intros fetchHtml page tr.
    destruct (trustpilot_retry_limits fetchHtml page) as [H1 [H2 H3]].
    repeat split; try assumption. apply trustpilot_zero_retried.
  - intros Date_parse fetchHtml fuel startDateStr endDateStr Hall.
    unfold Trustpilot.scrapeAllPages_Trustpilot.
    rewrite trustpilot_three_empty by exact Hall. reflexivity.
Qed.

Lemma retry_policy_witness :
  G2.run_trace (G2.scrapeG2WithProxy (fun _ => None) 0%Z empty_pages
                  "2023-01-01" "2023-12-31" 50)
  = three_attempts 1 true.
Proof.
  apply (proj1 (proj2 retry_policy) (fun _ => None) 0%Z empty_pages).
  intros a _. eexists. split; reflexivity.
Defined.

End RetryProps.

(* ===================================================================== *)
(** * Properties of the G2 pagination *)
(* ===================================================================== *)
Module G2PaginationProps.
Import Js Reference RetryProps Examples.

(** [max_pages] is the ceiling of the tenth of [maxReviews]: the least
    number of pages of ten that hold [maxReviews] reviews. *)
Lemma max_pages_ceiling (maxReviews : nat) :
  maxReviews <= 10 * G2.max_pages maxReviews
  /\ forall k, maxReviews <= 10 * k -> G2.max_pages maxReviews <= k.
Proof.
  unfold G2.max_pages.
  pose proof (Nat.div_mod_eq (maxReviews + 9) 10) as Hd.
  pose proof (Nat.mod_upper_bound (maxReviews + 9) 10 ltac:(lia)) as Hm.
  split; [lia|].
  intros k Hk.
  destruct (Nat.le_gt_cases ((maxReviews + 9) / 10) k) as [H | H]; [exact H|].
  exfalso. nia.
Qed.

Section Pagination.

Variable Date_parse : string -> Date.
Variable now : Z.
Variable fetchHtml : nat -> nat -> completion G2.Page.
Variables startDate endDate : string.
Variable maxReviews : nat.

Let keep := G2.in_range Date_parse now startDate endDate.
Let records := g2_page_records fetchHtml.

(** What the pagination loop does from page [cur] on: it goes on after
    [k] pages with reviews, adding their records, filtered and not, and
    ends either on the fetch of the next page, which failed or had no
    review, or at the bounds of the loop: past the last page, or with
    [maxReviews] filtered records.  Each page it fetches it fetches
    with fewer than [maxReviews] filtered records. *)
Lemma paginate_spec (fuel maxPages cur : nat) (st : G2.pages_state) :
  maxPages + 1 - cur <= fuel ->
  exists (k : nat) (stopped : bool),
    let final := G2.paginate Date_parse now fetchHtml fuel startDate endDate
                   maxReviews maxPages cur st in
    G2.ps_all final
    = (G2.ps_all st ++ List.concat (map records (seq cur k)))%list
    /\ G2.ps_filtered final
       = (G2.ps_filtered st
          ++ List.concat (map (fun p => filter keep (records p)) (seq cur k)))%list
    /\ G2.ps_trace final
       = (G2.ps_trace st ++ flat_map g2_page_events (seq cur k)
          ++ (if stopped then [EvFetch (cur + k) 1] else []))%list
    /\ (forall p, In p (seq cur k) -> p <= maxPages /\ records p <> [])
    /\ (stopped = true -> cur + k <= maxPages /\ records (cur + k) = [])
    /\ (forall j, j < k + (if stopped then 1 else 0) ->
          List.length
            (G2.ps_filtered st
             ++ List.concat (map (fun p => filter keep (records p))
                               (seq cur j)))%list
          < maxReviews)
    /\ (stopped = false ->
        maxPages < cur + k \/ maxReviews <= List.length (G2.ps_filtered final)).
Proof.
  revert cur st.
  induction fuel as [|fuel IH]; intros cur st Hfuel.
  - exists 0, false. cbn [G2.paginate seq map List.concat flat_map app].
    rewrite !List.app_nil_r.
    split; [reflexivity|]. split; [reflexivity|]. split; [reflexivity|].
    split; [intros p []|]. split; [discriminate|].
    split; [intros j Hj; lia|]. intros _. left. lia.
  - cbn [G2.paginate].
    destruct ((cur <=? maxPages)%nat
              && (List.length (G2.ps_filtered st) <? maxReviews)%nat) eqn:Econd.
    + apply andb_true_iff in Econd. destruct Econd as [Hcur Hlen].
      apply Nat.leb_le in Hcur. apply Nat.ltb_lt in Hlen.
      destruct (fetchHtml cur 1) as [pageResponse | e] eqn:Efetch.
      * assert (Hrec : records cur
                       = G2.g2_allReviews (G2.parseG2HtmlContent pageResponse)).
        { subst records. unfold g2_page_records. rewrite Efetch. reflexivity. }
        destruct (List.length (G2.g2_allReviews
                                 (G2.parseG2HtmlContent pageResponse)) =? 0)%nat
          eqn:Ezero.
        -- assert (Hempty : records cur = []).
           { rewrite Hrec. apply Nat.eqb_eq in Ezero.
             destruct (G2.g2_allReviews (G2.parseG2HtmlContent pageResponse));
               [reflexivity | discriminate]. }
           exists 0, true.
           cbn [seq map List.concat flat_map app G2.ps_all G2.ps_filtered
                  G2.ps_trace].
           rewrite !List.app_nil_r, Nat.add_0_r.
           split; [reflexivity|]. split; [reflexivity|]. split; [reflexivity|].
           split; [intros p []|]. split; [auto|].
           split; [|discriminate].
           intros j Hj. assert (j = 0) as -> by lia.
           cbn [seq map List.concat]. rewrite List.app_nil_r. exact Hlen.
        -- destruct (IH (S cur)
                       (G2.mkPages
                          (G2.ps_filtered st
                           ++ filter keep
                                (G2.g2_allReviews
                                   (G2.parseG2HtmlContent pageResponse)))
                          (G2.ps_all st
                           ++ G2.g2_allReviews
                                (G2.parseG2HtmlContent pageResponse))
                          ((G2.ps_trace st ++ [EvFetch cur 1])
                           ++ [EvDelayRange 3000 5000]))
                       ltac:(lia))
             as [k [stopped [Hall [Hfil [Htr [Hpages [Hstop [Hbelow Hend]]]]]]]].
           exists (S k), stopped.
           cbn [G2.ps_all G2.ps_filtered G2.ps_trace]
             in Hall, Hfil, Htr, Hbelow, Hend.
           cbv zeta in Hend |- *. fold keep.
           replace (cur + S k) with (S cur + k) by lia.
           split; [|split; [|split; [|split; [|split; [|split]]]]].
           ++ rewrite Hall. cbn [seq map List.concat].
              rewrite Hrec, <- !List.app_assoc. reflexivity.
           ++ rewrite Hfil. cbn [seq map List.concat]. fold keep.
              rewrite Hrec, <- !List.app_assoc. reflexivity.
           ++ rewrite Htr. cbn [seq flat_map g2_page_events app].
              rewrite <- !List.app_assoc. reflexivity.
           ++ intros p [<- | H].
              ** split; [exact Hcur|]. rewrite Hrec.
                 apply Nat.eqb_neq in Ezero. intros E.
                 rewrite E in Ezero. apply Ezero. reflexivity.
              ** apply Hpages. exact H.
           ++ exact Hstop.
           ++ intros [|j] Hj.
              ** cbn [seq map List.concat]. rewrite List.app_nil_r. exact Hlen.
              ** cbn [seq map List.concat]. fold keep. rewrite Hrec.
                 rewrite List.app_assoc. apply Hbelow. lia.
           ++ exact Hend.
      * assert (Hempty : records cur = []).
        { subst records. unfold g2_page_records. rewrite Efetch. reflexivity. }
        exists 0, true.
        cbn [seq map List.concat flat_map app G2.ps_all G2.ps_filtered
               G2.ps_trace].
        rewrite !List.app_nil_r, Nat.add_0_r.
        split; [reflexivity|]. split; [reflexivity|]. split; [reflexivity|].
        split; [intros p []|]. split; [auto|].
        split; [|discriminate].
        intros j Hj. assert (j = 0) as -> by lia.
        cbn [seq map List.concat]. rewrite List.app_nil_r. exact Hlen.
    + exists 0, false. cbn [seq map List.concat flat_map app].
      rewrite !List.app_nil_r.
      split; [reflexivity|]. split; [reflexivity|]. split; [reflexivity|].
      split; [intros p []|]. split; [discriminate|].
      split; [intros j Hj; lia|]. intros _. rewrite Nat.add_0_r.
      apply andb_false_iff in Econd. destruct Econd as [H | H].
      * left. apply Nat.leb_gt in H. exact H.
      * right. apply Nat.ltb_ge in H. exact H.
Qed.

(** The fuel of the pagination loop is enough: once it covers the pages
    left up to the page limit, more fuel changes nothing. *)
Lemma paginate_fuel (fuel maxPages cur : nat) (st : G2.pages_state) :
  maxPages + 1 - cur <= fuel ->
  G2.paginate Date_parse now fetchHtml (S fuel) startDate endDate
    maxReviews maxPages cur st
  = G2.paginate Date_parse now fetchHtml fuel startDate endDate
      maxReviews maxPages cur st.
Proof.
  revert cur st.
  induction fuel as [|fuel IH]; intros cur st Hfuel.
  - cbn [G2.paginate].
    replace (cur <=? maxPages)%nat with false
      by (symmetry; apply Nat.leb_gt; lia).
    reflexivity.
  - remember (S fuel) as fuel1 eqn:Efuel.
    cbn [G2.paginate]. subst fuel1. cbn [G2.paginate].
    destruct ((cur <=? maxPages)%nat
              && (List.length (G2.ps_filtered st) <? maxReviews)%nat);
      [|reflexivity].
    destruct (fetchHtml cur 1) as [pageResponse|e]; [|reflexivity].
    destruct (List.length (G2.g2_allReviews
                             (G2.parseG2HtmlContent pageResponse)) =? 0)%nat;
      [reflexivity|].
    apply IH. lia.
Qed.

Let retry := G2.retry_loop fetchHtml 3 1 None [].
Let run := G2.scrapeG2WithProxy Date_parse now fetchHtml
             startDate endDate maxReviews.

(** The retry loop fetches the first page only. *)
Lemma g2_retry_events (p a : nat) :
  In (EvFetch p a) (snd retry) -> p = 1.
Proof.
  subst retry. cbn [G2.retry_loop Nat.eqb app].
  split_attempts; cbn [snd app In]; intros H; close_case;
    match goal with
    | E : EvFetch _ _ = EvFetch _ _ |- _ => injection E; auto
    end.
Qed.

Lemma filter_concat (l : list (list ReviewRecord)) :
  filter keep (List.concat l) = List.concat (map (filter keep) l).
Proof. symmetry. apply concat_filter_map. Qed.

Lemma truncate_firstn (l : list ReviewRecord) :
  (if (maxReviews <? List.length l)%nat then firstn maxReviews l else l)
  = firstn maxReviews l.
Proof.
  destruct (Nat.ltb_spec maxReviews (List.length l)); [reflexivity|].
  symmetry. apply firstn_all2. assumption.
Qed.

(** The shape of a run: the retry loop on the first page, then [k]
    further pages from page 2 on, each with reviews and each fetched
    with fewer than [maxReviews] filtered records, and possibly the
    fetch of one more page that stops the loop; without such a fetch the
    loop ends at its bounds, or is not entered at all. *)
Lemma g2_run_shape :
  exists (k : nat) (stopped : bool),
    G2.run_trace run
    = (snd retry ++ flat_map g2_page_events (seq 2 k)
       ++ (if stopped then [EvFetch (2 + k) 1] else []))%list
    /\ (forall p, In p (seq 2 k) ->
          p <= G2.max_pages maxReviews /\ records p <> [])
    /\ (stopped = true ->
        2 + k <= G2.max_pages maxReviews /\ records (2 + k) = [])
    /\ (G2.run_result run = None -> k = 0 /\ stopped = false)
    /\ (forall res, G2.run_result run = Some res ->
          exists first,
            fst retry = (G2.LoopDone, Some first)
            /\ (0 < k \/ stopped = true ->
                10 <= List.length (G2.g2_allReviews first))
            /\ (forall j, j < k + (if stopped then 1 else 0) ->
                  List.length (g2_filtered keep records first j) < maxReviews)
            /\ (stopped = false ->
                List.length (G2.g2_allReviews first) < 10
                \/ G2.max_pages maxReviews < 2 + k
                \/ maxReviews <= List.length (g2_filtered keep records first k))
            /\ allReviews res
               = firstn maxReviews (g2_filtered keep records first k)
            /\ totalScrapedReviews res = List.length (allReviews res)).
Proof.
  subst run. unfold G2.scrapeG2WithProxy. fold retry.
  destruct retry as [[exit parsed] tr] eqn:Eretry. cbn [snd fst].
  assert (Hnone : forall t : list event,
             exists (k : nat) (stopped : bool),
               t = (t ++ flat_map g2_page_events (seq 2 k)
                    ++ (if stopped then [EvFetch (2 + k) 1] else []))%list
               /\ (forall p, In p (seq 2 k) ->
                     p <= G2.max_pages maxReviews /\ records p <> [])
               /\ (stopped = true ->
                   2 + k <= G2.max_pages maxReviews /\ records (2 + k) = [])
               /\ k = 0 /\ stopped = false).
  { intros t. exists 0, false. cbn [seq flat_map app].
    rewrite List.app_nil_r.
    split; [reflexivity|]. split; [intros p []|]. split; [discriminate|].
    auto. }
  destruct exit; [destruct parsed as [parsedResult|] | |];
    try (destruct (Hnone tr) as [k [stopped [H1 [H2 [H3 H4]]]]];
         exists k, stopped; cbn [G2.run_trace G2.run_result];
         split; [exact H1|]; split; [exact H2|]; split; [exact H3|];
         split; [intros _; exact H4|];
         intros res Hres; discriminate Hres).
  cbv zeta. fold keep.
  set (all0 := G2.g2_allReviews parsedResult).
  assert (Hfilt : forall j,
             (filter keep all0
              ++ List.concat (map (fun p => filter keep (records p)) (seq 2 j)))%list
             = g2_filtered keep records parsedResult j).
  { intros j. unfold g2_filtered. fold all0.
    rewrite filter_app, filter_concat, map_map. reflexivity. }
  destruct ((List.length (filter keep all0) <? maxReviews)%nat
            && (10 <=? List.length all0)%nat) eqn:Econd.
  - apply andb_true_iff in Econd. destruct Econd as [_ Hten].
    apply Nat.leb_le in Hten.
    destruct (paginate_spec (G2.max_pages maxReviews) (G2.max_pages maxReviews)
                2 (G2.mkPages (filter keep all0) all0 tr) ltac:(lia))
      as [k [stopped [Hall [Hfil [Htr [Hpages [Hstop [Hbelow Hend]]]]]]]].
    cbn [G2.ps_all G2.ps_filtered G2.ps_trace] in Hall, Hfil, Htr, Hbelow.
    cbv zeta in Hend.
    exists k, stopped. cbn [G2.run_trace G2.run_result].
    split; [exact Htr|]. split; [exact Hpages|]. split; [exact Hstop|].
    split; [discriminate|].
    intros res Hres. injection Hres as <-.
    exists parsedResult. cbn [allReviews totalScrapedReviews].
    rewrite truncate_firstn.
    split; [reflexivity|]. split; [intros _; exact Hten|].
    split; [intros j Hj; rewrite <- Hfilt; apply Hbelow; exact Hj|].
    split; [|split; [rewrite Hfil, Hfilt; reflexivity | reflexivity]].
    intros Hs. right. destruct (Hend Hs) as [H | H]; [left; exact H|].
    right. rewrite Hfil, Hfilt in H. exact H.
  - exists 0, false. cbn [G2.run_trace G2.run_result
                          G2.ps_all G2.ps_filtered G2.ps_trace
                          seq flat_map map List.concat app].
    rewrite !List.app_nil_r.
    split; [reflexivity|]. split; [intros p []|]. split; [discriminate|].
    split; [discriminate|].
    intros res Hres. injection Hres as <-.
    exists parsedResult. cbn [allReviews totalScrapedReviews].
    rewrite truncate_firstn.
    split; [reflexivity|]. split; [intros [H | H]; [lia | discriminate]|].
    split; [intros j Hj; lia|].
    split; [|split; [rewrite <- Hfilt; cbn [seq map List.concat];
                     rewrite List.app_nil_r; reflexivity | reflexivity]].
    intros _. apply andb_false_iff in Econd. destruct Econd as [H | H].
    + right. right. apply Nat.ltb_ge in H. rewrite <- Hfilt.
      cbn [seq map List.concat]. rewrite List.app_nil_r. exact H.
    + left. apply Nat.leb_gt in H. exact H.
Qed.

End Pagination.

(** C7.  In a run of [scrapeG2WithProxy] with [maxReviews], a number
    of reviews: the page limit is the ceiling of [maxReviews / 10].
    After the first page, which the retry loop fetches and leaves as
    [first], the run fetches the pages from 2 on, once each and in
    order, [k] of them with records, each no later than the page limit
    and each while the filtered records are fewer than [maxReviews]; the
    run goes past the first page only when that has 10 records at
    least.  It ends on the fetch of a page without records (or of a page
    that fails), after which nothing is fetched, or else because the
    first page has fewer than 10 records, the next page is past the page
    limit, or the filtered records have reached [maxReviews].  The
    reviews returned are the first [maxReviews] of the date-filtered
    records of the first page and of those [k] pages, concatenated in
    order, so they are [maxReviews] at most.  A run that returns [null]
    fetches the first page only. *)
Theorem g2_pagination (Date_parse : string -> Date) (now : Z)
    (fetchHtml : nat -> nat -> completion G2.Page)
    (startDate endDate : string) (maxReviews : nat) :
  let run := G2.scrapeG2WithProxy Date_parse now fetchHtml
               startDate endDate maxReviews in
  let maxPages := G2.max_pages maxReviews in
  let keep := G2.in_range Date_parse now startDate endDate in
  let records := g2_page_records fetchHtml in
  let retry := G2.retry_loop fetchHtml 3 1 None [] in
  (maxReviews <= 10 * maxPages
   /\ forall k, maxReviews <= 10 * k -> maxPages <= k)
  /\ exists (k : nat) (stopped : bool),
       G2.run_trace run
       = (snd retry ++ flat_map g2_page_events (seq 2 k)
          ++ (if stopped then [EvFetch (2 + k) 1] else []))%list
       /\ (forall p a, In (EvFetch p a) (G2.run_trace run) ->
             p = 1 \/ (2 <= p <= maxPages /\ a = 1))
       /\ (forall p, In p (seq 2 k) -> p <= maxPages /\ records p <> [])
       /\ (stopped = true -> 2 + k <= maxPages /\ records (2 + k) = [])
       /\ (G2.run_result run = None -> k = 0 /\ stopped = false)
       /\ (forall res, G2.run_result run = Some res ->
             exists first,
               fst retry = (G2.LoopDone, Some first)
               /\ (0 < k \/ stopped = true ->
                   10 <= List.length (G2.g2_allReviews first))
               /\ (forall j, j < k + (if stopped then 1 else 0) ->
                     List.length (g2_filtered keep records first j)
                     < maxReviews)
               /\ (stopped = false ->
                   List.length (G2.g2_allReviews first) < 10
                   \/ maxPages < 2 + k
                   \/ maxReviews
                      <= List.length (g2_filtered keep records first k))
               /\ allReviews res
                  = firstn maxReviews (g2_filtered keep records first k)
               /\ totalScrapedReviews res = List.length (allReviews res)
               /\ List.length (allReviews res) <= maxReviews).
Proof.
  intros run maxPages keep records retry.
  destruct (g2_run_shape Date_parse now fetchHtml startDate endDate maxReviews)
    as [k [stopped [Htr [Hpages [Hstop [Hnull Hres]]]]]].
  fold run in Htr, Hnull, Hres. fold maxPages in Hpages, Hstop, Hres.
  fold retry in Htr, Hres. fold keep records in Hres. fold records in Hpages, Hstop.
  split; [apply max_pages_ceiling|].
  exists k, stopped.
  split; [exact Htr|]. split; [|split; [exact Hpages|]].
  - intros p a Hin. rewrite Htr in Hin.
    apply in_app_or in Hin. destruct Hin as [Hin | Hin].
    + left. exact (g2_retry_events fetchHtml p a Hin).
    + right. apply in_app_or in Hin. destruct Hin as [Hin | Hin].
      * apply in_flat_map in Hin. destruct Hin as [x [Hx Hin]].
        cbn [g2_page_events In] in Hin.
        destruct Hin as [E | [E | []]]; [|discriminate E].
        injection E as <- <-.
        pose proof (proj1 (Hpages x Hx)). apply in_seq in Hx. lia.
      * destruct stopped; [|destruct Hin].
        destruct Hin as [E | []]. injection E as <- <-.
        pose proof (proj1 (Hstop eq_refl)). lia.
  - split; [exact Hstop|]. split; [exact Hnull|].
    intros res Hr.
    destruct (Hres res Hr) as [first [H1 [H2 [H3 [H4 [H5 H6]]]]]].
    exists first. repeat (split; [assumption|]).
    rewrite H5, length_firstn. lia.
Qed.

Lemma g2_pagination_witness :
  let run := G2.scrapeG2WithProxy iso_dates 0%Z g2_two_pages
               "2023-01-01" "2023-12-31" 50 in
  exists res, G2.run_result run = Some res
              /\ List.length (allReviews res) <= 50
              /\ G2.run_trace run = [EvFetch 1 1; EvFetch 2 1].
Proof.
  cbn zeta.
  destruct (g2_pagination iso_dates 0%Z g2_two_pages "2023-01-01" "2023-12-31" 50)
    as [_ [k [stopped [Htr [_ [_ [_ [_ Hres]]]]]]]].
  eexists. split; [vm_compute; reflexivity|].
  split; [|vm_compute; reflexivity].
  match goal with
  | |- List.length (allReviews ?r) <= 50 =>
      destruct (Hres r ltac:(vm_compute; reflexivity))
        as [first [_ [_ [_ [_ [_ [_ Hlen]]]]]]]; exact Hlen
  end.
Defined.

End G2PaginationProps.

(* ===================================================================== *)
(** * Properties of the Trustpilot pagination *)
(* ===================================================================== *)
Module TrustpilotPaginationProps.
Import Js Reference Examples.

Section Pagination.

Variable Date_parse : string -> Date.
Variable fetchHtml : nat -> nat -> completion Trustpilot.Page.
Variables startDate endDate : Date.

(** The retry unit does not read the trace: it only adds to it. *)
Lemma retry_loop_trace (page remaining attempt : nat)
    (parsedResult : option ParseResult) (resp : option Trustpilot.Page)
    (tr : list event) :
  Trustpilot.retry_loop fetchHtml page remaining attempt parsedResult resp tr
  = let '(parsedResult', resp', events) :=
      Trustpilot.retry_loop fetchHtml page remaining attempt parsedResult resp []
    in (parsedResult', resp', (tr ++ events)%list).
Proof.
  revert attempt parsedResult resp tr.
  induction remaining as [|remaining IH]; intros attempt parsedResult resp tr.
  - cbn [Trustpilot.retry_loop]. rewrite List.app_nil_r. reflexivity.
  - cbn [Trustpilot.retry_loop app].
    destruct (fetchHtml page attempt) as [resp' | e].
    + destruct (pr_error (Trustpilot.parsedDataFromHTML_Trustpilot resp')).
      * reflexivity.
      * destruct (pr_productData (Trustpilot.parsedDataFromHTML_Trustpilot resp'))
          as [pd|].
        -- destruct (0 <? List.length (pd_allReviews pd))%nat; [reflexivity|].
           rewrite IH. rewrite (IH _ _ _ (if (attempt <? 3)%nat then _ else _)).
           destruct (Trustpilot.retry_loop fetchHtml page remaining (S attempt)
                       _ _ []) as [[p r] ev].
           destruct (attempt <? 3)%nat; cbn [app];
             rewrite <- ?List.app_assoc; reflexivity.
        -- rewrite IH. rewrite (IH _ _ _ (if (attempt <? 3)%nat then _ else _)).
           destruct (Trustpilot.retry_loop fetchHtml page remaining (S attempt)
                       _ _ []) as [[p r] ev].
           destruct (attempt <? 3)%nat; cbn [app];
             rewrite <- ?List.app_assoc; reflexivity.
    + rewrite IH. rewrite (IH _ _ _ (if (attempt <? 3)%nat then _ else _)).
      destruct (Trustpilot.retry_loop fetchHtml page remaining (S attempt)
                  _ _ []) as [[p r] ev].
      destruct (attempt <? 3)%nat; cbn [app];
        rewrite <- ?List.app_assoc; reflexivity.
Qed.

(** The parse result and the response are set together: where there is
    a parse result there is a response. *)
Lemma retry_loop_resp (page remaining attempt : nat)
    (parsedResult : option ParseResult) (resp : option Trustpilot.Page)
    (tr : list event) :
  (parsedResult <> None -> resp <> None) ->
  let '(parsedResult', resp', _) :=
    Trustpilot.retry_loop fetchHtml page remaining attempt parsedResult resp tr
  in parsedResult' <> None -> resp' <> None.
Proof.
  revert attempt parsedResult resp tr.
  induction remaining as [|remaining IH]; intros attempt parsedResult resp tr H.
  - exact H.
  - cbn [Trustpilot.retry_loop].
    destruct (fetchHtml page attempt) as [resp' | e].
    + destruct (pr_error (Trustpilot.parsedDataFromHTML_Trustpilot resp')).
      * intros _. discriminate.
      * destruct (pr_productData (Trustpilot.parsedDataFromHTML_Trustpilot resp'))
          as [pd|].
        -- destruct (0 <? List.length (pd_allReviews pd))%nat.
           ++ intros _. discriminate.
           ++ apply IH. intros _. discriminate.
        -- apply IH. intros _. discriminate.
    + apply IH. exact H.
Qed.

Lemma tp_unit_resp (page : nat) :
  tp_parsed fetchHtml page <> None -> tp_resp fetchHtml page <> None.
Proof.
  unfold tp_parsed, tp_resp, tp_unit.
  pose proof (retry_loop_resp page 3 1 None None [] ltac:(congruence)) as H.
  destruct (Trustpilot.retry_loop fetchHtml page 3 1 None None [])
    as [[parsedResult resp] events].
  exact H.
Qed.

Let stops := tp_stops Date_parse fetchHtml startDate.
Let holds := tp_reason_holds Date_parse fetchHtml startDate.
Let loop := Trustpilot.page_loop Date_parse fetchHtml.

(** One iteration of the loop over the pages: it ends the run at the
    page when one of the four conditions holds there, and goes on to the
    next page when none does. *)
Lemma page_loop_step (fuel page : nat) (allReviews : list ReviewRecord)
    (productInfo : option ProductSummary) (tr : list event) :
  (stops page = true
   /\ exists r, loop (S fuel) startDate endDate page allReviews productInfo tr
                = Some r
                /\ Trustpilot.run_page r = page /\ holds r)
  \/ (stops page = false
      /\ exists allReviews' productInfo' tr',
           loop (S fuel) startDate endDate page allReviews productInfo tr
           = loop fuel startDate endDate (S page) allReviews' productInfo' tr').
Proof.
  subst stops holds loop.
  cbn [Trustpilot.page_loop].
  rewrite (retry_loop_trace page 3 1 None None tr).
  fold (tp_unit fetchHtml page).
  assert (Hparsed : tp_parsed fetchHtml page = fst (fst (tp_unit fetchHtml page)))
    by reflexivity.
  assert (Hresp : tp_resp fetchHtml page = snd (fst (tp_unit fetchHtml page)))
    by reflexivity.
  destruct (tp_unit fetchHtml page) as [[parsedResult resp] events].
  cbn [fst snd] in Hparsed, Hresp.
  unfold tp_stops, tp_reason_holds.
  assert (Hrecords : tp_records fetchHtml page
                     = match parsedResult with
                       | Some parsed =>
                           match pr_productData parsed with
                           | Some pd => pd_allReviews pd
                           | None => []
                           end
                       | None => []
                       end)
    by (unfold tp_records; rewrite Hparsed; reflexivity).
  unfold tp_parse_error, tp_no_records, tp_older, tp_no_next.
  cbn [Trustpilot.finish Trustpilot.run_page Trustpilot.run_reason
       Trustpilot.run_result].
  destruct parsedResult as [parsedResult|].
  - destruct (pr_error parsedResult) as [e|] eqn:Eerror.
    + left. rewrite Hparsed, Eerror. split; [reflexivity|].
      eexists. split; [reflexivity|].
      cbn [Trustpilot.finish Trustpilot.run_page Trustpilot.run_reason
           Trustpilot.run_result].
      rewrite Hparsed, Eerror.
      split; [reflexivity|]. split; [reflexivity|]. eexists; reflexivity.
    + destruct (pr_productData parsedResult) as [productData|].
      * rewrite Hrecords, Hparsed, Eerror, Hresp.
        destruct (pd_allReviews productData) as [|review reviews].
        -- left. split; [reflexivity|]. eexists. split; [reflexivity|].
           cbn [Trustpilot.finish Trustpilot.run_page Trustpilot.run_reason
                Trustpilot.run_result].
           rewrite Hrecords.
           split; [reflexivity|]. split; [reflexivity|]. eexists; reflexivity.
        -- destruct (Trustpilot.last_item (review :: reviews))
             as [lastReview|] eqn:Elast.
           2:{ exfalso. clear - Elast. revert review Elast.
               induction reviews; intros; [discriminate|].
               cbn [Trustpilot.last_item] in Elast. eauto. }
           cbn [orb].
           destruct (date_lt (Date_parse (reviewDate lastReview)) startDate)
             eqn:Eolder.
           ++ left. split; [reflexivity|]. eexists. split; [reflexivity|].
              cbn [Trustpilot.finish Trustpilot.run_page Trustpilot.run_reason
                   Trustpilot.run_result].
              rewrite Hrecords, Elast.
              split; [reflexivity|]. split; [exact Eolder|].
              eexists; reflexivity.
           ++ destruct resp as [body|].
              ** destruct (Trustpilot.pg_nextLink body) as [href|] eqn:Enext.
                 --- destruct (truthy href) eqn:Ehref.
                     +++ right. split; [reflexivity|].
                         do 3 eexists. reflexivity.
                     +++ left. split; [reflexivity|].
                         eexists. split; [reflexivity|].
                         cbn [Trustpilot.finish Trustpilot.run_page
                              Trustpilot.run_reason Trustpilot.run_result].
                         rewrite Hresp, Enext, Ehref.
                         split; [reflexivity|]. split; [reflexivity|].
                         eexists; reflexivity.
                 --- left. split; [reflexivity|].
                     eexists. split; [reflexivity|].
                     cbn [Trustpilot.finish Trustpilot.run_page
                          Trustpilot.run_reason Trustpilot.run_result].
                     rewrite Hresp, Enext.
                     split; [reflexivity|]. split; [reflexivity|].
                     eexists; reflexivity.
              ** left. split; [reflexivity|].
                 eexists. split; [reflexivity|].
                 exfalso. apply (tp_unit_resp page); [|exact Hresp].
                 rewrite Hparsed. discriminate.
      * left. rewrite Hrecords, Hparsed, Eerror. split; [reflexivity|].
        eexists. split; [reflexivity|].
        cbn [Trustpilot.run_page Trustpilot.run_reason Trustpilot.run_result].
        rewrite Hrecords.
        split; [reflexivity|]. split; [reflexivity|]. eexists; reflexivity.
  - left. rewrite Hrecords, Hparsed. split; [reflexivity|].
    eexists. split; [reflexivity|].
    cbn [Trustpilot.run_page Trustpilot.run_reason Trustpilot.run_result].
    rewrite Hrecords.
    split; [reflexivity|]. split; [reflexivity|]. eexists; reflexivity.
Qed.

(** The loop ends at the first page from [page] on at which one of the
    conditions holds, if the fuel reaches it. *)
Lemma page_loop_complete (fuel page p : nat) (allReviews : list ReviewRecord)
    (productInfo : option ProductSummary) (tr : list event) :
  page <= p -> (forall q, page <= q < p -> stops q = false) ->
  stops p = true -> p - page < fuel ->
  exists r, loop fuel startDate endDate page allReviews productInfo tr = Some r
            /\ Trustpilot.run_page r = p /\ holds r.
Proof.
  revert page allReviews productInfo tr.
  induction fuel as [|fuel IH]; intros page allReviews productInfo tr
    Hle Hbefore Hstop Hfuel; [lia|].
  destruct (page_loop_step fuel page allReviews productInfo tr)
    as [[Hs [r [Hr [Hpage Hholds]]]] | [Hs [a' [i' [t' Hr]]]]].
  - destruct (Nat.eq_dec page p) as [-> | Hne].
    + exists r. auto.
    + rewrite (Hbefore page ltac:(lia)) in Hs. discriminate.
  - destruct (Nat.eq_dec page p) as [-> | Hne]; [congruence|].
    rewrite Hr. apply IH; try lia; [|assumption].
    intros q Hq. apply Hbefore. lia.
Qed.

(** Where the loop ends, one of the conditions holds, and none held at
    the pages before. *)
Lemma page_loop_sound (fuel page : nat) (allReviews : list ReviewRecord)
    (productInfo : option ProductSummary) (tr : list event)
    (r : Trustpilot.run) :
  loop fuel startDate endDate page allReviews productInfo tr = Some r ->
  page <= Trustpilot.run_page r < page + fuel
  /\ stops (Trustpilot.run_page r) = true
  /\ (forall q, page <= q < Trustpilot.run_page r -> stops q = false)
  /\ holds r.
Proof.
  revert page allReviews productInfo tr.
  induction fuel as [|fuel IH]; intros page allReviews productInfo tr Hrun;
    [discriminate|].
  destruct (page_loop_step fuel page allReviews productInfo tr)
    as [[Hs [r' [Hr [Hpage Hholds]]]] | [Hs [a' [i' [t' Hr]]]]].
  - rewrite Hr in Hrun. injection Hrun as <-. rewrite Hpage.
    split; [lia|]. split; [exact Hs|]. split; [intros q Hq; lia | exact Hholds].
  - rewrite Hr in Hrun. apply IH in Hrun.
    destruct Hrun as [Hrange [Hstop [Hbefore Hholds]]].
    split; [lia|]. split; [exact Hstop|]. split; [|exact Hholds].
    intros q Hq. destruct (Nat.eq_dec q page) as [-> | Hne]; [exact Hs|].
    apply Hbefore. lia.
Qed.

(** A page at which a condition holds bounds the iterations. *)
Lemma page_loop_halts (fuel page k : nat) (allReviews : list ReviewRecord)
    (productInfo : option ProductSummary) (tr : list event) :
  page <= k -> stops k = true -> k - page < fuel ->
  exists r, loop fuel startDate endDate page allReviews productInfo tr = Some r
            /\ page <= Trustpilot.run_page r <= k.
Proof.
  revert page allReviews productInfo tr.
  induction fuel as [|fuel IH]; intros page allReviews productInfo tr
    Hle Hstop Hfuel; [lia|].
  destruct (page_loop_step fuel page allReviews productInfo tr)
    as [[Hs [r [Hr [Hpage Hholds]]]] | [Hs [a' [i' [t' Hr]]]]].
  - exists r. split; [exact Hr | lia].
  - destruct (Nat.eq_dec page k) as [-> | Hne]; [congruence|].
    rewrite Hr.
    destruct (IH (S page) a' i' t' ltac:(lia) Hstop ltac:(lia))
      as [r [Hrun Hrange]].
    exists r. split; [exact Hrun | lia].
Qed.

End Pagination.

(** C6.  A run of [scrapeAllPages_Trustpilot] ends at page [p] exactly
    when [p] is the first page at which one of the four conditions
    holds: (a) a parse error, (b) no review left after the retries,
    (c) a last review dated before the start of the range, (d) no link
    to a next page; the reason the run gives is a condition that holds
    at [p].  The run then returns a value, but when no attempt of the
    page returned at all, a case of (b), in which the run ends on the
    exception thrown by reading the missing parse result.  In
    particular, when the last review of some page [k] is dated before the
    start, the run ends within [k] iterations. *)
Theorem trustpilot_pagination (Date_parse : string -> Date)
    (fetchHtml : nat -> nat -> completion Trustpilot.Page)
    (startDateStr endDateStr : string) :
  let stops := tp_stops Date_parse fetchHtml (Date_parse startDateStr) in
  let holds := tp_reason_holds Date_parse fetchHtml (Date_parse startDateStr) in
  let scrape fuel :=
    Trustpilot.scrapeAllPages_Trustpilot Date_parse fetchHtml fuel
      startDateStr endDateStr in
  (forall p fuel,
      1 <= p <= fuel -> stops p = true ->
      (forall q, 1 <= q < p -> stops q = false) ->
      exists r, scrape fuel = Some r /\ Trustpilot.run_page r = p /\ holds r)
  /\ (forall fuel r,
        scrape fuel = Some r ->
        1 <= Trustpilot.run_page r <= fuel
        /\ stops (Trustpilot.run_page r) = true
        /\ (forall q, 1 <= q < Trustpilot.run_page r -> stops q = false)
        /\ holds r)
  /\ (forall k fuel,
        1 <= k <= fuel ->
        tp_older Date_parse fetchHtml (Date_parse startDateStr) k = true ->
        exists r, scrape fuel = Some r /\ 1 <= Trustpilot.run_page r <= k).
Proof.
  intros stops holds scrape. subst scrape.
  unfold Trustpilot.scrapeAllPages_Trustpilot.
  split; [|split].
  - intros p fuel Hp Hstop Hbefore.
    apply page_loop_complete; try assumption; lia.
  - intros fuel r Hrun. apply page_loop_sound in Hrun.
    destruct Hrun as [Hrange [Hstop [Hbefore Hholds]]].
    split; [lia|]. auto.
  - intros k fuel Hk Holder.
    apply page_loop_halts; try lia.
    unfold tp_stops. rewrite Holder. rewrite !orb_true_r. reflexivity.
Qed.

Lemma trustpilot_pagination_witness :
  exists r,
    Trustpilot.scrapeAllPages_Trustpilot iso_dates tp_two_pages 10
      "2023-01-01" "2023-12-31" = Some r
    /\ 1 <= Trustpilot.run_page r <= 2.
Proof.
  apply (proj2 (proj2 (trustpilot_pagination iso_dates tp_two_pages
                         "2023-01-01" "2023-12-31")) 2 10).
  - lia.
  - vm_compute. reflexivity.
Defined.


End TrustpilotPaginationProps.

(* ===================================================================== *)
(** * Properties of the regular expressions of fixed shape *)
(* ===================================================================== *)
Module RegexProps.
Import Js Shapes.

Lemma string_app_nil_r (s : string) : s ++ "" = s.
Proof. induction s as [|c s IH]; cbn; [|rewrite IH]; reflexivity. Qed.

Lemma string_app_assoc (a b c : string) : (a ++ b) ++ c = a ++ (b ++ c).
Proof. induction a as [|x a IH]; cbn; [|rewrite IH]; reflexivity. Qed.

Lemma string_length_app (a b : string) :
  String.length (a ++ b) = String.length a + String.length b.
Proof. induction a as [|x a IH]; cbn; [|rewrite IH]; reflexivity. Qed.

Lemma string_app_inv_head (a b c : string) : a ++ b = a ++ c -> b = c.
Proof.
  induction a as [|x a IH]; cbn; intros H; [exact H|].
  injection H as H. auto.
Qed.

Lemma take_app_length (a b : string) : take (String.length a) (a ++ b) = a.
Proof.
  unfold take. induction a as [|x a IH]; cbn.
  - destruct b; reflexivity.
  - rewrite IH. reflexivity.
Qed.

Lemma take_all (s : string) : take (String.length s) s = s.
Proof.
  rewrite <- (string_app_nil_r s) at 2. apply take_app_length.
Qed.

Lemma drop_app_length (a b : string) : drop (String.length a) (a ++ b) = b.
Proof. induction a as [|x a IH]; cbn; [destruct b; reflexivity | exact IH]. Qed.

Lemma drop_all (n : nat) (s : string) : String.length s <= n -> drop n s = "".
Proof.
  revert n. induction s as [|x s IH]; intros [|n] H; cbn in *;
    try reflexivity; try lia.
  apply IH. lia.
Qed.

(** A global replacement of single characters goes through the text
    character by character. *)
Lemma replace_all_chr (cs : cset) (by_ s : string) (p : nat) :
  replace_all_from (Chr cs) by_ 0 p s = subst_chars cs by_ s.
Proof.
  revert p. induction s as [|c s IH]; intros p.
  - reflexivity.
  - cbn [replace_all_from subst_chars].
    unfold match_at. cbn [rmatch rest pos caps].
    destruct (cset_mem cs c).
    + unfold take. cbn [pos m_text].
      replace (S p - p) with 1 by lia.
      cbn [substring].
      replace (substring 0 0 s) with "" by (destruct s; reflexivity).
      cbn [String.length]. rewrite IH. reflexivity.
    + rewrite IH. reflexivity.
Qed.

Lemma chars_match_app (ca cb : list cset) (s : string) :
  chars_match (ca ++ cb) s
  = match chars_match ca s with
    | Some s' => chars_match cb s'
    | None => None
    end.
Proof.
  revert s. induction ca as [|x ca IH]; intros s; [reflexivity|].
  cbn [app chars_match]. destruct s as [|y s]; [reflexivity|].
  destruct (cset_mem x y); [apply IH | reflexivity].
Qed.

Lemma chars_match_length (cs : list cset) (s s' : string) :
  chars_match cs s = Some s' ->
  String.length s = List.length cs + String.length s'.
Proof.
  revert s. induction cs as [|x cs IH]; intros s H; cbn in *.
  - injection H as <-. reflexivity.
  - destruct s as [|y s]; [discriminate|].
    destruct (cset_mem x y); [|discriminate].
    cbn. rewrite (IH _ H). reflexivity.
Qed.

(** A pattern that is a sequence of single characters matches as the
    sequence of its classes does. *)
Lemma rmatch_fixed (r : regex) :
  forall (cs : list cset) (e : bool),
    fixed_classes r = Some (cs, e) ->
    forall (p : nat) (s : string) (c : list (nat * string))
           (k : mstate -> option mstate),
      rmatch r (MState p s c) k
      = match chars_match cs s with
        | Some s' =>
            if e then match s' with
                      | EmptyString => k (MState (p + List.length cs) s' c)
                      | _ => None
                      end
            else k (MState (p + List.length cs) s' c)
        | None => None
        end.
Proof.
  induction r as [|x|a IHa b IHb| | | | | |]; intros cs e H p s c k;
    cbn [fixed_classes] in H; try discriminate.
  - injection H as <- <-. cbn. rewrite Nat.add_0_r. reflexivity.
  - injection H as <- <-. cbn [rmatch rest pos caps chars_match List.length].
    destruct s as [|y s]; [reflexivity|].
    destruct (cset_mem x y); [|reflexivity].
    replace (p + 1) with (S p) by lia. reflexivity.
  - destruct (fixed_classes a) as [[ca [|]]|]; try discriminate.
    destruct (fixed_classes b) as [[cb eb]|]; try discriminate.
    injection H as <- <-.
    cbn [rmatch]. rewrite (IHa ca false eq_refl), chars_match_app.
    destruct (chars_match ca s) as [s1|]; [|reflexivity].
    rewrite (IHb cb eb eq_refl), length_app, Nat.add_assoc. reflexivity.
  - injection H as <- <-. cbn. rewrite Nat.add_0_r. destruct s; reflexivity.
Qed.

(** A pattern of fixed length that must reach the end of the text matches
    at a position iff what is left there fits it exactly. *)
Lemma match_at_fixed (r : regex) (cs : list cset) (p : nat) (s : string) :
  fixed_classes r = Some (cs, true) ->
  match_at r p s
  = match chars_match cs s with
    | Some EmptyString => Some (MatchResult p s [])
    | _ => None
    end.
Proof.
  intros Hr. unfold match_at. rewrite (rmatch_fixed r cs true Hr).
  destruct (chars_match cs s) as [s'|] eqn:E; [|reflexivity].
  destruct s' as [|y s']; [|reflexivity].
  cbn [pos caps]. apply chars_match_length in E. cbn in E.
  replace (p + List.length cs - p) with (String.length s) by lia.
  rewrite take_all. reflexivity.
Qed.

(** The search for such a pattern finds the end of the text that fits it,
    where it starts. *)
Lemma search_fixed_found (r : regex) (cs : list cset) (p : nat)
    (pre suf : string) :
  fixed_classes r = Some (cs, true) ->
  chars_match cs suf = Some "" ->
  search_from r p (pre ++ suf)
  = Some (MatchResult (p + String.length pre) suf []).
Proof.
  intros Hr Hsuf. pose proof (chars_match_length _ _ _ Hsuf) as Hlen.
  cbn in Hlen. revert p.
  induction pre as [|c pre IH]; intros p.
  - cbn [append String.length]. rewrite Nat.add_0_r.
    destruct suf; cbn [search_from];
      rewrite (match_at_fixed r cs _ _ Hr), Hsuf; reflexivity.
  - cbn [append search_from]. rewrite (match_at_fixed r cs _ _ Hr).
    destruct (chars_match cs (String c (pre ++ suf))) as [s'|] eqn:E.
    + apply chars_match_length in E. cbn [String.length] in E.
      rewrite string_length_app in E.
      destruct s'; [cbn in E; lia|].
      rewrite IH. cbn [String.length]. f_equal. f_equal. lia.
    + rewrite IH. cbn [String.length]. f_equal. f_equal. lia.
Qed.

(** When the search finds something, an end of the text fits the
    pattern. *)
Lemma search_fixed_sound (r : regex) (cs : list cset) (p : nat) (s : string)
    (m : rmatch_result) :
  fixed_classes r = Some (cs, true) ->
  search_from r p s = Some m ->
  has_suffix (fun t => match chars_match cs t with
                       | Some EmptyString => true
                       | _ => false
                       end) s = true.
Proof.
  intros Hr. revert p.
  induction s as [|c s IH]; intros p; cbn [search_from has_suffix].
  - rewrite (match_at_fixed r cs _ _ Hr).
    destruct (chars_match cs "") as [[|]|]; try discriminate. reflexivity.
  - rewrite (match_at_fixed r cs _ _ Hr).
    destruct (chars_match cs (String c s)) as [[|]|]; try reflexivity;
      intros H; rewrite (IH _ H); apply orb_true_r.
Qed.

Lemma has_suffix_ext (P Q : string -> bool) (s : string) :
  (forall t, P t = true -> Q t = true) ->
  has_suffix P s = true -> has_suffix Q s = true.
Proof.
  intros H. induction s as [|c s IH]; cbn [has_suffix]; intros Hs.
  - rewrite orb_false_r in *. rewrite (H _ Hs). reflexivity.
  - apply orb_true_iff in Hs. destruct Hs as [Hs|Hs].
    + rewrite (H _ Hs). reflexivity.
    + rewrite (IH Hs). apply orb_true_r.
Qed.

Lemma has_suffix_app (P : string -> bool) (a b : string) :
  has_suffix P b = true -> has_suffix P (a ++ b) = true.
Proof.
  intros H. induction a as [|c a IH]; cbn [append has_suffix]; [exact H|].
  rewrite IH. apply orb_true_r.
Qed.

Lemma chars_match_template (template s : string) :
  match chars_match (template_classes template) s with
  | Some EmptyString => true
  | _ => false
  end = fits template s.
Proof.
  revert s. induction template as [|t template IH]; intros s.
  - destruct s; reflexivity.
  - cbn [template_classes chars_match fits].
    destruct s as [|c s]; [reflexivity|].
    destruct (is_digit t); cbn [cset_mem].
    + destruct (is_digit c); [apply IH | reflexivity].
    + destruct (Ascii.eqb t c); [apply IH | reflexivity].
Qed.

Lemma fits_app (t1 t2 s1 s2 : string) :
  fits t1 s1 = true -> fits t2 s2 = true -> fits (t1 ++ t2) (s1 ++ s2) = true.
Proof.
  revert s1. induction t1 as [|t t1 IH]; intros [|c s1] H1 H2; cbn in *;
    try discriminate; [exact H2|].
  apply andb_true_iff in H1. destruct H1 as [Hc H1].
  rewrite Hc, (IH _ H1 H2). reflexivity.
Qed.

Lemma fits_length (t s : string) :
  fits t s = true -> String.length s = String.length t.
Proof.
  revert s. induction t as [|x t IH]; intros [|c s] H; cbn in *;
    try discriminate; [reflexivity|].
  apply andb_true_iff in H. rewrite (IH _ (proj2 H)). reflexivity.
Qed.

(** A text that fits a template ending as [suffix] does, [suffix]
    without digits, ends in [suffix]. *)
Lemma fits_literal (t s : string) :
  all_chars (fun c => negb (is_digit c)) t = true ->
  fits t s = true -> s = t.
Proof.
  revert s. induction t as [|x t IH]; intros [|c s] Ht H; cbn in *;
    try discriminate; [reflexivity|].
  apply andb_true_iff in Ht. destruct Ht as [Hx Ht].
  apply negb_true_iff in Hx. rewrite Hx in H.
  apply andb_true_iff in H. destruct H as [Hc H].
  apply Ascii.eqb_eq in Hc. subst c. rewrite (IH _ Ht H). reflexivity.
Qed.

Lemma fits_split (t1 t2 s : string) :
  fits (t1 ++ t2) s = true ->
  exists s1 s2, s = s1 ++ s2 /\ fits t1 s1 = true /\ fits t2 s2 = true.
Proof.
  revert s. induction t1 as [|x t1 IH]; intros s H.
  - exists "", s. auto.
  - cbn [append fits] in H. destruct s as [|c s]; [discriminate|].
    apply andb_true_iff in H. destruct H as [Hc H].
    destruct (IH _ H) as [s1 [s2 [E [H1 H2]]]].
    exists (String c s1), s2. subst s. cbn. rewrite Hc, H1. auto.
Qed.

End RegexProps.

(* ===================================================================== *)
(** * Properties of the file names *)
(* ===================================================================== *)
Module FileNameProps.
Import Js Shapes RegexProps SaveFile ExportFiles.

Lemma stamped_classes :
  fixed_classes re_stamped_json
  = Some (template_classes stamped_template, true).
Proof. reflexivity. Qed.

Lemma json_classes :
  fixed_classes re_json = Some (template_classes ".json", true).
Proof. reflexivity. Qed.

Lemma exec_template_found (r : regex) (template pre suf : string) :
  fixed_classes r = Some (template_classes template, true) ->
  fits template suf = true ->
  exec r (pre ++ suf) = Some (MatchResult (String.length pre) suf []).
Proof.
  intros Hr Hfit. unfold exec.
  apply (search_fixed_found r _ 0 pre suf Hr).
  pose proof (chars_match_template template suf) as H. rewrite Hfit in H.
  destruct (chars_match (template_classes template) suf) as [[|]|];
    try discriminate. reflexivity.
Qed.

Lemma exec_template_none (r : regex) (template s : string) :
  fixed_classes r = Some (template_classes template, true) ->
  has_suffix (fits template) s = false ->
  exec r s = None.
Proof.
  intros Hr Hno. unfold exec.
  destruct (search_from r 0 s) as [m|] eqn:E; [|reflexivity].
  apply (search_fixed_sound r _ _ _ _ Hr) in E.
  apply (has_suffix_ext _ (fits template)) in E.
  - rewrite E in Hno. discriminate.
  - intros t. rewrite chars_match_template. auto.
Qed.

Lemma replace_found (r : regex) (by_ pre suf : string) :
  exec r (pre ++ suf) = Some (MatchResult (String.length pre) suf []) ->
  replace r by_ (pre ++ suf) = pre ++ by_.
Proof.
  intros H. unfold replace. rewrite H. cbn [m_index m_text].
  rewrite take_app_length, drop_all, string_app_nil_r;
    [reflexivity | rewrite string_length_app; lia].
Qed.

Lemma replace_none (r : regex) (by_ s : string) :
  exec r s = None -> replace r by_ s = s.
Proof. intros H. unfold replace. rewrite H. reflexivity. Qed.

Lemma app_last_inv (a b : string) (x y : ascii) :
  a ++ String x "" = b ++ String y "" -> x = y.
Proof.
  revert b. induction a as [|c a IH]; intros [|d b] H; cbn in H.
  - injection H as H. exact H.
  - injection H as _ H. destruct b; discriminate H.
  - injection H as _ H. destruct a; discriminate H.
  - injection H as _ H. eauto.
Qed.

Lemma has_suffix_eqb (suffix s : string) :
  has_suffix (String.eqb suffix) s = true -> exists pre, s = pre ++ suffix.
Proof.
  induction s as [|c s IH]; cbn [has_suffix]; intros H.
  - rewrite orb_false_r in H. apply String.eqb_eq in H. exists "". auto.
  - apply orb_true_iff in H. destruct H as [H|H].
    + apply String.eqb_eq in H. exists "". auto.
    + destruct (IH H) as [pre E]. exists (String c pre). cbn. rewrite E.
      reflexivity.
Qed.

Lemma has_suffix_eqb_app (suffix pre : string) :
  has_suffix (String.eqb suffix) (pre ++ suffix) = true.
Proof.
  apply has_suffix_app. destruct suffix; cbn [has_suffix];
    rewrite String.eqb_refl; reflexivity.
Qed.

Lemma has_suffix_nested (P Q : string -> bool) (s : string) :
  (forall t, P t = true -> has_suffix Q t = true) ->
  has_suffix P s = true -> has_suffix Q s = true.
Proof.
  intros H. induction s as [|c s IH]; cbn [has_suffix]; intros Hs.
  - rewrite orb_false_r in Hs. exact (H _ Hs).
  - apply orb_true_iff in Hs. destruct Hs as [Hs|Hs].
    + exact (H _ Hs).
    + cbn [has_suffix]. rewrite (IH Hs). apply orb_true_r.
Qed.

(** A name that has the time stamp at its end ends in [.json]. *)
Lemma stamped_ends_json (s : string) :
  has_suffix (fits stamped_template) s = true -> endsWith s ".json" = true.
Proof.
  apply has_suffix_nested. intros t Ht.
  change stamped_template with ("_0000-00-00T00-00-00-000Z" ++ ".json") in Ht.
  apply fits_split in Ht. destruct Ht as [s1 [s2 [E [_ H2]]]].
  apply fits_literal in H2; [|reflexivity]. subst.
  apply has_suffix_eqb_app.
Qed.

Lemma csv_not_json (base : string) : endsWith (base ++ ".csv") ".json" = false.
Proof.
  destruct (endsWith (base ++ ".csv") ".json") eqn:E; [|reflexivity].
  apply has_suffix_eqb in E. destruct E as [pre E].
  change (base ++ ".csv") with (base ++ (".cs" ++ "v")) in E.
  change (pre ++ ".json") with (pre ++ (".jso" ++ "n")) in E.
  rewrite <- !string_app_assoc in E. apply app_last_inv in E. discriminate E.
Qed.

Lemma ends_json_fits (s : string) :
  endsWith s ".json" = false -> has_suffix (fits ".json") s = false.
Proof.
  intros H. destruct (has_suffix (fits ".json") s) eqn:E; [|reflexivity].
  rewrite <- H. symmetry. revert E. apply has_suffix_ext.
  intros t Ht. apply fits_literal in Ht; [|reflexivity]. subst.
  reflexivity.
Qed.

Lemma alnum_name_char (c : ascii) :
  cset_mem alnum c = true -> name_char (lower_char c) = true.
Proof.
  destruct c as [[] [] [] [] [] [] [] []]; vm_compute; intros H;
    first [reflexivity | discriminate H].
Qed.

Lemma subst_name_chars (s : string) :
  all_chars name_char (toLowerCase (subst_chars (CNot alnum) "_" s)) = true.
Proof.
  induction s as [|c s IH]; [reflexivity|].
  cbn [subst_chars cset_mem].
  destruct (cset_mem alnum c) eqn:E; cbn [negb].
  - cbn [toLowerCase all_chars]. rewrite (alnum_name_char _ E), IH. reflexivity.
  - cbn [append toLowerCase all_chars]. rewrite IH. reflexivity.
Qed.

Lemma fits_subst (cs : cset) (b : ascii) (t s : string) :
  (forall c, is_digit c = true -> cset_mem cs c = false) ->
  is_digit b = false ->
  fits t s = true ->
  fits (subst_chars cs (String b "") t) (subst_chars cs (String b "") s) = true.
Proof.
  intros Hd Hb. revert s.
  induction t as [|x t IH]; intros [|c s] H; cbn [fits] in H;
    try discriminate; [reflexivity|].
  apply andb_true_iff in H. destruct H as [Hc H].
  cbn [subst_chars].
  destruct (is_digit x) eqn:Ex.
  - rewrite (Hd _ Ex), (Hd _ Hc). cbn [fits]. rewrite Ex, Hc.
    apply (IH _ H).
  - apply Ascii.eqb_eq in Hc. subst c.
    destruct (cset_mem cs x); cbn [append fits].
    + rewrite Hb, Ascii.eqb_refl. apply (IH _ H).
    + rewrite Ex, Ascii.eqb_refl. apply (IH _ H).
Qed.

Lemma digit_not_colon_dot (c : ascii) :
  is_digit c = true -> cset_mem (COr (CLit ":") (CLit ".")) c = false.
Proof.
  destruct c as [[] [] [] [] [] [] [] []]; vm_compute; intros H;
    first [reflexivity | discriminate H].
Qed.

(** X1.  The base of the name [saveToJsonFile] gives a file holds
    lower-case letters, digits and underscores only, whatever the raw
    name. *)
Theorem sanitize_name_chars (baseRaw : string) :
  all_chars name_char (sanitize baseRaw) = true.
Proof.
  unfold sanitize, replace_all, re_not_alnum. rewrite replace_all_chr.
  apply subst_name_chars.
Qed.

(** X2.  The export gives the file [saveToJsonFile] wrote for a raw name
    the name of the sanitized raw name with the extension [.csv]: the
    time stamp is dropped, so the files of two runs on the same raw name
    are exported under one name. *)
Theorem saved_name_exported (productName : option string)
    (raw iso : string) :
  truthy raw = true ->
  fits iso_template iso = true ->
  exists name,
    saveToJsonFile productName (Some raw) iso = Normal name
    /\ generateCSVFilename name = sanitize raw ++ ".csv".
Proof.
  intros Hraw Hiso. unfold saveToJsonFile. rewrite Hraw.
  eexists. split; [reflexivity|].
  unfold generateCSVFilename, replace_all, re_colon_dot.
  rewrite replace_all_chr.
  assert (Hfit : fits stamped_template
                   ("_" ++ subst_chars (COr (CLit ":") (CLit ".")) "-" iso
                        ++ ".json") = true).
  { change stamped_template with ("_" ++ stamp_template ++ ".json").
    apply fits_app; [reflexivity|]. apply fits_app; [|reflexivity].
    apply (fits_subst _ "-" iso_template iso digit_not_colon_dot eq_refl Hiso). }
  rewrite (replace_found _ _ _ _
             (exec_template_found _ _ _ _ stamped_classes Hfit)).
  apply replace_none.
  apply (exec_template_none _ _ _ json_classes).
  apply ends_json_fits, csv_not_json.
Qed.

Lemma saved_name_exported_witness :
  exists name,
    saveToJsonFile None (Some "https://www.g2.com/products/acme/reviews")
      "2024-03-15T13:00:00.000Z" = Normal name
    /\ generateCSVFilename name
       = sanitize "https://www.g2.com/products/acme/reviews" ++ ".csv".
Proof.
  apply (saved_name_exported None "https://www.g2.com/products/acme/reviews"
           "2024-03-15T13:00:00.000Z"); reflexivity.
Defined.

(** X3.  [generateCSVFilename] leaves a name that does not end in
    [.json] as it is, and turns the extension [.json] of a name without
    the time stamp into [.csv]. *)
Theorem generateCSVFilename_plain :
  (forall name, endsWith name ".json" = false ->
                generateCSVFilename name = name)
  /\ (forall base,
         has_suffix (fits stamped_template) (base ++ ".json") = false ->
         generateCSVFilename (base ++ ".json") = base ++ ".csv").
Proof.
  split.
  - intros name Hname. unfold generateCSVFilename.
    rewrite (replace_none re_stamped_json).
    + apply replace_none.
      apply (exec_template_none _ _ _ json_classes), ends_json_fits, Hname.
    + apply (exec_template_none _ _ _ stamped_classes).
      destruct (has_suffix (fits stamped_template) name) eqn:E; [|reflexivity].
      apply stamped_ends_json in E. rewrite E in Hname. discriminate.
  - intros base Hbase. unfold generateCSVFilename.
    rewrite (replace_none re_stamped_json)
      by (apply (exec_template_none _ _ _ stamped_classes), Hbase).
    apply replace_found.
    apply (exec_template_found _ _ _ _ json_classes). reflexivity.
Qed.

Lemma generateCSVFilename_plain_witness :
  generateCSVFilename "notes.txt" = "notes.txt"
  /\ generateCSVFilename "acme.json" = "acme.csv".
Proof.
  split.
  - apply (proj1 generateCSVFilename_plain). reflexivity.
  - apply (proj2 generateCSVFilename_plain "acme"). reflexivity.
Defined.

End FileNameProps.

(* ===================================================================== *)
(** * Properties of the page addresses *)
(* ===================================================================== *)
Module UrlProps.
Import Js Shapes RegexProps Common TrustpilotUrl.

Lemma nat_toString_inj (n m : nat) : nat_toString n = nat_toString m -> n = m.
Proof.
  unfold nat_toString. intros H.
  assert (E : Nat.to_uint n = Nat.to_uint m).
  { pose proof (NilEmpty.usu (Nat.to_uint n)) as Hn.
    pose proof (NilEmpty.usu (Nat.to_uint m)) as Hm.
    rewrite H in Hn. rewrite Hn in Hm. injection Hm as Hm. exact Hm. }
  apply (f_equal Nat.of_uint) in E. rewrite !Unsigned.of_to in E. exact E.
Qed.

Lemma nat_toString_nonempty (n : nat) : nat_toString n <> "".
Proof.
  unfold nat_toString. pose proof (StringProps.to_uint_nonnil n) as H.
  destruct (Nat.to_uint n); [congruence | ..]; discriminate.
Qed.

Lemma app_nonempty_neq (a b : string) : b <> "" -> a ++ b <> a.
Proof.
  intros Hb H. apply Hb.
  apply (f_equal String.length) in H. rewrite string_length_app in H.
  destruct b; [reflexivity | cbn in H; lia].
Qed.

Lemma prefix_app (pat a b : string) :
  prefix pat a = true -> prefix pat (a ++ b) = true.
Proof.
  revert a. induction pat as [|x pat IH]; intros a H;
    [destruct (a ++ b); reflexivity|].
  destruct a as [|y a]; [discriminate|]. cbn [prefix append] in *.
  destruct (ascii_dec x y); [auto | discriminate].
Qed.

Lemma includes_app_l (a b pat : string) :
  includes a pat = true -> includes (a ++ b) pat = true.
Proof.
  induction a as [|y a IH]; cbn [includes append]; intros H.
  - destruct (prefix pat "") eqn:E; [|discriminate].
    destruct pat; [|discriminate]. destruct b; reflexivity.
  - destruct (prefix pat (String y a)) eqn:E.
    + change (String y (a ++ b)) with (String y a ++ b).
      rewrite (prefix_app _ _ _ E). reflexivity.
    + rewrite (IH H). destruct (prefix pat (String y (a ++ b))); reflexivity.
Qed.

Lemma includes_app_r (a b pat : string) :
  includes b pat = true -> includes (a ++ b) pat = true.
Proof.
  intros H. induction a as [|y a IH]; [exact H|].
  cbn [append includes]. rewrite IH.
  destruct (prefix pat (String y (a ++ b))); reflexivity.
Qed.

Lemma generatePageUrl_shape (baseUrl : string) (p : nat) :
  p <> 1 ->
  generatePageUrl baseUrl p
  = baseUrl ++ (if includes baseUrl "?" then "&" else "?")
      ++ "page=" ++ nat_toString p.
Proof.
  intros Hp. unfold generatePageUrl.
  apply Nat.eqb_neq in Hp. rewrite Hp.
  destruct (includes baseUrl "?"); reflexivity.
Qed.

(** X4.  [generatePageUrl] gives two pages of one address two
    addresses: the first page the address itself, any other page the
    address with its number in a [page] parameter, after [&] when the
    address has a query already and after [?] when it has none. *)
Theorem generatePageUrl_pages (baseUrl : string) :
  generatePageUrl baseUrl 1 = baseUrl
  /\ (forall p, p <> 1 ->
        generatePageUrl baseUrl p
        = baseUrl ++ (if includes baseUrl "?" then "&" else "?")
            ++ "page=" ++ nat_toString p)
  /\ (forall p q, generatePageUrl baseUrl p = generatePageUrl baseUrl q ->
                  p = q).
Proof.
  pose proof (generatePageUrl_shape baseUrl) as Hshape.
  split; [reflexivity|]. split; [exact Hshape|].
  intros p q H.
  destruct (Nat.eq_dec p 1) as [-> | Hp], (Nat.eq_dec q 1) as [-> | Hq].
  - reflexivity.
  - exfalso. rewrite (Hshape q Hq) in H. cbn [generatePageUrl Nat.eqb] in H.
    symmetry in H. revert H. apply app_nonempty_neq.
    destruct (includes baseUrl "?"); discriminate.
  - exfalso. rewrite (Hshape p Hp) in H. cbn [generatePageUrl Nat.eqb] in H.
    revert H. apply app_nonempty_neq.
    destruct (includes baseUrl "?"); discriminate.
  - rewrite (Hshape p Hp), (Hshape q Hq) in H.
    apply string_app_inv_head in H.
    destruct (includes baseUrl "?"); cbn [append] in H;
      injection H as H; apply nat_toString_inj; exact H.
Qed.

Lemma generatePageUrl_pages_witness :
  generatePageUrl "https://a.b/c?x=1" 3 = "https://a.b/c?x=1&page=3".
Proof.
  apply (proj1 (proj2 (generatePageUrl_pages "https://a.b/c?x=1")) 3).
  discriminate.
Defined.

(** X5.  The address [scrapeAllPages_Trustpilot] fetches for a page
    asks for the reviews of every language, and for a page past the
    first it is the address of the first page followed by [&page=] and
    the number of the page: the language parameter has put a query into
    the address, whatever the address given. *)
Theorem trustpilot_page_url (baseUrl : string) (page : nat) :
  includes (url baseUrl page) "languages=all" = true
  /\ url baseUrl 1 = langUrl baseUrl
  /\ (page <> 1 ->
      url baseUrl page = url baseUrl 1 ++ "&page=" ++ nat_toString page).
Proof.
  assert (Hlang : includes (langUrl baseUrl) "languages=all" = true).
  { unfold langUrl. destruct (includes baseUrl "?");
      apply includes_app_r; reflexivity. }
  assert (Hq : includes (langUrl baseUrl) "?" = true).
  { unfold langUrl. destruct (includes baseUrl "?") eqn:E.
    - apply includes_app_l. exact E.
    - apply includes_app_r. reflexivity. }
  assert (Hpage : page <> 1 ->
            url baseUrl page
            = url baseUrl 1 ++ "&page=" ++ nat_toString page).
  { intros Hp. unfold url.
    rewrite (generatePageUrl_shape (langUrl baseUrl) page Hp).
    rewrite Hq. reflexivity. }
  split; [|split; [reflexivity | exact Hpage]].
  destruct (Nat.eq_dec page 1) as [-> | Hp]; [exact Hlang|].
  rewrite (Hpage Hp). apply includes_app_l. exact Hlang.
Qed.

Lemma trustpilot_page_url_witness :
  url "https://www.trustpilot.com/review/acme.com" 2
  = url "https://www.trustpilot.com/review/acme.com" 1 ++ "&page=2".
Proof.
  apply (proj2 (proj2 (trustpilot_page_url
                         "https://www.trustpilot.com/review/acme.com" 2))).
  discriminate.
Defined.

End UrlProps.

(* ===================================================================== *)
(** * Properties of the dates read *)
(* ===================================================================== *)
Module RelativeDateProps.
Import Js Reference Shapes Common DateProps StringProps CommonProps RegexProps.
Open Scope Z_scope.

Lemma digit_value_range (c : ascii) :
  is_digit c = true -> 0 <= digit_value c <= 9.
Proof.
  unfold is_digit, digit_value. intros H.
  apply andb_true_iff in H. destruct H as [H1 H2].
  apply Nat.leb_le in H1, H2. lia.
Qed.

(** Reading digits on from [a] gives a number that starts with [a]. *)
Lemma read_digits_range (s : string) (a : Z) :
  all_digits s = true -> 0 <= a ->
  exists v, read_digits 10 (Some a) s = Some v
            /\ a * 10 ^ Z.of_nat (String.length s) <= v
               < (a + 1) * 10 ^ Z.of_nat (String.length s).
Proof.
  revert a. induction s as [|c s IH]; intros a Hs Ha.
  - exists a. split; [reflexivity|]. cbn. lia.
  - cbn [all_digits] in Hs. apply andb_true_iff in Hs. destruct Hs as [Hc Hs].
    cbn [read_digits]. unfold radix_value.
    change (10 =? 16) with false. cbv beta iota. rewrite Hc. cbv beta iota.
    pose proof (digit_value_range c Hc) as Hd.
    destruct (IH (a * 10 + digit_value c) Hs ltac:(lia)) as [v [Hv Hr]].
    exists v. split; [exact Hv|].
    cbn [String.length]. rewrite Nat2Z.inj_succ, Z.pow_succ_r by lia.
    assert (0 < 10 ^ Z.of_nat (String.length s)) by (apply Z.pow_pos_nonneg; lia).
    nia.
Qed.

Lemma digits_toNumber_range (s : string) :
  all_digits s = true ->
  0 <= digits_toNumber s < 10 ^ Z.of_nat (String.length s).
Proof.
  intros Hs. unfold digits_toNumber. destruct s as [|c s].
  - cbn. lia.
  - cbn [all_digits] in Hs. apply andb_true_iff in Hs. destruct Hs as [Hc Hs].
    cbn [read_digits]. unfold radix_value.
    change (10 =? 16) with false. cbv beta iota. rewrite Hc. cbv beta iota.
    pose proof (digit_value_range c Hc) as Hd.
    destruct (read_digits_range s (digit_value c) Hs ltac:(lia)) as [v [-> Hr]].
    cbn [String.length]. rewrite Nat2Z.inj_succ, Z.pow_succ_r by lia.
    assert (0 < 10 ^ Z.of_nat (String.length s)) by (apply Z.pow_pos_nonneg; lia).
    nia.
Qed.

Lemma fits_all_digits (t s : string) :
  all_digits t = true -> fits t s = true -> all_digits s = true.
Proof.
  revert s. induction t as [|x t IH]; intros [|c s] Ht H; cbn in *;
    try discriminate; [reflexivity|].
  apply andb_true_iff in Ht. destruct Ht as [Hx Ht]. rewrite Hx in H.
  apply andb_true_iff in H. destruct H as [Hc H].
  rewrite Hc, (IH _ Ht H). reflexivity.
Qed.

(** A date built from a year of four digits and from a month and a day
    of two digits at most is a valid date. *)
Lemma Date_ymd_small (y m d : Z) :
  0 <= y <= 9999 -> 0 <= m <= 99 -> 0 <= d <= 99 ->
  exists t, Date_ymd (Some y) (Some (m - 1)) (Some d) = Some t.
Proof.
  intros Hy Hm Hd. unfold Date_ymd.
  set (yr := if (0 <=? y) && (y <=? 99) then 1900 + y else y).
  assert (Hyr : 100 <= yr <= 9999).
  { subst yr. destruct (Z.leb_spec 0 y), (Z.leb_spec y 99); cbn [andb]; lia. }
  unfold TimeClip.
  assert (Hb : Z.abs (MakeDay yr (m - 1) d * msPerDay) <= 8640000000000000).
  { rewrite MakeDay_carry.
    assert (Hmod : 0 <= (m - 1) mod 12 <= 11) by div_lia.
    rewrite MakeDay_in_range by exact Hmod.
    pose proof (InLeapYear_range (yr + (m - 1) / 12)) as Hl.
    pose proof (month_start_range ((m - 1) mod 12)
                  (InLeapYear (yr + (m - 1) / 12)) Hmod ltac:(lia)) as Hs.
    pose proof (DayFromYear_mono 99 (yr + (m - 1) / 12) ltac:(div_lia)) as Hlo.
    pose proof (DayFromYear_mono (yr + (m - 1) / 12) 10008 ltac:(div_lia)) as Hhi.
    change (DayFromYear 99) with (-683368) in Hlo.
    change (DayFromYear 10008) with 2935819 in Hhi.
    unfold msPerDay. lia. }
  apply Z.leb_le in Hb. rewrite Hb. eauto.
Qed.

Ltac peel_digit H s :=
  destruct s as [|? s]; [discriminate H|];
  cbn [fits] in H;
  change (is_digit "0") with true in H; cbv iota in H;
  apply andb_true_iff in H;
  let Hc := fresh "Hdigit" in destruct H as [Hc H].

Ltac peel_end H s := destruct s; [clear H | discriminate H].

Ltac run_patterns :=
  unfold parseDate, trim; cbn [append trimStart];
  repeat match goal with
         | H : is_digit ?c = true |- context [is_space ?c] =>
             rewrite (digit_not_space c H)
         end;
  cbn [trimEnd];
  repeat match goal with
         | H : is_digit ?c = true |- context [is_space ?c] =>
             rewrite (digit_not_space c H)
         end;
  cbv beta iota zeta delta
    [exec search_from match_at rmatch rest pos caps cset_mem re_ymd re_mdy
       Opt Nat.eqb Ascii.eqb Bool.eqb Nat.ltb Nat.leb Nat.sub group_text group
       lookup_cap m_caps m_text m_index take substring];
  repeat match goal with
         | H : is_digit ?c = true |- context [is_digit ?c] => rewrite H
         end;
  cbv beta iota;
  change (is_digit "/") with false; cbv beta iota;
  repeat match goal with
         | H : is_digit ?c = true |- context [is_digit ?c] => rewrite H
         end;
  cbv beta iota.

Section WithDateParse.

Variable Date_parse : string -> Date.

Lemma parseDate_slash_value (y m d : string) :
  fits "0000" y = true ->
  fits "0" m || fits "00" m = true ->
  fits "0" d || fits "00" d = true ->
  let date := Date_ymd (Some (digits_toNumber y))
                       (Some (digits_toNumber m - 1))
                       (Some (digits_toNumber d)) in
  parseDate Date_parse (y ++ "/" ++ m ++ "/" ++ d) = date
  /\ parseDate Date_parse (m ++ "/" ++ d ++ "/" ++ y) = date.
Proof.
  intros Hy Hm Hd.
  peel_digit Hy y. peel_digit Hy y. peel_digit Hy y.
  peel_digit Hy y. peel_end Hy y.
  apply orb_true_iff in Hm, Hd.
  destruct Hm as [Hm | Hm], Hd as [Hd | Hd].
  - peel_digit Hm m. peel_end Hm m. peel_digit Hd d. peel_end Hd d.
    split; run_patterns; reflexivity.
  - peel_digit Hm m. peel_end Hm m.
    peel_digit Hd d. peel_digit Hd d. peel_end Hd d.
    split; run_patterns; reflexivity.
  - peel_digit Hm m. peel_digit Hm m. peel_end Hm m.
    peel_digit Hd d. peel_end Hd d.
    split; run_patterns; reflexivity.
  - peel_digit Hm m. peel_digit Hm m. peel_end Hm m.
    peel_digit Hd d. peel_digit Hd d. peel_end Hd d.
    split; run_patterns; reflexivity.
Qed.

(** X6.  [parseDate] reads a text of the form YYYY/MM/DD, and a text
    of the form MM/DD/YYYY, month and day of one or two digits, as the
    local date the [Date] constructor builds from the three numbers, the
    same for the two forms; the engine's own parser is not asked, and
    the date is a valid one whatever the month and the day, which are
    not checked: a month past 12 or a day past the end of the month is
    carried over. *)
Theorem parseDate_slash (y m d : string) :
  fits "0000" y = true ->
  fits "0" m || fits "00" m = true ->
  fits "0" d || fits "00" d = true ->
  exists t,
    Date_ymd (Some (digits_toNumber y)) (Some (digits_toNumber m - 1))
             (Some (digits_toNumber d)) = Some t
    /\ parseDate Date_parse (y ++ "/" ++ m ++ "/" ++ d) = Some t
    /\ parseDate Date_parse (m ++ "/" ++ d ++ "/" ++ y) = Some t.
Proof.
  intros Hy Hm Hd.
  destruct (parseDate_slash_value y m d Hy Hm Hd) as [H1 H2].
  assert (Hyd : all_digits y = true)
    by (apply (fits_all_digits "0000"); [reflexivity | exact Hy]).
  assert (Hmd : all_digits m = true /\ (String.length m <= 2)%nat).
  { apply orb_true_iff in Hm. destruct Hm as [Hm | Hm].
    - split; [apply (fits_all_digits "0"); [reflexivity | exact Hm]|].
      rewrite (fits_length _ _ Hm). cbn. lia.
    - split; [apply (fits_all_digits "00"); [reflexivity | exact Hm]|].
      rewrite (fits_length _ _ Hm). cbn. lia. }
  assert (Hdd : all_digits d = true /\ (String.length d <= 2)%nat).
  { apply orb_true_iff in Hd. destruct Hd as [Hd | Hd].
    - split; [apply (fits_all_digits "0"); [reflexivity | exact Hd]|].
      rewrite (fits_length _ _ Hd). cbn. lia.
    - split; [apply (fits_all_digits "00"); [reflexivity | exact Hd]|].
      rewrite (fits_length _ _ Hd). cbn. lia. }
  assert (Hpow : forall s : string, (String.length s <= 2)%nat ->
                   10 ^ Z.of_nat (String.length s) <= 100).
  { intros s Hs. change 100 with (10 ^ 2).
    apply Z.pow_le_mono_r; lia. }
  assert (Ry : 0 <= digits_toNumber y <= 9999).
  { pose proof (digits_toNumber_range y Hyd) as R.
    rewrite (fits_length _ _ Hy) in R.
    change (10 ^ Z.of_nat (String.length "0000")) with 10000 in R. lia. }
  assert (Rm : 0 <= digits_toNumber m <= 99).
  { pose proof (digits_toNumber_range m (proj1 Hmd)).
    pose proof (Hpow m (proj2 Hmd)). lia. }
  assert (Rd : 0 <= digits_toNumber d <= 99).
  { pose proof (digits_toNumber_range d (proj1 Hdd)).
    pose proof (Hpow d (proj2 Hdd)). lia. }
  destruct (Date_ymd_small (digits_toNumber y) (digits_toNumber m)
              (digits_toNumber d) Ry Rm Rd) as [t Ht].
  exists t. cbv zeta in H1, H2. rewrite H1, H2. auto.
Qed.

Lemma relative_shape (n : nat) (unit_ : string) :
  let s := (nat_toString n ++ String " " unit_)%string in
  parseInt s = Some (Z.of_nat n)
  /\ forall c0 pat, is_digit c0 = false ->
       includes (toLowerCase s) (String c0 pat)
       = includes (String " " (toLowerCase unit_)) (String c0 pat).
Proof.
  cbn zeta. split.
  - apply parseInt_decimal. split; reflexivity.
  - intros c0 pat Hc0.
    rewrite toLowerCase_app, (toLowerCase_digits _ (nat_toString_digits n)).
    rewrite includes_after_digits by (try apply nat_toString_digits; exact Hc0).
    reflexivity.
Qed.


(** X7.  At the instant [now], a text of [n] followed by [days ago]
    resolves to the instant [n] days before [now], at the same time of
    the day, as long as that is a date the engine can hold. *)
Theorem days_ago (now : Z) (n : nat) :
  Z.abs now <= 8640000000000000 ->
  Z.abs (now - Z.of_nat n * msPerDay) <= 8640000000000000 ->
  calculateDateFromRelative Date_parse now (nat_toString n ++ " days ago")
  = Some (now - Z.of_nat n * msPerDay).
Proof.
  intros Hnow Hres.
  destruct (relative_shape n "days ago") as [Hp Hinc].
  unfold calculateDateFromRelative.
  rewrite !Hinc by reflexivity. rewrite Hp.
  change (includes (String " " (toLowerCase "days ago")) "year") with false.
  change (includes (String " " (toLowerCase "days ago")) "month") with false.
  change (includes (String " " (toLowerCase "days ago")) "day") with true.
  cbv beta iota. cbn [num_sub]. unfold setDate.
  assert (Hday : MakeDay (getFullYear now) (getMonth now)
                         (getDate now - Z.of_nat n)
                 = Day now - Z.of_nat n).
  { pose proof (MakeDay_fields (Day now)) as Hself.
    unfold getFullYear, getMonth, getDate. unfold MakeDay in *. lia. }
  rewrite Hday.
  replace ((Day now - Z.of_nat n) * msPerDay + TimeWithinDay now)
    with (now - Z.of_nat n * msPerDay)
    by (unfold Day, TimeWithinDay, msPerDay; div_lia).
  unfold TimeClip. apply Z.leb_le in Hres. rewrite Hres. reflexivity.
Qed.


(** X9.  A text with one of the words year, month or day of which
    [parseInt] reads no number -- [a month ago], [Yesterday], the name
    of a day of the week -- resolves to no date, and a review so dated
    is in no range. *)
Theorem unread_relative_dates (now : Z) (s : string) :
  parseInt s = None ->
  includes (toLowerCase s) "year" || includes (toLowerCase s) "month"
    || includes (toLowerCase s) "day" = true ->
  calculateDateFromRelative Date_parse now s = None
  /\ forall startDate endDate,
       isReviewInDateRange Date_parse now s startDate endDate = false.
Proof.
  intros Hp Hw.
  assert (Hnone : calculateDateFromRelative Date_parse now s = None).
  { unfold calculateDateFromRelative. rewrite Hp.
    destruct (includes (toLowerCase s) "year"); [reflexivity|].
    destruct (includes (toLowerCase s) "month"); [reflexivity|].
    destruct (includes (toLowerCase s) "day"); [reflexivity|].
    discriminate Hw. }
  split; [exact Hnone|].
  intros startDate endDate. unfold isReviewInDateRange. rewrite Hnone.
  reflexivity.
Qed.

End WithDateParse.

Lemma parseDate_slash_witness :
  exists t,
    parseDate (fun _ => None) "2024/02/30" = Some t
    /\ parseDate (fun _ => None) "02/30/2024" = Some t.
Proof.
  destruct (parseDate_slash (fun _ => None) "2024" "02" "30")
    as [t [_ H]]; try reflexivity.
  exists t. exact H.
Defined.

Lemma days_ago_witness :
  calculateDateFromRelative (fun _ => None) Examples.march_15
    (nat_toString 20 ++ " days ago")
  = Some (Examples.march_15 - 20 * msPerDay).
Proof.
  apply (days_ago (fun _ => None) Examples.march_15 20);
    vm_compute; congruence.
Defined.


Lemma unread_relative_dates_witness :
  calculateDateFromRelative (fun _ => None) Examples.march_15 "a month ago"
  = None.
Proof.
  apply (unread_relative_dates (fun _ => None) Examples.march_15
           "a month ago"); reflexivity.
Defined.

End RelativeDateProps.

(* ===================================================================== *)
(** * Properties of the records *)
(* ===================================================================== *)
Module RecordProps.
Import Js Reference Shapes ParserProps.



Lemma first_truthy_default (candidates : list string) (dflt : string) :
  truthy dflt = true -> truthy (first_truthy candidates dflt) = true.
Proof.
  intros H. induction candidates as [|c l IH]; [exact H|].
  cbn [first_truthy]. destruct (truthy c) eqn:E; [exact E | exact IH].
Qed.



(** X11.  A record of [parseG2HtmlContent] always has a date and a
    job title: an element without a date, or with the text [Unknown
    Date] for one, is dated 2024-06-01, and an element without a job
    title has the title [N/A].  Its content is the three answers. *)
Theorem g2_record_defaults (k : nat) (el : G2.ReviewElement)
    (r : ReviewRecord) :
  G2.parse_review k el = Some r ->
  truthy (reviewDate r) = true
  /\ reviewDate r <> "Unknown Date"
  /\ (G2.el_datetime el = None \/ G2.el_datetime el = Some "" ->
      trim (G2.el_timeText el) = "" \/ trim (G2.el_timeText el) = "Unknown Date" ->
      reviewDate r = "2024-06-01")
  /\ jobTitle r = or_else (trim (G2.el_jobTitleText el)) "N/A"
  /\ truthy (jobTitle r) = true
  /\ exists like dislike problemsSolved,
       content r = G2Answers like dislike problemsSolved.
Proof.
  unfold G2.parse_review. cbv zeta.
  destruct (_ && _); [discriminate|].
  intros H. injection H as <-.
  cbn [reviewDate jobTitle content first_truthy].
  set (a := match G2.el_datetime el with Some a => a | None => "" end).
  set (b := trim (G2.el_timeText el)).
  set (found := if truthy a then a else if truthy b then b else "2024-06-01").
  assert (Hfound : truthy found = true).
  { subst found. destruct (truthy a) eqn:Ea; [exact Ea|].
    destruct (truthy b) eqn:Eb; [exact Eb | reflexivity]. }
  split; [|split; [|split; [|split; [|split]]]].
  - destruct (String.eqb found "Unknown Date"); cbn [orb]; [reflexivity|].
    rewrite Hfound. exact Hfound.
  - destruct (String.eqb found "Unknown Date") eqn:E; cbn [orb];
      [discriminate|].
    rewrite Hfound. cbn [negb]. intros H. rewrite H in E. discriminate.
  - intros Hattr Htext.
    assert (Ha : a = "") by (subst a; destruct Hattr as [-> | ->]; reflexivity).
    subst found. rewrite Ha. cbn [truthy].
    destruct Htext as [-> | ->]; reflexivity.
  - reflexivity.
  - apply or_else_truthy. reflexivity.
  - eauto.
Qed.

Lemma g2_record_defaults_witness :
  exists r,
    G2.parse_review 0 Cases.undated_element = Some r
    /\ reviewDate r = "2024-06-01".
Proof.
  assert (H : exists r, G2.parse_review 0 Cases.undated_element = Some r).
  { vm_compute. eexists. reflexivity. }
  destruct H as [r Hr]. exists r. split; [exact Hr|].
  apply (proj1 (proj2 (proj2 (g2_record_defaults 0 _ r Hr))));
    left; reflexivity.
Defined.

(** ** Trustpilot *)

Lemma includes_T_head (c : ascii) (s : string) :
  includes (String c s) "T"
  = if (nat_of_ascii c =? 84)%nat then true else includes s "T".
Proof.
  cbn [includes prefix].
  destruct (ascii_dec "T" c) as [<- | Hne].
  - destruct s; reflexivity.
  - assert (Hc : (nat_of_ascii c =? 84)%nat = false).
    { apply Nat.eqb_neq. intros E. apply Hne.
      rewrite <- (ascii_nat_embedding c), E. reflexivity. }
    rewrite Hc. reflexivity.
Qed.

Lemma before_T_no_T (s : string) :
  includes (Trustpilot.before_T s) "T" = false.
Proof.
  induction s as [|c s IH]; [reflexivity|].
  cbn [Trustpilot.before_T].
  destruct (nat_of_ascii c =? 84)%nat eqn:E; [reflexivity|].
  rewrite includes_T_head, E. exact IH.
Qed.

Lemma before_T_day (day rest : string) :
  includes day "T" = false ->
  includes (day ++ String "T" rest) "T" = true
  /\ Trustpilot.before_T (day ++ String "T" rest) = day.
Proof.
  induction day as [|c day IH]; intros Hday.
  - split; reflexivity || (cbn [append]; rewrite includes_T_head; reflexivity).
  - rewrite includes_T_head in Hday.
    destruct (nat_of_ascii c =? 84)%nat eqn:E; [discriminate Hday|].
    destruct (IH Hday) as [H1 H2].
    cbn [append Trustpilot.before_T]. rewrite includes_T_head, E, H1, H2.
    split; reflexivity.
Qed.

(** X12.  The date of a record of the Trustpilot parser is the value
    of the [datetime] attribute of the card, or else the text of its
    time element, cut before the first [T]: of a time stamp the day
    alone is kept, and no date of a record holds a [T]. *)
Theorem trustpilot_record_date (card : Trustpilot.Card) :
  let r := Trustpilot.parse_card card in
  let found :=
    match Trustpilot.crd_datetime card with
    | Some a => or_else a (trim (Trustpilot.crd_timeText card))
    | None => trim (Trustpilot.crd_timeText card)
    end in
  includes (reviewDate r) "T" = false
  /\ (includes found "T" = false -> reviewDate r = found)
  /\ (forall day rest,
        includes day "T" = false -> found = day ++ String "T" rest ->
        reviewDate r = day)
  /\ jobTitle r = "".
Proof.
  cbn zeta. unfold Trustpilot.parse_card. cbn [reviewDate jobTitle].
  set (found := match Trustpilot.crd_datetime card with
                | Some a => or_else a (trim (Trustpilot.crd_timeText card))
                | None => trim (Trustpilot.crd_timeText card)
                end).
  split; [|split; [|split; [|reflexivity]]].
  - destruct (includes found "T") eqn:E; [apply before_T_no_T | exact E].
  - intros ->. reflexivity.
  - intros day rest Hday ->.
    destruct (before_T_day day rest Hday) as [-> ->]. reflexivity.
Qed.

Lemma trustpilot_record_date_witness :
  reviewDate (Trustpilot.parse_card
                (Examples.dated_card "2023-06-01T10:00:00.000Z"))
  = "2023-06-01".
Proof.
  apply (proj1 (proj2 (proj2 (trustpilot_record_date
                                (Examples.dated_card "2023-06-01T10:00:00.000Z"))))
           "2023-06-01" "10:00:00.000Z"); reflexivity.
Defined.

(** ** Capterra *)

Lemma pick_review_text_spec (texts : list string) :
  let t := Capterra.pick_review_text texts in
  t = ""
  \/ (In t (map trim texts)
      /\ includes t "Comments:" = false
      /\ includes t "Pros:" = false
      /\ includes t "Cons:" = false).
Proof.
  cbn zeta. induction texts as [|x texts IH]; [left; reflexivity|].
  cbn [Capterra.pick_review_text map].
  destruct (truthy (trim x) && negb (includes (trim x) "Comments:")
            && negb (includes (trim x) "Pros:")
            && negb (includes (trim x) "Cons:")) eqn:E.
  - right. repeat (apply andb_true_iff in E; destruct E as [E ?]).
    repeat match goal with
           | H : negb _ = true |- _ => apply negb_true_iff in H
           end.
    split; [left; reflexivity|]. auto.
  - destruct IH as [IH | [Hin H]]; [left; exact IH|].
    right. split; [right; exact Hin | exact H].
Qed.

(** X13.  A record of the Capterra parser has no title, and its text
    is empty or the trimmed text one of the text selectors finds in the
    card, the first that is not empty and holds none of the labels
    [Comments:], [Pros:] and [Cons:]: no text of a record holds one of
    these. *)
Theorem capterra_record_text (card : Capterra.Card) (r : ReviewRecord) :
  Capterra.parse_card card = Some r ->
  reviewTitle r = ""
  /\ reviewerName r = trim (Capterra.crd_nameText card)
  /\ exists t,
       content r = ReviewText t
       /\ (t = ""
           \/ (In t (map trim (Capterra.crd_reviewTexts card))
               /\ includes t "Comments:" = false
               /\ includes t "Pros:" = false
               /\ includes t "Cons:" = false)).
Proof.
  unfold Capterra.parse_card.
  destruct (_ || _); [|discriminate].
  intros H. injection H as <-. cbn [reviewTitle reviewerName content].
  split; [reflexivity|]. split; [reflexivity|].
  eexists. split; [reflexivity|]. apply pick_review_text_spec.
Qed.

Lemma capterra_record_text_witness :
  exists r,
    Capterra.parse_card Examples.a_card = Some r /\ reviewTitle r = "".
Proof.
  assert (H : exists r, Capterra.parse_card Examples.a_card = Some r).
  { vm_compute. eexists. reflexivity. }
  destruct H as [r Hr]. exists r. split; [exact Hr|].
  apply (proj1 (capterra_record_text Examples.a_card r Hr)).
Defined.

End RecordProps.

(* ===================================================================== *)
(** * Properties of the outcome of the retries *)
(* ===================================================================== *)
Module OutcomeProps.
Import Js Reference Outcomes RetryProps.

Ltac known_attempts :=
  repeat match goal with
         | E : ?f ?p ?a = _ |- context [?f ?p ?a] => rewrite E
         | E : ?f ?a = _ |- context [?f ?a] => rewrite E
         end.

(** The parser gives an error or the data of the page. *)
Lemma capterra_parse_cases (p : Capterra.Page) :
  (exists e, pr_error (Capterra.parsedDataFromHTML_Capterra p) = Some e)
  \/ (pr_error (Capterra.parsedDataFromHTML_Capterra p) = None
      /\ exists pd,
           pr_productData (Capterra.parsedDataFromHTML_Capterra p) = Some pd).
Proof.
  unfold Capterra.parsedDataFromHTML_Capterra.
  destruct (_ && _); [left; eexists; reflexivity|].
  destruct (Capterra.pg_throws p); [left | right]; cbn; eauto.
Qed.

Ltac parse_case p :=
  let H := fresh "Hparse" in
  let Hd := fresh "Hdata" in
  destruct (capterra_parse_cases p) as [[? H] | [H [? Hd]]];
  unfold Capterra.review_count;
  rewrite ?H, ?Hd; cbv beta iota.

Section G2.

Variable Date_parse : string -> Date.
Variable now : Z.
Variable fetchHtml : nat -> nat -> completion G2.Page.

(** X14.  [scrapeG2WithProxy] returns [null] in one case only: the
    fetch of the third attempt fails, after two attempts that failed or
    found no review.  It then has made the three attempts, 5000 ms
    apart, and nothing else. *)
Theorem g2_null (startDate endDate : string) (maxReviews : nat) :
  let run := G2.scrapeG2WithProxy Date_parse now fetchHtml
               startDate endDate maxReviews in
  (G2.run_result run = None <->
   g2_found (fetchHtml 1 1) = false /\ g2_found (fetchHtml 1 2) = false
   /\ threw (fetchHtml 1 3) = true)
  /\ (G2.run_result run = None ->
      G2.run_trace run = three_attempts 1 false).
Proof.
  cbn zeta. unfold G2.scrapeG2WithProxy, g2_found, threw.
  cbn [G2.retry_loop Nat.eqb app].
  split_attempts;
    cbn [G2.run_result G2.run_trace];
    repeat match goal with
           | |- context [if ?b then _ else _] => destruct b
           end;
    cbn [G2.run_result G2.run_trace];
    (split; [split; [intros H; try discriminate H; auto
                    | intros [H1 [H2 H3]]; try discriminate; reflexivity]
            | intros H; try discriminate H; reflexivity]).
Qed.

End G2.

Lemma g2_null_witness :
  let run := G2.scrapeG2WithProxy Examples.iso_dates Examples.march_15
               Cases.g2_down "2023-01-01" "2023-12-31" 50 in
  G2.run_result run = None /\ G2.run_trace run = three_attempts 1 false.
Proof.
  cbv zeta.
  destruct (g2_null Examples.iso_dates Examples.march_15 Cases.g2_down
              "2023-01-01" "2023-12-31" 50) as [Hnull Htrace].
  assert (Hnone := proj2 Hnull (conj eq_refl (conj eq_refl eq_refl))).
  split; [exact Hnone | exact (Htrace Hnone)].
Defined.

Section Capterra.

Variable Date_parse : string -> Date.
Variable now : Z.
Variable fetchHtml : nat -> completion Capterra.Page.

(** X15.  [scrapeAndFilterReviews_Capterra] returns [null] in one case
    only: the third attempt ends in a failed fetch or in a parse error,
    after two attempts that found no review. *)
Theorem capterra_null (startDate endDate : string) :
  let run := Capterra.scrapeAndFilterReviews_Capterra Date_parse now fetchHtml
               startDate endDate in
  Capterra.run_result run = None <->
  capterra_found (fetchHtml 1) = false /\ capterra_found (fetchHtml 2) = false
  /\ threw (fetchHtml 3) || capterra_error (fetchHtml 3) = true.
Proof.
  cbn zeta.
  unfold Capterra.scrapeAndFilterReviews_Capterra, capterra_found,
    capterra_error, threw.
  cbn [Capterra.retry_loop Nat.eqb app].
  destruct (fetchHtml 1) as [p1|e1]; destruct (fetchHtml 2) as [p2|e2];
    destruct (fetchHtml 3) as [p3|e3];
    try parse_case p1; try parse_case p2; try parse_case p3;
    repeat match goal with
           | |- context [(0 <? ?n)%nat] => destruct (0 <? n)%nat
           end;
    cbv beta iota;
    repeat match goal with
           | H : pr_productData ?r = _ |- context [pr_productData ?r] =>
               rewrite H
           end;
    cbn [Capterra.run_result orb];
    (split; [intros H; try discriminate H; auto
            | intros [H1 [H2 H3]]; try discriminate; reflexivity]).
Qed.

End Capterra.

Section CapterraAttempts.

Variable fetchHtml : nat -> completion Capterra.Page.

(** X16.  In the retry loop of the Capterra scraper, a first or second
    attempt that finds no review is followed by the next attempt: at
    once when its parse ended in an error, and after the delay of
    5000 ms when the fetch failed or the page had no review. *)
Theorem capterra_after_attempt (a : nat) :
  let tr := snd (Capterra.retry_loop fetchHtml 3 1 None []) in
  1 <= a <= 2 ->
  In (EvFetch 1 a) tr ->
  capterra_found (fetchHtml a) = false ->
  In (EvFetch 1 (S a)) tr
  /\ next_event (EvFetch 1 a) tr
     = Some (if capterra_error (fetchHtml a)
             then EvFetch 1 (S a) else EvDelay 5000).
Proof.
  cbn zeta. intros Ha.
  assert (a = 1 \/ a = 2) as [-> | ->] by lia;
    unfold capterra_found, capterra_error;
    cbn [Capterra.retry_loop Nat.eqb app];
    destruct (fetchHtml 1) as [p1|e1]; destruct (fetchHtml 2) as [p2|e2];
    destruct (fetchHtml 3) as [p3|e3];
    try parse_case p1; try parse_case p2; try parse_case p3;
    repeat match goal with
           | |- context [(0 <? ?n)%nat] => destruct (0 <? n)%nat
           end;
    cbn [snd app]; intros Hin Hfound;
    try discriminate Hfound;
    try (exfalso; cbn in Hin; intuition discriminate);
    (split; [cbn; tauto | reflexivity]).
Qed.

End CapterraAttempts.

Lemma capterra_null_witness :
  Capterra.run_result
    (Capterra.scrapeAndFilterReviews_Capterra Examples.iso_dates
       Examples.march_15 Cases.capterra_down "2023-01-01" "2023-12-31")
  = None.
Proof.
  apply (proj2 (capterra_null Examples.iso_dates Examples.march_15
                  Cases.capterra_down "2023-01-01" "2023-12-31")).
  split; [reflexivity|]. split; reflexivity.
Defined.

Lemma capterra_after_attempt_witness :
  let tr := snd (Capterra.retry_loop Examples.error_then_page 3 1 None []) in
  In (EvFetch 1 2) tr /\ next_event (EvFetch 1 1) tr = Some (EvFetch 1 2).
Proof.
  cbv zeta.
  assert (H1 : In (EvFetch 1 1)
                  (snd (Capterra.retry_loop Examples.error_then_page 3 1
                          None []))) by (vm_compute; left; reflexivity).
  assert (H2 : capterra_found (Examples.error_then_page 1) = false)
    by (vm_compute; reflexivity).
  assert (H3 : capterra_error (Examples.error_then_page 1) = true)
    by (vm_compute; reflexivity).
  pose proof (capterra_after_attempt Examples.error_then_page 1
                ltac:(lia) H1 H2) as [Hin Hnext].
  rewrite H3 in Hnext. split; [exact Hin | exact Hnext].
Defined.

End OutcomeProps.

(* ===================================================================== *)
(** * Properties of the result of the Trustpilot scraper *)
(* ===================================================================== *)
Module TrustpilotResultProps.
Import Js Reference Outcomes TrustpilotPaginationProps.

Section Result.

Variable Date_parse : string -> Date.
Variable fetchHtml : nat -> nat -> completion Trustpilot.Page.
Variables startDate endDate : Date.

Let loop := Trustpilot.page_loop Date_parse fetchHtml.
Let reviews := tp_page_reviews Date_parse fetchHtml startDate endDate.

(** One iteration of the loop over the pages, with what it does to the
    reviews and to the header. *)
Lemma page_loop_result_step (fuel page : nat) (allReviews : list ReviewRecord)
    (productInfo : option ProductSummary) (tr : list event) :
  (exists r,
      loop (S fuel) startDate endDate page allReviews productInfo tr = Some r
      /\ Trustpilot.run_page r = page
      /\ match Trustpilot.run_reason r with
         | Trustpilot.OlderThanStart | Trustpilot.NoNextPage =>
             Trustpilot.run_result r
             = Normal (mkResult (tp_header fetchHtml productInfo page)
                         (allReviews ++ reviews page)
                         (List.length (allReviews ++ reviews page)))
         | Trustpilot.ParserError | Trustpilot.NoReviews =>
             Trustpilot.run_result r
             = Normal (mkResult productInfo allReviews (List.length allReviews))
         | Trustpilot.NothingFetched =>
             exists e, Trustpilot.run_result r = Throw e
         end)
  \/ (tp_summary fetchHtml page <> None
      /\ exists tr',
           loop (S fuel) startDate endDate page allReviews productInfo tr
           = loop fuel startDate endDate (S page)
               (allReviews ++ reviews page)
               (tp_header fetchHtml productInfo page) tr').
Proof.
  subst loop reviews. unfold tp_header, tp_page_reviews, tp_summary.
  cbn [Trustpilot.page_loop].
  rewrite (retry_loop_trace fetchHtml page 3 1 None None tr).
  fold (tp_unit fetchHtml page).
  assert (Hparsed : tp_parsed fetchHtml page = fst (fst (tp_unit fetchHtml page)))
    by reflexivity.
  destruct (tp_unit fetchHtml page) as [[parsedResult resp] events].
  cbn [fst snd] in Hparsed.
  unfold tp_records. rewrite Hparsed.
  destruct parsedResult as [parsedResult|].
  2:{ left. eexists. split; [reflexivity|]. split; [reflexivity|].
      cbn. eexists; reflexivity. }
  destruct (pr_error parsedResult) as [e|].
  { left. eexists. split; [reflexivity|]. split; reflexivity. }
  destruct (pr_productData parsedResult) as [productData|].
  2:{ left. eexists. split; [reflexivity|]. split; [reflexivity|].
      cbn. eexists; reflexivity. }
  destruct (Trustpilot.last_item (pd_allReviews productData)) as [lastReview|].
  2:{ left. eexists. split; [reflexivity|]. split; reflexivity. }
  destruct (date_lt (Date_parse (reviewDate lastReview)) startDate).
  { left. eexists. split; [reflexivity|]. split; reflexivity. }
  destruct resp as [body|].
  2:{ left. eexists. split; [reflexivity|]. split; [reflexivity|].
      cbn. eexists; reflexivity. }
  destruct (Trustpilot.pg_nextLink body) as [href|].
  2:{ left. eexists. split; [reflexivity|]. split; reflexivity. }
  destruct (truthy href).
  - right. split; [discriminate|]. eexists. reflexivity.
  - left. eexists. split; [reflexivity|]. split; reflexivity.
Qed.

(** What the loop returns when it starts at [page] with the reviews and
    the header of the pages before. *)
Lemma page_loop_result (fuel page : nat) (all : list ReviewRecord)
    (productInfo : option ProductSummary) (tr : list event)
    (r : Trustpilot.run) (res : ScrapeResult) :
  1 <= page ->
  loop fuel startDate endDate page all productInfo tr = Some r ->
  Trustpilot.run_result r = Normal res ->
  page <= S (tp_added r)
  /\ allReviews res
     = (all ++ List.concat (map reviews (seq page (S (tp_added r) - page))))%list
  /\ totalScrapedReviews res = List.length (allReviews res)
  /\ summary res
     = match productInfo with
       | Some info => Some info
       | None => if (page <=? tp_added r)%nat
                 then tp_summary fetchHtml page else None
       end.
Proof.
  revert page all productInfo tr.
  induction fuel as [|fuel IH]; intros page all productInfo tr Hpos Hrun Hres;
    [discriminate|].
  destruct (page_loop_result_step fuel page all productInfo tr)
    as [[r' [Hr [Hpage Hwhy]]] | [Hsummary [tr' Hr]]].
  - rewrite Hr in Hrun. injection Hrun as <-.
    unfold tp_added. rewrite Hpage.
    destruct (Trustpilot.run_reason r').
    5:{ destruct Hwhy as [e Hwhy]. rewrite Hwhy in Hres. discriminate. }
    all: rewrite Hwhy in Hres; injection Hres as <-;
      cbn [allReviews totalScrapedReviews summary].
    + replace (S (page - 1) - page) with 0 by lia.
      cbn [seq map List.concat]. rewrite List.app_nil_r.
      split; [lia|]. split; [reflexivity|]. split; [reflexivity|].
      destruct productInfo; [reflexivity|].
      destruct (Nat.leb_spec page (page - 1)); [lia | reflexivity].
    + replace (S (page - 1) - page) with 0 by lia.
      cbn [seq map List.concat]. rewrite List.app_nil_r.
      split; [lia|]. split; [reflexivity|]. split; [reflexivity|].
      destruct productInfo; [reflexivity|].
      destruct (Nat.leb_spec page (page - 1)); [lia | reflexivity].
    + replace (S page - page) with 1 by lia.
      cbn [seq map List.concat]. rewrite List.app_nil_r.
      split; [lia|]. split; [reflexivity|]. split; [reflexivity|].
      unfold tp_header. destruct productInfo; [reflexivity|].
      rewrite Nat.leb_refl. reflexivity.
    + replace (S page - page) with 1 by lia.
      cbn [seq map List.concat]. rewrite List.app_nil_r.
      split; [lia|]. split; [reflexivity|]. split; [reflexivity|].
      unfold tp_header. destruct productInfo; [reflexivity|].
      rewrite Nat.leb_refl. reflexivity.
  - rewrite Hr in Hrun.
    destruct (IH (S page) _ _ _ ltac:(lia) Hrun Hres)
      as [Hle [Hall [Htotal Hinfo]]].
    split; [lia|]. split; [|split; [exact Htotal|]].
    + rewrite Hall.
      replace (S (tp_added r) - page) with (S (S (tp_added r) - S page)) by lia.
      cbn [seq map List.concat]. rewrite <- List.app_assoc. reflexivity.
    + rewrite Hinfo. unfold tp_header.
      destruct productInfo; [reflexivity|].
      destruct (Nat.leb_spec page (tp_added r)); [|lia].
      destruct (tp_summary fetchHtml page); [reflexivity | congruence].
Qed.

End Result.

(** X17.  What [scrapeAllPages_Trustpilot] returns holds, in the order
    of the pages, the reviews dated in the window of every page from the
    first to the last page taken: the page the run ended at when it
    ended on the date of the last review or for want of a next page, and
    the page before when it ended on a parse error or on a page without
    reviews.  The count is the number of these reviews, and the header
    is the one of the first page, or absent when no page was taken. *)
Theorem trustpilot_result (Date_parse : string -> Date)
    (fetchHtml : nat -> nat -> completion Trustpilot.Page)
    (fuel : nat) (startDateStr endDateStr : string)
    (r : Trustpilot.run) (res : ScrapeResult) :
  let window :=
    Trustpilot.in_window Date_parse
      (Date_parse startDateStr) (Date_parse endDateStr) in
  Trustpilot.scrapeAllPages_Trustpilot Date_parse fetchHtml fuel
    startDateStr endDateStr = Some r ->
  Trustpilot.run_result r = Normal res ->
  allReviews res
  = List.concat
      (map (fun page => filter window (tp_records fetchHtml page))
           (seq 1 (tp_added r)))
  /\ forallb window (allReviews res) = true
  /\ totalScrapedReviews res = List.length (allReviews res)
  /\ summary res = (if (tp_added r =? 0)%nat
                   then None else tp_summary fetchHtml 1).
Proof.
  cbn zeta. unfold Trustpilot.scrapeAllPages_Trustpilot. intros Hrun Hres.
  destruct (page_loop_result Date_parse fetchHtml _ _ fuel 1 [] None [] r res
              ltac:(lia) Hrun Hres)
    as [_ [Hall [Htotal Hinfo]]].
  cbn [app] in Hall. replace (S (tp_added r) - 1) with (tp_added r) in Hall by lia.
  split; [exact Hall|]. split; [|split; [exact Htotal|]].
  - rewrite Hall. apply forallb_forall. intros x Hx.
    apply in_concat in Hx. destruct Hx as [l [Hl Hx]].
    apply in_map_iff in Hl. destruct Hl as [p [<- _]].
    unfold tp_page_reviews in Hx. apply filter_In in Hx. apply Hx.
  - rewrite Hinfo. destruct (tp_added r); reflexivity.
Qed.

Lemma trustpilot_result_witness :
  exists r res,
    Trustpilot.scrapeAllPages_Trustpilot Examples.iso_dates
      Examples.tp_two_pages 10 "2023-01-01" "2023-12-31" = Some r
    /\ Trustpilot.run_result r = Normal res
    /\ totalScrapedReviews res = List.length (allReviews res)
    /\ List.length (allReviews res) = 1.
Proof.
  assert (H : exists r,
             Trustpilot.scrapeAllPages_Trustpilot Examples.iso_dates
               Examples.tp_two_pages 10 "2023-01-01" "2023-12-31" = Some r
             /\ exists res, Trustpilot.run_result r = Normal res
                            /\ List.length (allReviews res) = 1).
  { vm_compute. eexists. split; [reflexivity|].
    eexists. split; reflexivity. }
  destruct H as [r [Hrun [res [Hres Hlen]]]].
  exists r, res. split; [exact Hrun|]. split; [exact Hres|].
  split; [|exact Hlen].
  apply (trustpilot_result Examples.iso_dates Examples.tp_two_pages 10
           "2023-01-01" "2023-12-31" r res Hrun Hres).
Defined.

End TrustpilotResultProps.

(* ===================================================================== *)
(** * Properties of the dispatch *)
(* ===================================================================== *)
Module DispatchProps.
Import Js Reference Outcomes G2PaginationProps.



End DispatchProps.
